(** * DataPuller: the configuration-driven batch downloader

    A shallow embedding of [DataPuller/DataPuller.py] and the properties
    of its three parts: the configuration loader [load_config], the item
    processor [download_file] and the run aggregator [main].

    The script talks to the outside world (the configuration file, the
    network, the destination files, standard output).  The embedding
    makes that world explicit:

    - the contents of the regular files the script writes are a finite
      map from path strings to byte lists, threaded through every call;
    - everything the script asks of the world is recorded, in order, as
      a list of events (one per [print], [mkdir], [requests.get],
      [open], [write] and [close]);
    - what the world answers (does the directory creation succeed, what
      does the server send, does a write fail) is read from an
      environment that is a parameter of the development.

    Python exceptions and [sys.exit] are results of a computation next
    to normal return, so that "caught", "propagates" and "exit status"
    are statements about values.

    What the embedding leaves out: [print] always succeeds; a file is
    identified by the string the script passes to [open]; directories
    are not part of the file map (their creation is an event, and an
    outcome of the environment); the text of an exception raised by the
    interpreter is indicative. *)

From Stdlib Require Import ZArith List String Ascii Strings.Byte Bool Lia.
From Stdlib Require Import Floats.SpecFloat.
From stdpp Require Import base option list gmap strings fin_maps.

Open Scope string_scope.
Open Scope list_scope.
Set Warnings "-register-all".

(** ** Python values produced by [json.load] *)

(** JSON numbers become Python [int]s (unbounded) or [float]s; objects
    become [dict]s with string keys, arrays become [list]s. *)
Inductive pyval : Type :=
| PNone
| PBool (b : bool)
| PInt (z : Z)
| PFloat (f : spec_float)
| PStr (s : string)
| PList (l : list pyval)
| PDict (d : gmap string pyval).

(** Python truth value testing, as used by [not downloads] and
    [not url or not destination]. *)
Definition truthy (v : pyval) : bool :=
  match v with
  | PNone => false
  | PBool b => b
  | PInt z => negb (z =? 0)%Z
  | PFloat (S754_zero _) => false
  | PFloat _ => true
  | PStr s => negb (Nat.eqb (String.length s) 0)
  | PList l => negb (Nat.eqb (length l) 0)
  | PDict d => negb (Nat.eqb (size d) 0)
  end.

Definition type_name (v : pyval) : string :=
  match v with
  | PNone => "NoneType"
  | PBool _ => "bool"
  | PInt _ => "int"
  | PFloat _ => "float"
  | PStr _ => "str"
  | PList _ => "list"
  | PDict _ => "dict"
  end.

(** ** Exceptions *)

(** The classes that the script's [except] clauses tell apart, and the
    ones the interpreter raises on ill-typed configuration values.
    [OSError] stands for any [OSError] (Python 3's [IOError]) that is
    neither a [FileNotFoundError] nor a requests exception;
    [OtherException] for any further subclass of [Exception]. *)
Inductive exn_class : Type :=
| FileNotFoundError
| OSError
| RequestException
| JSONDecodeError
| ValueError
| TypeError
| AttributeError
| OtherException.

Record exn : Type := Exn { exn_cls : exn_class; exn_msg : string }.

(** [requests.exceptions.RequestException] derives from [IOError]. *)
Definition is_RequestException (e : exn) : bool :=
  match exn_cls e with RequestException => true | _ => false end.

Definition is_IOError (e : exn) : bool :=
  match exn_cls e with
  | FileNotFoundError | OSError | RequestException => true
  | _ => false
  end.

Definition is_FileNotFoundError (e : exn) : bool :=
  match exn_cls e with FileNotFoundError => true | _ => false end.

Definition is_JSONDecodeError (e : exn) : bool :=
  match exn_cls e with JSONDecodeError => true | _ => false end.

(** ** Events and printed lines *)

(** A printed line keeps the pieces of its f-string apart: literal text
    and the interpolated values. *)
Inductive fragment : Type :=
| Lit (s : string)
| Val (v : pyval)
| Num (n : nat)
| Exc (e : exn).

Definition line : Type := list fragment.

Definition nl : string := String (ascii_of_nat 10) EmptyString.

Fixpoint repeat_string (s : string) (n : nat) : string :=
  match n with
  | O => ""
  | S n' => s +:+ repeat_string s n'
  end.

Arguments repeat_string : simpl never.

Inductive event : Type :=
| EvPrint (l : line)
| EvMkdir (destination : string)
| EvGet (url : pyval)
| EvOpen (destination : string)
| EvWrite (destination : string) (chunk : list byte)
| EvClose (destination : string).

(** ** The monad of the script *)

Inductive result (A : Type) : Type :=
| Ok (a : A)
| Raised (e : exn)
| Exited (code : Z).
Arguments Ok {A} a.
Arguments Raised {A} e.
Arguments Exited {A} code.

Abbreviation filesys := (gmap string (list byte)).

(** A computation reads and updates the destination files, emits events
    and ends by returning, raising or exiting. *)
Definition M (A : Type) : Type := filesys -> result A * filesys * list event.

Definition ret {A} (a : A) : M A := fun fs => (Ok a, fs, []).

Definition bind {A B} (m : M A) (k : A -> M B) : M B :=
  fun fs =>
    match m fs with
    | (Ok a, fs1, t1) =>
        match k a fs1 with
        | (r, fs2, t2) => (r, fs2, t1 ++ t2)
        end
    | (Raised e, fs1, t1) => (Raised e, fs1, t1)
    | (Exited c, fs1, t1) => (Exited c, fs1, t1)
    end.

Definition raise {A} (e : exn) : M A := fun fs => (Raised e, fs, []).

(** [sys.exit(code)]: no [except] clause of the script catches it. *)
Definition sys_exit {A} (code : Z) : M A := fun fs => (Exited code, fs, []).

(** [try: body  except ...: handler]; the handler re-raises what its
    clauses do not match. *)
Definition try_except {A} (body : M A) (handler : exn -> M A) : M A :=
  fun fs =>
    match body fs with
    | (Raised e, fs1, t1) =>
        match handler e fs1 with
        | (r, fs2, t2) => (r, fs2, t1 ++ t2)
        end
    | other => other
    end.

Definition emit (ev : event) : M unit := fun fs => (Ok tt, fs, [ev]).

Definition print (l : line) : M unit := emit (EvPrint l).

Declare Scope py_scope.
Delimit Scope py_scope with py.
Notation "x ← y ; z" := (bind y (fun x => z))
  (at level 20, y at level 100, z at level 200) : py_scope.
Notation "' x ← y ; z" := (bind y (fun x => z))
  (at level 20, x pattern, y at level 100, z at level 200) : py_scope.
Notation "y ;; z" := (bind y (fun _ => z))
  (at level 100, z at level 200, right associativity) : py_scope.
Open Scope py_scope.

(** The results of a run. *)
Definition outcome {A} (x : result A * filesys * list event) : result A := fst (fst x).
Definition files {A} (x : result A * filesys * list event) : filesys := snd (fst x).
Definition trace {A} (x : result A * filesys * list event) : list event := snd x.

(** ** Operations on Python values *)

(** [v.get(key)] and [v.get(key, default)]: only a [dict] has [get]. *)
Definition py_get (v : pyval) (key : string) (default : pyval) : M pyval :=
  match v with
  | PDict d => ret (match d !! key with Some x => x | None => default end)
  | _ => raise (Exn AttributeError
                  ("'" +:+ type_name v +:+ "' object has no attribute 'get'"))
  end.

(** [len(v)] *)
Definition py_len (v : pyval) : M nat :=
  match v with
  | PStr s => ret (String.length s)
  | PList l => ret (length l)
  | PDict d => ret (size d)
  | _ => raise (Exn TypeError
                  ("object of type '" +:+ type_name v +:+ "' has no len()"))
  end.

Fixpoint chars (s : string) : list pyval :=
  match s with
  | EmptyString => []
  | String c s' => PStr (String c EmptyString) :: chars s'
  end.

(** The items [for ... in enumerate(v, 1)] goes through: the elements of
    a list, the characters of a string, the keys of a dict (in the order
    of the map: every key is a string, on which the loop stops at once,
    so the order plays no part). *)
Definition py_iter (v : pyval) : M (list pyval) :=
  match v with
  | PStr s => ret (chars s)
  | PList l => ret l
  | PDict d => ret (map (fun kv => PStr (fst kv)) (map_to_list d))
  | _ => raise (Exn TypeError
                  ("'" +:+ type_name v +:+ "' object is not iterable"))
  end.

(** ** What the world answers *)

(** The response to a streamed GET: the status line, the chunks that
    [iter_content] yields, and the exception, if any, that it raises
    once they are consumed (a connection that breaks mid-body). *)
Record response : Type := Response {
  status_code : Z;
  body : list (list byte);
  stream_error : option exn
}.

(** What happens during one call of [download_file]. [None] in an
    error field means that the operation succeeds. *)
Record attempt : Type := Attempt {
  mkdir_error : option exn;
  get_result : exn + response;
  open_error : option exn;
  write_error : nat -> option exn;
  close_error : option exn
}.

Definition fail_with (o : option exn) : M unit :=
  match o with
  | Some e => raise e
  | None => ret tt
  end.

(** [Path(destination)]: pathlib accepts a [str] only. *)
Definition Path (destination : pyval) : M string :=
  match destination with
  | PStr s => ret s
  | _ => raise (Exn TypeError
                  ("expected str, bytes or os.PathLike object, not "
                   +:+ type_name destination))
  end.

(** [dest_path.parent.mkdir(parents=True, exist_ok=True)] *)
Definition mkdir_parent (att : attempt) (dest_path : string) : M unit :=
  emit (EvMkdir dest_path);;
  fail_with (mkdir_error att).

(** [requests.get(url, stream=True, timeout=30)] *)
Definition requests_get (att : attempt) (url : pyval) : M response :=
  emit (EvGet url);;
  match get_result att with
  | inl e => raise e
  | inr r => ret r
  end.

(** [response.raise_for_status()]: requests raises [HTTPError], a
    [RequestException], for the 4xx and 5xx status codes. *)
Definition raise_for_status (r : response) : M unit :=
  if ((400 <=? status_code r) && (status_code r <? 600))%Z
  then raise (Exn RequestException "HTTPError")
  else ret tt.

(** [open(destination, 'wb')] truncates the file or creates it empty. *)
Definition truncate (destination : string) : M unit :=
  fun fs => (Ok tt, <[destination := []]> fs, []).

Definition open_wb (att : attempt) (destination : string) : M unit :=
  emit (EvOpen destination);;
  match open_error att with
  | Some e => raise e
  | None => truncate destination
  end.

(** [f.write(chunk)] appends to what the file holds. *)
Definition append (destination : string) (chunk : list byte) : M unit :=
  fun fs =>
    (Ok tt, <[destination := default [] (fs !! destination) ++ chunk]> fs, []).

Definition f_write (att : attempt) (destination : string) (k : nat)
    (chunk : list byte) : M unit :=
  emit (EvWrite destination chunk);;
  match write_error att k with
  | Some e => raise e
  | None => append destination chunk
  end.

Definition f_close (att : attempt) (destination : string) : M unit :=
  emit (EvClose destination);;
  fail_with (close_error att).

(** [with ... as f: block]: the file is closed however the block ends;
    an exception raised by the close replaces the block's. *)
Definition closing {A} (block : M A) (close : M unit) : M A :=
  fun fs =>
    match block fs with
    | (r, fs1, t1) =>
        match close fs1 with
        | (Ok _, fs2, t2) => (r, fs2, t1 ++ t2)
        | (Raised e, fs2, t2) => (Raised e, fs2, t1 ++ t2)
        | (Exited c, fs2, t2) => (Exited c, fs2, t1 ++ t2)
        end
    end.

(** [for chunk in response.iter_content(chunk_size=8192): f.write(chunk)];
    [k] counts the writes done so far. *)
Fixpoint write_chunks (att : attempt) (destination : string) (k : nat)
    (chunks : list (list byte)) (at_end : option exn) : M unit :=
  match chunks with
  | [] => fail_with at_end
  | chunk :: chunks' =>
      f_write att destination k chunk;;
      write_chunks att destination (S k) chunks' at_end
  end.

(** ** The item processor *)

Definition download_file (att : attempt) (url destination : pyval) : M bool :=
  try_except
    (dest_path ← Path destination;
     mkdir_parent att dest_path;;
     print [Lit "Downloading: "; Val url];;
     print [Lit "Destination: "; Val destination];;
     response ← requests_get att url;
     raise_for_status response;;
     open_wb att dest_path;;
     closing
       (write_chunks att dest_path 0 (body response) (stream_error response))
       (f_close att dest_path);;
     print [Lit "Successfully downloaded to "; Val destination; Lit nl];;
     ret true)
    (fun e =>
       if is_RequestException e then
         print [Lit "Error downloading "; Val url; Lit ": "; Exc e; Lit nl];;
         ret false
       else if is_IOError e then
         print [Lit "Error writing to "; Val destination; Lit ": "; Exc e; Lit nl];;
         ret false
       else raise e).

Section Script.

(** [json_load_file p] is what [open(p, 'r')] followed by [json.load]
    gives: the parsed value, or the exception one of them raises.
    [net idx] is what the world answers while the item at position
    [idx] (counted from 1) is downloaded. *)
Variable json_load_file : string -> exn + pyval.
Variable net : nat -> attempt.

(** ** The configuration loader *)

Definition load_config (config_path : string) : M pyval :=
  try_except
    (config ← match json_load_file config_path with
              | inl e => raise e
              | inr v => ret v
              end;
     py_get config "downloads" (PList []))
    (fun e =>
       if is_FileNotFoundError e then
         print [Lit "Error: Configuration file '"; Lit config_path;
                Lit "' not found."];;
         sys_exit 1
       else if is_JSONDecodeError e then
         print [Lit "Error: Invalid JSON in configuration file: "; Exc e];;
         sys_exit 1
       else raise e).

(** ** The run aggregator *)

(** The [for idx, item in enumerate(downloads, 1)] loop of [main];
    [total] is [len(downloads)]. *)
Fixpoint download_loop (total : nat) (items : list pyval) (idx : nat)
    (success_count fail_count : nat) : M (nat * nat) :=
  match items with
  | [] => ret (success_count, fail_count)
  | item :: rest =>
      url ← py_get item "url" PNone;
      destination ← py_get item "destination" PNone;
      if negb (truthy url) || negb (truthy destination) then
        print [Lit "Skipping item "; Num idx;
               Lit ": Missing 'url' or 'destination' field"; Lit nl];;
        download_loop total rest (S idx) success_count (S fail_count)
      else
        print [Lit "["; Num idx; Lit "/"; Num total; Lit "]"];;
        ok ← download_file (net idx) url destination;
        if ok : bool then
          download_loop total rest (S idx) (S success_count) fail_count
        else
          download_loop total rest (S idx) success_count (S fail_count)
  end.

Definition summary (success_count fail_count total : nat) : list event :=
  [EvPrint [Lit (repeat_string "=" 60)];
   EvPrint [Lit "Download Summary:"];
   EvPrint [Lit "  Successful: "; Num success_count];
   EvPrint [Lit "  Failed: "; Num fail_count];
   EvPrint [Lit "  Total: "; Num total]].

(** [sys.argv[1] if len(sys.argv) > 1 else 'download_config.json'] *)
Definition config_path_of (argv : list string) : string :=
  if Nat.ltb 1 (length argv) then nth 1 argv "" else "download_config.json".

Definition main (argv : list string) : M unit :=
  let config_path := config_path_of argv in
  print [Lit "Loading configuration from: "; Lit config_path];;
  print [Lit (repeat_string "=" 60)];;
  downloads ← load_config config_path;
  (if negb (truthy downloads) then
     print [Lit "No downloads specified in configuration file."];;
     sys_exit 0
   else ret tt);;
  total ← py_len downloads;
  print [Lit "Found "; Num total; Lit " file(s) to download"; Lit nl];;
  items ← py_iter downloads;
  '(success_count, fail_count) ← download_loop total items 1 0 0;
  print [Lit (repeat_string "=" 60)];;
  print [Lit "Download Summary:"];;
  print [Lit "  Successful: "; Num success_count];;
  print [Lit "  Failed: "; Num fail_count];;
  print [Lit "  Total: "; Num total];;
  if Nat.ltb 0 fail_count then sys_exit 1 else ret tt.

(** The exit status of the interpreter: 0 when [main] returns, the
    argument of [sys.exit], 1 after an uncaught exception. *)
Definition exit_status (r : result unit) : Z :=
  match r with
  | Ok _ => 0
  | Exited code => code
  | Raised _ => 1
  end.

(** Running the script from the command line. *)
Definition run_script (argv : list string) (fs : filesys)
    : Z * filesys * list event :=
  match main argv fs with
  | (r, fs', t) => (exit_status r, fs', t)
  end.

End Script.

(** The exit status of a run of the script. *)
Definition status (x : Z * filesys * list event) : Z := fst (fst x).

(** ** Reading a trace *)

(** The URLs fetched, one per call of [requests.get]. *)
Definition fetches (t : list event) : list pyval :=
  omap (fun ev => match ev with EvGet u => Some u | _ => None end) t.

(** An event that touches the network or the destination files. *)
Definition is_transfer (ev : event) : bool :=
  match ev with
  | EvPrint _ => false
  | _ => true
  end.

Definition transfers (t : list event) : list event :=
  filter (fun ev => is_transfer ev = true) t.

(** ** Sample runs *)

Module Samples.

Definition item (url destination : string) : pyval :=
  PDict (<["url" := PStr url]> (<["destination" := PStr destination]> ∅)).

Definition hello : list byte := [x68; x65; x6c; x6c; x6f]%byte.

(** The server answers 200 and the body arrives in two chunks. *)
Definition good : attempt :=
  Attempt None (inr (Response 200 [hello; hello] None)) None (fun _ => None) None.

(** The host cannot be reached. *)
Definition unreachable : attempt :=
  Attempt None (inl (Exn RequestException "ConnectionError")) None (fun _ => None) None.

(** The directory of the destination cannot be created. *)
Definition no_permission : attempt :=
  Attempt (Some (Exn OSError "PermissionError"))
    (inr (Response 200 [hello] None)) None (fun _ => None) None.

(** The server answers 200, one chunk arrives, then the connection
    breaks. *)
Definition cut_off : attempt :=
  Attempt None
    (inr (Response 200 [hello] (Some (Exn RequestException "ChunkedEncodingError"))))
    None (fun _ => None) None.

(** The configuration file parses to [v]; or it does not parse. *)
Definition load (v : pyval) (p : string) : exn + pyval := inr v.

Definition broken (p : string) : exn + pyval :=
  inl (Exn JSONDecodeError "Expecting value").

Definition argv : list string := ["DataPuller.py"].

Definition url_x_dest_x : gmap string pyval :=
  <["url" := PStr "http://a/x"]> (<["destination" := PStr "out/x"]> ∅).

Definition downloads_two : gmap string pyval :=
  <["downloads" := PList [item "http://a/x" "out/x"; item "http://b/y" "out/y"]]> ∅.

Definition downloads_one : gmap string pyval :=
  <["downloads" := PList [item "http://a/x" "out/x"]]> ∅.

Definition no_key : gmap string pyval := <["comment" := PStr "nothing yet"]> ∅.

Definition empty_list : gmap string pyval := <["downloads" := PList []]> ∅.

(** An item without a destination, one with an empty url. *)
Definition url_only : gmap string pyval := <["url" := PStr "http://a/x"]> ∅.

Definition empty_url : gmap string pyval :=
  <["url" := PStr ""]> (<["destination" := PStr "out/x"]> ∅).

Definition downloads_empty_url : gmap string pyval :=
  <["downloads" := PList [PDict empty_url]]> ∅.

(** The server answers 404. *)
Definition not_found : attempt :=
  Attempt None (inr (Response 404 [hello] None)) None (fun _ => None) None.

(** The directory creation stops on a path with an embedded null byte. *)
Definition null_byte : attempt :=
  Attempt (Some (Exn ValueError "embedded null byte"))
    (inr (Response 200 [hello] None)) None (fun _ => None) None.

(** The configuration file cannot be read; it holds a list. *)
Definition unreadable (p : string) : exn + pyval :=
  inl (Exn OSError "PermissionError").

Definition downloads_null : gmap string pyval := <["downloads" := PNone]> ∅.

Definition downloads_number : gmap string pyval := <["downloads" := PInt 3]> ∅.


(** The first item meets an unreachable host, the others are served. *)
Definition first_unreachable (idx : nat) : attempt :=
  if Nat.eqb idx 1 then unreachable else good.

End Samples.

(** ** Vocabulary of the properties *)

(** The lines every run starts with. *)
Definition header (config_path : string) : list event :=
  [EvPrint [Lit "Loading configuration from: "; Lit config_path];
   EvPrint [Lit (repeat_string "=" 60)]].

(** The line [load_config] prints for the two errors it handles. *)
Definition config_error_line (config_path : string) (e : exn) : line :=
  if is_FileNotFoundError e then
    [Lit "Error: Configuration file '"; Lit config_path; Lit "' not found."]
  else
    [Lit "Error: Invalid JSON in configuration file: "; Exc e].

Definition no_downloads_line : line :=
  [Lit "No downloads specified in configuration file."].

(** The exceptions the world may raise during an attempt. *)
Definition raises (att : attempt) (e : exn) : Prop :=
  mkdir_error att = Some e
  \/ get_result att = inl e
  \/ (exists r, get_result att = inr r /\ stream_error r = Some e)
  \/ open_error att = Some e
  \/ (exists k, write_error att k = Some e)
  \/ close_error att = Some e.

(** An attempt in which whatever goes wrong is a transport failure or
    a local I/O failure: every exception is an [IOError], the class
    that [RequestException] derives from. *)
Definition benign (att : attempt) : Prop :=
  forall e, raises att e -> is_IOError e = true.

Definition bad_status (r : response) : bool :=
  ((400 <=? status_code r) && (status_code r <? 600))%Z.

(** The first exception of the write loop started at write [k]. *)
Fixpoint stream_failure (att : attempt) (k : nat) (chunks : list (list byte))
    (at_end : option exn) : option exn :=
  match chunks with
  | [] => at_end
  | _ :: chunks' =>
      match write_error att k with
      | Some e => Some e
      | None => stream_failure att (S k) chunks' at_end
      end
  end.

Definition no_error (o : option exn) : bool :=
  match o with
  | None => true
  | Some _ => false
  end.

(** An attempt in which nothing goes wrong. *)
Definition succeeds (att : attempt) : bool :=
  match mkdir_error att, get_result att with
  | None, inr r =>
      negb (bad_status r)
      && no_error (open_error att)
      && no_error (stream_failure att 0 (body r) (stream_error r))
      && no_error (close_error att)
  | _, _ => false
  end.

(** A run laid over further files: the files it wrote take precedence. *)
Definition overlay {A} (x : result A * filesys * list event) (fs : filesys)
    : result A * filesys * list event :=
  (outcome x, files x ∪ fs, trace x).

(** The events of one item put in front of the run of the others. *)
Definition prepend {A} (t : list event) (x : result A * filesys * list event)
    : result A * filesys * list event :=
  (outcome x, files x, t ++ trace x).

(** The lines of the loop for one item. *)
Definition skip_line (idx : nat) : line :=
  [Lit "Skipping item "; Num idx;
   Lit ": Missing 'url' or 'destination' field"; Lit nl].

Definition progress_line (idx total : nat) : line :=
  [Lit "["; Num idx; Lit "/"; Num total; Lit "]"].

(** [item.get(key)] for an item that is a dict. *)
Definition field (d : gmap string pyval) (key : string) : pyval :=
  default PNone (d !! key).

(** The item passes the check [if not url or not destination]. *)
Definition passes_check (d : gmap string pyval) : bool :=
  truthy (field d "url") && truthy (field d "destination").

(** The item is downloaded and the download succeeds. *)
Definition transfers_ok (att : attempt) (item : pyval) : bool :=
  match item with
  | PDict d =>
      match field d "destination" with
      | PStr _ => passes_check d && succeeds att
      | _ => false
      end
  | _ => false
  end.

Definition found_line (total : nat) : line :=
  [Lit "Found "; Num total; Lit " file(s) to download"; Lit nl].

(** What [main] makes of the loop's result. *)
Definition finish (config_path : string) (total : nat)
    (x : result (nat * nat) * filesys * list event)
    : result unit * filesys * list event :=
  let start := header config_path ++ [EvPrint (found_line total)] in
  match x with
  | (Ok (s, f), fs', t) =>
      (if Nat.ltb 0 f then Exited 1 else Ok tt, fs',
       start ++ t ++ summary s f total)
  | (Raised e, fs', t) => (Raised e, fs', start ++ t)
  | (Exited c, fs', t) => (Exited c, fs', start ++ t)
  end.

(** The printed lines that consist of a label and a count; the script
    prints such lines in its summary only. *)
Definition count_lines (t : list event) : list line :=
  omap (fun ev => match ev with
                  | EvPrint [Lit s; Num n] => Some [Lit s; Num n]
                  | _ => None
                  end) t.

(** The fetch an item leads to, if any: the item must pass the check,
    its destination must be a path and the directory creation succeed. *)
Definition attempted (att : attempt) (item : pyval) : list pyval :=
  match item with
  | PDict d =>
      if passes_check d then
        match field d "destination", mkdir_error att with
        | PStr _, None => [field d "url"]
        | _, _ => []
        end
      else []
  | _ => []
  end.

Fixpoint expected_fetches (net : nat -> attempt) (idx : nat)
    (items : list pyval) : list pyval :=
  match items with
  | [] => []
  | item :: rest => attempted (net idx) item ++ expected_fetches net (S idx) rest
  end.

(** A computation is framed when the files it finds only show through
    where it writes nothing: run over more files, it returns and emits
    the same, and its files lie over the additional ones. *)
Definition framed {A} (m : M A) : Prop :=
  forall W fs : filesys, m (W ∪ fs) = overlay (m W) fs.

(** Framed once the file [d] exists: the write loop appends to it. *)
Definition framed_on {A} (d : string) (m : M A) : Prop :=
  forall W fs : filesys, is_Some (W !! d) -> m (W ∪ fs) = overlay (m W) fs.

(** ** Vocabulary of the further properties of the downloader *)

(** The exception that ends an attempt, if any: the operations in the
    order of [download_file]; a failing close replaces a failure of the
    write loop. *)
Definition first_failure (att : attempt) : option exn :=
  match mkdir_error att with
  | Some e => Some e
  | None =>
      match get_result att with
      | inl e => Some e
      | inr r =>
          if bad_status r then Some (Exn RequestException "HTTPError")
          else
            match open_error att with
            | Some e => Some e
            | None =>
                match close_error att with
                | Some e => Some e
                | None => stream_failure att 0 (body r) (stream_error r)
                end
            end
      end
  end.

(** The attempt gets as far as opening the destination, with the
    response [r]. *)
Definition opens (att : attempt) (r : response) : Prop :=
  mkdir_error att = None /\ get_result att = inr r
  /\ bad_status r = false /\ open_error att = None.

(** The bytes the write loop appends, from write [k] on, before a write
    fails. *)
Fixpoint written (att : attempt) (k : nat) (chunks : list (list byte))
    : list byte :=
  match chunks with
  | [] => []
  | chunk :: chunks' =>
      match write_error att k with
      | Some _ => []
      | None => chunk ++ written att (S k) chunks'
      end
  end.

(** The last line of a call of [download_file] that returns. *)
Definition success_line (destination : pyval) : line :=
  [Lit "Successfully downloaded to "; Val destination; Lit nl].

Definition error_line (url destination : pyval) (e : exn) : line :=
  if is_RequestException e then
    [Lit "Error downloading "; Val url; Lit ": "; Exc e; Lit nl]
  else
    [Lit "Error writing to "; Val destination; Lit ": "; Exc e; Lit nl].

(** The destination paths of the items that are objects. *)
Fixpoint destinations (items : list pyval) : list string :=
  match items with
  | [] => []
  | PDict d :: rest =>
      match field d "destination" with
      | PStr p => p :: destinations rest
      | _ => destinations rest
      end
  | _ :: rest => destinations rest
  end.

(** The number of items downloaded with success, the first item being
    at position [idx]. *)
Fixpoint successes (net : nat -> attempt) (idx : nat) (items : list pyval)
    : nat :=
  match items with
  | [] => 0
  | item :: rest =>
      (if transfers_ok (net idx) item then 1 else 0)
      + successes net (S idx) rest
  end.

(** The "Skipping item" lines for [n] items from position [idx] on. *)
Fixpoint skip_lines (idx n : nat) : list event :=
  match n with
  | O => []
  | S n' => EvPrint (skip_line idx) :: skip_lines (S idx) n'
  end.

(** * CreateResourceCard: the HTML card snippet builder

    The pure functions of [CreateResourceCard/CreateResourceCard.py].
    A Python [str] is represented by its UTF-8 bytes.  What depends on
    the Unicode tables ([str.lower], [str.strip], [str.capitalize], the
    [\s] of [re.split]) is a parameter; what is decided by ASCII
    characters alone (the class [[^a-z0-9]], the comma of [split], the
    five characters of [html.escape]) is defined on the bytes, a byte of
    a multi-byte character never being an ASCII character. *)

Definition dq : string := String (ascii_of_nat 34) EmptyString.

(** The characters [a-z0-9]. *)
Definition is_slug_char (c : ascii) : bool :=
  let n := nat_of_ascii c in
  (Nat.leb 97 n && Nat.leb n 122) || (Nat.leb 48 n && Nat.leb n 57).

(** [re.sub(r'[^a-z0-9]+', '', s)] *)
Fixpoint keep_slug_chars (s : string) : string :=
  match s with
  | EmptyString => EmptyString
  | String c s' =>
      if is_slug_char c then String c (keep_slug_chars s')
      else keep_slug_chars s'
  end.

(** [s.replace(old, new)] for a one-character [old]. *)
Fixpoint replace_char (old : ascii) (new : string) (s : string) : string :=
  match s with
  | EmptyString => EmptyString
  | String c s' =>
      if Ascii.eqb c old then new +:+ replace_char old new s'
      else String c (replace_char old new s')
  end.

(** [html.escape(s, quote)]: the replacements in the order of the
    library, [&] first. *)
Definition escape (s : string) (quote : bool) : string :=
  let s := replace_char "&"%char "&amp;" s in
  let s := replace_char "<"%char "&lt;" s in
  let s := replace_char ">"%char "&gt;" s in
  if quote then
    let s := replace_char (ascii_of_nat 34) "&quot;" s in
    replace_char "'"%char "&#x27;" s
  else s.

(** [s.split(",")]: never empty, [""] for the empty string. *)
Fixpoint split_commas (s : string) : list string :=
  match s with
  | EmptyString => [EmptyString]
  | String c s' =>
      if Ascii.eqb c ","%char then EmptyString :: split_commas s'
      else
        match split_commas s' with
        | first :: others => String c first :: others
        | [] => [String c EmptyString]
        end
  end.

(** The number of occurrences of a character. *)
Fixpoint count_char (c : ascii) (s : string) : nat :=
  match s with
  | EmptyString => 0
  | String c' s' => (if Ascii.eqb c' c then 1 else 0) + count_char c s'
  end.

(** An attribute [name="value"]. *)
Definition attr (name value : string) : string :=
  name +:+ "=" +:+ dq +:+ value +:+ dq.

(** The f-string of [build_html], with its thirteen fields. *)
Definition card_template (comment data_category data_tags data_search
    title_i18n v_title desc_i18n v_desc cat_i18n v_cat_label
    tag_i18n v_first_tag_label href_attr : string) : string :=
  "<!-- Card: " +:+ comment +:+ " -->" +:+ nl
  +:+ "<li " +:+ attr "class" "cs-li resource-card" +:+ nl
  +:+ "    " +:+ attr "data-category" data_category +:+ nl
  +:+ "    " +:+ attr "data-tags" data_tags +:+ nl
  +:+ "    " +:+ attr "data-search" data_search +:+ ">" +:+ nl
  +:+ "  <div " +:+ attr "class" "cs-flex" +:+ ">" +:+ nl
  +:+ "    <div>" +:+ nl
  +:+ "      <h3 " +:+ attr "class" "cs-h3" +:+ " "
      +:+ attr "data-i18n" title_i18n +:+ ">" +:+ v_title +:+ "</h3>" +:+ nl
  +:+ "      <p " +:+ attr "class" "cs-li-text" +:+ " "
      +:+ attr "data-i18n" desc_i18n +:+ ">" +:+ nl
  +:+ "        " +:+ v_desc +:+ nl
  +:+ "      </p>" +:+ nl
  +:+ "      <div " +:+ attr "class" "meta" +:+ ">" +:+ nl
  +:+ "        <span " +:+ attr "class" "pill" +:+ " "
      +:+ attr "data-i18n" cat_i18n +:+ ">" +:+ v_cat_label +:+ "</span>" +:+ nl
  +:+ "        <span " +:+ attr "class" "pill" +:+ " "
      +:+ attr "data-i18n" tag_i18n +:+ ">" +:+ v_first_tag_label
      +:+ "</span>" +:+ nl
  +:+ "      </div>" +:+ nl
  +:+ "      <div " +:+ attr "class" "resource-actions" +:+ ">" +:+ nl
  +:+ "        <a " +:+ attr "href" href_attr +:+ " "
      +:+ attr "target" "_blank" +:+ " " +:+ attr "rel" "noopener" +:+ " "
      +:+ attr "class" "btn btn-primary" +:+ " "
      +:+ attr "data-i18n" "resources.open" +:+ ">Open</a>" +:+ nl
  +:+ "      </div>" +:+ nl
  +:+ "    </div>" +:+ nl
  +:+ "  </div>" +:+ nl
  +:+ "</li>".

Section CardSnippet.

(** [str.lower], [str.strip], [str.capitalize] and
    [re.split(r'\s+', s)]. *)
Variable lower : string -> string.
Variable strip : string -> string.
Variable capitalize : string -> string.
Variable split_whitespace : string -> list string.

Definition slugify_for_i18n (s : string) : string :=
  let s := lower s in
  keep_slug_chars s.

Definition slugify_simple (s : string) : string := slugify_for_i18n s.

Definition default_title_from_name (name : string) : string :=
  match name with
  | EmptyString => EmptyString
  | _ => String.concat " " (map capitalize (split_whitespace (strip name)))
  end.

Definition is_empty (s : string) : bool :=
  match s with
  | EmptyString => true
  | _ => false
  end.

Definition build_html (card_name category tags_csv search_terms
    visible_title visible_desc href : string) (update_meta_pills : bool)
    : result string :=
  let name_slug := slugify_for_i18n card_name in
  if is_empty name_slug then
    Raised (Exn ValueError
              "Card Name must contain at least one alphanumeric character.")
  else
    let cat := strip category in
    if is_empty cat then Raised (Exn ValueError "Category cannot be empty.")
    else
      let cat_slug := slugify_simple cat in
      let raw_tags :=
        map strip
          (List.filter (fun t => negb (is_empty (strip t)))
             (split_commas tags_csv)) in
      let tags_attr := String.concat "," raw_tags in
      let first_tag := match raw_tags with t :: _ => t | [] => EmptyString end in
      let first_tag_slug :=
        if is_empty first_tag then EmptyString else slugify_simple first_tag in
      let cat_label := if is_empty cat then "Category" else cat in
      let first_tag_label := if is_empty first_tag then "Tag" else first_tag in
      let visible_title :=
        if is_empty (strip visible_title) then default_title_from_name card_name
        else visible_title in
      let visible_desc :=
        if is_empty (strip visible_desc) then
          default_title_from_name card_name +:+ " resource."
        else visible_desc in
      let v_title := escape visible_title true in
      let v_desc := escape visible_desc true in
      let v_cat_label := escape cat_label true in
      let v_first_tag_label := escape first_tag_label true in
      let data_category := escape cat true in
      let data_tags := escape tags_attr true in
      let data_search := escape (strip search_terms) true in
      let href_attr := escape (strip href) true in
      let title_i18n := "resources.cards." +:+ name_slug +:+ ".title" in
      let desc_i18n := "resources.cards." +:+ name_slug +:+ ".desc" in
      let cat_i18n :=
        if update_meta_pills && negb (is_empty cat_slug)
        then "resources.categories." +:+ cat_slug
        else "resources.categories.tools" in
      let tag_i18n :=
        if update_meta_pills && negb (is_empty first_tag_slug)
        then "resources.tag." +:+ first_tag_slug
        else "resources.tag.emulator" in
      Ok (card_template (escape card_name true) data_category data_tags
            data_search title_i18n v_title desc_i18n v_desc cat_i18n
            v_cat_label tag_i18n v_first_tag_label href_attr).

End CardSnippet.

(** Stand-ins for the library functions on ASCII text. *)
Module CardSamples.

Definition lower_char (c : ascii) : ascii :=
  let n := nat_of_ascii c in
  if Nat.leb 65 n && Nat.leb n 90 then ascii_of_nat (n + 32) else c.

Fixpoint lower (s : string) : string :=
  match s with
  | EmptyString => EmptyString
  | String c s' => String (lower_char c) (lower s')
  end.

Fixpoint lstrip (s : string) : string :=
  match s with
  | String c s' => if Ascii.eqb c " "%char then lstrip s' else s
  | EmptyString => EmptyString
  end.

Fixpoint rev_string (s acc : string) : string :=
  match s with
  | EmptyString => acc
  | String c s' => rev_string s' (String c acc)
  end.

Definition strip (s : string) : string :=
  rev_string (lstrip (rev_string (lstrip s) "")) "".

Definition capitalize (s : string) : string :=
  match s with
  | EmptyString => EmptyString
  | String c s' =>
      let n := nat_of_ascii c in
      String (if Nat.leb 97 n && Nat.leb n 122 then ascii_of_nat (n - 32) else c)
        (lower s')
  end.

Fixpoint split_spaces (s : string) : list string :=
  match s with
  | EmptyString => [EmptyString]
  | String c s' =>
      if Ascii.eqb c " "%char then
        match s' with
        | String c' _ =>
            if Ascii.eqb c' " "%char then split_spaces s'
            else EmptyString :: split_spaces s'
        | EmptyString => EmptyString :: split_spaces s'
        end
      else
        match split_spaces s' with
        | first :: others => String c first :: others
        | [] => [String c EmptyString]
        end
  end.

Definition build (card_name category tags_csv search_terms visible_title
    visible_desc href : string) (update_meta_pills : bool) : result string :=
  build_html lower strip capitalize split_spaces card_name category tags_csv
    search_terms visible_title visible_desc href update_meta_pills.

End CardSamples.

(** * LeaderboardDBPuller: the database-to-CSV exporters

    [LeaderboardDBPuller.py] runs the two exporters of [export_ff7sb.py]
    and [export_rockmanx.py] one after the other.  Each connects to a
    database, reads a top-ten table, drops one column, and writes a CSV
    file.  The source leaves the database names, the table names, the
    output directory and the connection settings of [db_shared.py] blank,
    to be filled in (the port is left out altogether, so [db_shared.py]
    does not parse before that); the names and the directory are
    variables here, and the scripts are described as they run once filled
    in.  What the database, the file system and the CSV writer answer is
    a [world]; a run is the list of the calls made and how the function
    ended. *)

Module Leaderboard.

Section Exporters.

(** A value in a cell of a row; [of_int] is the cell holding a Python int. *)
Variable cell : Type.
Variable of_int : Z -> cell.

(** [os.path.join]. *)
Variable join : string -> string -> string.

(** [DB_NAME] of [export_ff7sb.py] and of [export_rockmanx.py], and
    [OUTPUT_DIR] of [LeaderboardDBPuller.py]. *)
Variable FF7SB_DB_NAME : string.
Variable ROCKMANX_DB_NAME : string.
Variable OUTPUT_DIR : string.

Definition GAME_NAME : string := "FF7SB".
Definition MAP_IDS : list Z := [1; 3; 5]%Z.

(** What a cursor holds after a query: [cur.fetchall()] and the column
    names of [cur.description]. *)
Record answer : Type := Answer {
  fetchall : list (list cell);
  description : list string
}.

(** The answers of the outside for one exporter: [query] is the whole
    cursor block of a fetch, for the query parameter given. *)
Record world : Type := World {
  connect_error : option exn;
  query : option Z -> exn + answer;
  disconnect_error : option exn;
  makedirs_error : option exn;
  csv_open_error : option exn;
  writerow_error : option exn;
  writerows_error : option exn;
  csv_close_error : option exn
}.

Inductive step : Type :=
| Print (l : line)
| Connect (dbname : string)
| Execute (param : option Z)
| Disconnect
| Makedirs (dir : string)
| Open (path : string)
| Writerow (headers : list string)
| Writerows (rows : list (list cell))
| CloseFile.

(** A computation: the calls made, and the way it ended. *)
Definition IO (A : Type) : Type := list step * result A.

Definition ret {A} (a : A) : IO A := ([], Ok a).

Definition bind {A B} (m : IO A) (k : A -> IO B) : IO B :=
  match m with
  | (t1, Ok a) => let (t2, r) := k a in (t1 ++ t2, r)
  | (t1, Raised e) => (t1, Raised e)
  | (t1, Exited c) => (t1, Exited c)
  end.

Definition call (s : step) (error : option exn) : IO unit :=
  match error with
  | None => ([s], Ok tt)
  | Some e => ([s], Raised e)
  end.

Definition print (l : line) : IO unit := call (Print l) None.

(** [try: body  finally: final]: [final] runs however [body] ended, and
    what [final] raises replaces the end of [body]. *)
Definition try_finally {A} (body : IO A) (final : IO unit) : IO A :=
  match body, final with
  | (t1, r), (t2, Ok _) => (t1 ++ t2, r)
  | (t1, _), (t2, Raised e) => (t1 ++ t2, Raised e)
  | (t1, _), (t2, Exited c) => (t1 ++ t2, Exited c)
  end.

Declare Scope io_scope.
Delimit Scope io_scope with io.
Notation "x ← y ; z" := (bind y (fun x => z))
  (at level 20, y at level 100, z at level 200) : io_scope.
Notation "' x ← y ; z" := (bind y (fun x => z))
  (at level 20, x pattern, y at level 100, z at level 200) : io_scope.
Notation "y ;; z" := (bind y (fun _ => z))
  (at level 100, z at level 200, right associativity) : io_scope.
Local Open Scope io_scope.

Definition io_trace {A} (x : IO A) : list step := fst x.
Definition io_outcome {A} (x : IO A) : result A := snd x.

(** ** Lists *)

(** [l.index(x)] where [x in l], [None] where not. *)
Fixpoint index (x : string) (l : list string) : option nat :=
  match l with
  | [] => None
  | h :: t => if String.eqb h x then Some 0 else option_map S (index x t)
  end.

Fixpoint enumerate_from {A} (k : nat) (l : list A) : list (nat * A) :=
  match l with
  | [] => []
  | x :: t => (k, x) :: enumerate_from (S k) t
  end.

Definition enumerate {A} (l : list A) : list (nat * A) := enumerate_from 0 l.

(** [[v for i, v in enumerate(l) if i != idx]]. *)
Definition except_at {A} (idx : nat) (l : list A) : list A :=
  map snd (List.filter (fun p => negb (Nat.eqb (fst p) idx)) (enumerate l)).

(** ** The database *)

Definition get_connection (w : world) (dbname : string) : IO unit :=
  call (Connect dbname) (connect_error w).

Definition conn_close (w : world) : IO unit :=
  call Disconnect (disconnect_error w).

Definition cursor_block (w : world) (param : option Z) : IO answer :=
  call (Execute param) None ;;
  match query w param with
  | inl e => ([], Raised e)
  | inr a => ret a
  end.

(** ** The CSV file *)

Definition makedirs (w : world) (dir : string) : IO unit :=
  call (Makedirs dir) (makedirs_error w).

(** [with open(path, "w", ...) as f: block]. *)
Definition with_open {A} (w : world) (path : string) (block : IO A) : IO A :=
  call (Open path) (csv_open_error w) ;;
  try_finally block (call CloseFile (csv_close_error w)).

Definition write_csv (w : world) (csv_path : string) (headers : list string)
    (rows : list (list cell)) : IO unit :=
  with_open w csv_path
    (call (Writerow headers) (writerow_error w) ;;
     call (Writerows rows) (writerows_error w)).

(** ** FF7SB *)

Definition fetch_map (w : world) (map_id : Z)
    : IO (list string * list (list cell)) :=
  a ← cursor_block w (Some map_id) ;
  let rows := fetchall a in
  let headers := description a in
  let '(headers, rows) :=
    match index "uid" headers with
    | Some idx => (except_at idx headers, map (except_at idx) rows)
    | None => (headers, rows)
    end in
  let headers := headers ++ ["map_id"] in
  let rows := map (fun r => r ++ [of_int map_id]) rows in
  ret (headers, rows).

(** The loop of [export_ff7sb] over the map ids still to fetch. *)
Fixpoint fetch_maps (w : world) (map_ids : list Z)
    (headers : option (list string)) (all_rows : list (list cell))
    : IO (option (list string) * list (list cell)) :=
  match map_ids with
  | [] => ret (headers, all_rows)
  | map_id :: rest =>
      print [Lit "[FF7SB] Fetching map "; Val (PInt map_id); Lit "..."] ;;
      ' (hdrs, rows) ← fetch_map w map_id ;
      let headers :=
        match headers with
        | None => Some hdrs
        | Some _ => headers
        end in
      fetch_maps w rest headers (all_rows ++ rows)
  end.

Definition ff7sb_no_data : line :=
  [Lit "[FF7SB] No data returned — CSV not written."].

Definition export_ff7sb (w : world) (output_dir : string) : IO unit :=
  print [Lit "[FF7SB] Connecting to DB '"; Lit FF7SB_DB_NAME; Lit "'..."] ;;
  get_connection w FF7SB_DB_NAME ;;
  ' (headers, all_rows) ←
    try_finally (fetch_maps w MAP_IDS None [])
      (conn_close w ;; print [Lit "[FF7SB] Database connection closed."]) ;
  match headers with
  | None => print ff7sb_no_data
  | Some headers =>
      makedirs w output_dir ;;
      let csv_path := join output_dir (CardSamples.lower GAME_NAME +:+ ".csv") in
      write_csv w csv_path headers all_rows ;;
      print [Lit "[FF7SB] Wrote "; Num (length all_rows); Lit " rows → ";
             Lit csv_path]
  end.

(** ** Rockman X *)

Definition fetch_top_scores (w : world)
    : IO (list string * list (list cell)) :=
  a ← cursor_block w None ;
  let rows := fetchall a in
  let headers := description a in
  let '(headers, rows) :=
    match index "ip" headers with
    | Some ip_idx => (except_at ip_idx headers, map (except_at ip_idx) rows)
    | None => (headers, rows)
    end in
  ret (headers, rows).

Definition rockmanx_no_data : line :=
  [Lit "[RockmanX] No data returned — CSV not written."].

Definition export_rockmanx (w : world) (output_dir : string) : IO unit :=
  print [Lit "[RockmanX] Connecting to DB '"; Lit ROCKMANX_DB_NAME;
         Lit "'..."] ;;
  get_connection w ROCKMANX_DB_NAME ;;
  ' (headers, rows) ←
    try_finally (fetch_top_scores w)
      (conn_close w ;; print [Lit "[RockmanX] Database connection closed."]) ;
  match rows with
  | [] => print rockmanx_no_data
  | _ :: _ =>
      makedirs w output_dir ;;
      let csv_path := join output_dir "rockmanx.csv" in
      write_csv w csv_path headers rows ;;
      print [Lit "[RockmanX] Wrote "; Num (length rows); Lit " rows → ";
             Lit csv_path]
  end.

(** ** The master script *)

Definition master_done : line :=
  [Lit "[MASTER] All leaderboards exported successfully."].

Definition main (ff7sb rockmanx : world) : IO unit :=
  print [Lit "[MASTER] Saving all CSVs to: "; Lit OUTPUT_DIR] ;;
  export_ff7sb ff7sb OUTPUT_DIR ;;
  export_rockmanx rockmanx OUTPUT_DIR ;;
  print master_done.

(** ** Vocabulary of the properties of the exporters *)

Definition occurrences (x : string) (l : list string) : nat :=
  length (List.filter (String.eqb x) l).

Definition aligned (headers : list string) (rows : list (list cell)) : Prop :=
  Forall (fun r => length r = length headers) rows.

(** The answer of a cursor without its first column named [x]. *)
Definition stripped (x : string) (a : answer)
    : list string * list (list cell) :=
  match index x (description a) with
  | Some idx => (delete idx (description a), map (delete idx) (fetchall a))
  | None => (description a, fetchall a)
  end.

(** Where column [i] of an answer stands once the first column named [x]
    is gone. *)
Definition position (x : string) (headers : list string) (i : nat) : nat :=
  match index x headers with
  | Some idx => if Nat.ltb idx i then pred i else i
  | None => i
  end.

Definition uses_connection (s : step) : bool :=
  match s with
  | Execute _ | Disconnect => true
  | _ => false
  end.

Definition touches_files (s : step) : bool :=
  match s with
  | Makedirs _ | Open _ | Writerow _ | Writerows _ | CloseFile => true
  | _ => false
  end.

Definition is_disconnect (s : step) : bool :=
  match s with
  | Disconnect => true
  | _ => false
  end.

(** The calls after the connection was closed use it no more. *)
Fixpoint released (t : list step) : bool :=
  match t with
  | [] => true
  | s :: t' => negb (uses_connection s) && released t'
  end.

(** The connection is closed once; no file is touched before, and the
    connection is not used after. *)
Fixpoint closes_once (t : list step) : bool :=
  match t with
  | [] => false
  | s :: t' =>
      if is_disconnect s then released t'
      else negb (touches_files s) && closes_once t'
  end.

End Exporters.

Arguments Print {cell} l.
Arguments Connect {cell} dbname.
Arguments Execute {cell} param.
Arguments Disconnect {cell}.
Arguments Makedirs {cell} dir.
Arguments Open {cell} path.
Arguments Writerow {cell} headers.
Arguments Writerows {cell} rows.
Arguments CloseFile {cell}.
Arguments Answer {cell} fetchall description.
Arguments fetchall {cell} a.
Arguments description {cell} a.
Arguments io_trace {cell A} x.
Arguments io_outcome {cell A} x.
Arguments stripped {cell} x a.

End Leaderboard.

(** A filled-in deployment for the examples: cells are Python values and
    paths are joined with a slash. *)
Module LeaderboardSamples.

Definition join (dir name : string) : string := dir +:+ "/" +:+ name.

Definition runs : Leaderboard.answer pyval :=
  Leaderboard.Answer
    [[PInt 7; PStr "cloud"; PInt 93]; [PInt 9; PStr "tifa"; PInt 95]]
    ["uid"; "name"; "run_time"].

Definition scores : Leaderboard.answer pyval :=
  Leaderboard.Answer
    [[PStr "10.0.0.1"; PStr "zero"; PInt 900]]
    ["ip"; "playername"; "hiscore"].

Definition no_rows : Leaderboard.answer pyval :=
  Leaderboard.Answer [] ["ip"; "playername"; "hiscore"].

Definition db (a : Leaderboard.answer pyval) : Leaderboard.world pyval :=
  Leaderboard.World pyval None (fun _ => inr a) None None None None None None.

Definition down : Leaderboard.world pyval :=
  Leaderboard.World pyval (Some (Exn OtherException "connection refused"))
    (fun _ => inr runs) None None None None None None.

Definition query_fails : Leaderboard.world pyval :=
  Leaderboard.World pyval None
    (fun _ => inl (Exn OtherException "relation does not exist"))
    None None None None None None.

End LeaderboardSamples.

(** * Properties *)

Section Loader.

Variable json_load_file : string -> exn + pyval.
Variable net : nat -> attempt.

Lemma load_config_fatal config_path e fs :
  json_load_file config_path = inl e ->
  is_FileNotFoundError e = true \/ is_JSONDecodeError e = true ->
  load_config json_load_file config_path fs
  = (Exited 1, fs, [EvPrint (config_error_line config_path e)]).
Proof.
  intros Hload Hcls.
  unfold load_config, try_except, bind, config_error_line. rewrite Hload. simpl.
  destruct (is_FileNotFoundError e) eqn:Hnf; simpl; [reflexivity|].
  destruct Hcls as [Hc|Hc]; [discriminate|]. rewrite Hc. reflexivity.
Qed.

Lemma load_config_dict config_path d fs :
  json_load_file config_path = inr (PDict d) ->
  load_config json_load_file config_path fs
  = (Ok (default (PList []) (d !! "downloads")), fs, []).
Proof.
  intros Hload. unfold load_config, try_except, bind. rewrite Hload. simpl.
  destruct (d !! "downloads"); reflexivity.
Qed.

(** What [main] does when [load_config] returns a falsy [downloads]. *)
Lemma main_loaded argv downloads fs :
  load_config json_load_file (config_path_of argv) fs = (Ok downloads, fs, []) ->
  truthy downloads = false ->
  main json_load_file net argv fs
  = (Exited 0, fs, header (config_path_of argv) ++ [EvPrint no_downloads_line]).
Proof.
  intros Hload Hfalse. unfold main, bind, print, emit. simpl.
  rewrite Hload, Hfalse. reflexivity.
Qed.

End Loader.

(** ** C2: a missing or unparsable configuration file is fatal *)

(** C2. When the configuration path names a missing file
    ([FileNotFoundError]) or a file that does not parse
    ([json.JSONDecodeError]), the run ends at once with exit status 1:
    after the two heading lines it prints the error line and nothing
    else, the destination files are untouched, and the trace holds no
    network or file event, so no download was attempted. *)
Theorem config_error_is_fatal json_load_file net argv fs e :
  json_load_file (config_path_of argv) = inl e ->
  is_FileNotFoundError e = true \/ is_JSONDecodeError e = true ->
  outcome (load_config json_load_file (config_path_of argv) fs) = Exited 1
  /\ run_script json_load_file net argv fs
     = (1%Z, fs,
        header (config_path_of argv)
        ++ [EvPrint (config_error_line (config_path_of argv) e)])
  /\ transfers (trace (main json_load_file net argv fs)) = []
  /\ fetches (trace (main json_load_file net argv fs)) = [].
Proof.
  intros Hload Hcls.
  pose proof (load_config_fatal json_load_file _ e fs Hload Hcls) as Hl.
  assert (Hmain : main json_load_file net argv fs
                  = (Exited 1, fs,
                     header (config_path_of argv)
                     ++ [EvPrint (config_error_line (config_path_of argv) e)])).
  { unfold main, bind, print, emit. simpl. rewrite Hl. reflexivity. }
  split; [rewrite Hl; reflexivity|].
  split; [unfold run_script; rewrite Hmain; reflexivity|].
  rewrite Hmain. split; reflexivity.
Qed.

Lemma config_error_is_fatal_witness :
  run_script Samples.broken (fun _ => Samples.good)
    ["DataPuller.py"; "broken.json"] ∅
  = (1%Z, ∅,
     header "broken.json"
     ++ [EvPrint [Lit "Error: Invalid JSON in configuration file: ";
                  Exc (Exn JSONDecodeError "Expecting value")]]).
Proof.
  apply (config_error_is_fatal Samples.broken (fun _ => Samples.good)
           ["DataPuller.py"; "broken.json"] ∅
           (Exn JSONDecodeError "Expecting value")).
  - reflexivity.
  - right. reflexivity.
Defined.

(** ** The item processor *)

Lemma write_chunks_outcome att d k chunks at_end fs :
  outcome (write_chunks att d k chunks at_end fs)
  = match stream_failure att k chunks at_end with
    | Some e => Raised e
    | None => Ok tt
    end.
Proof.
  revert k fs. induction chunks as [|c chunks IH]; intros k fs; simpl.
  - destruct at_end; reflexivity.
  - unfold bind, f_write, emit at 1. simpl.
    destruct (write_error att k) as [e|] eqn:Hw; simpl; [reflexivity|].
    unfold bind, append. simpl. specialize (IH (S k)).
    match goal with
    | |- context [write_chunks att d (S k) chunks at_end ?fs1] =>
        specialize (IH fs1); destruct (write_chunks att d (S k) chunks at_end fs1)
          as [[r fs2] t]
    end.
    exact IH.
Qed.

Lemma stream_failure_raises att k chunks r e :
  get_result att = inr r ->
  stream_failure att k chunks (stream_error r) = Some e ->
  raises att e.
Proof.
  intros Hget. revert k. induction chunks as [|c chunks IH]; intros k; simpl.
  - intros H. right. right. left. eauto.
  - destruct (write_error att k) as [e'|] eqn:Hw.
    + intros [= ->]. do 4 right. left. eauto.
    + apply IH.
Qed.

(** Unfolding a call of [download_file]. *)
Ltac enter_download :=
  unfold download_file, try_except, closing, bind, Path, mkdir_parent,
    requests_get, raise_for_status, open_wb, f_close, fail_with,
    truncate, print, emit, ret, raise;
  simpl.

(** The two [except] clauses applied to an exception. *)
Ltac handle_exn :=
  repeat match goal with
         | |- context [is_RequestException ?e] =>
             destruct (is_RequestException e) eqn:?; simpl
         | |- context [is_IOError ?e] =>
             destruct (is_IOError e) eqn:?; simpl
         end.

(** Going through a call of [download_file] on a path: one goal for
    each operation that may fail, and one for the run to the end.  The
    result of the write loop is named, with its equation. *)
Ltac walk_download att :=
  enter_download;
  destruct (mkdir_error att) as [?e|] eqn:?Hmkdir; simpl;
  [ handle_exn
  | destruct (get_result att) as [?e|?r] eqn:?Hget; simpl;
    [ handle_exn
    | match goal with
      | |- context [((400 <=? status_code ?r)%Z && (status_code ?r <? 600)%Z)] =>
          destruct ((400 <=? status_code r)%Z && (status_code r <? 600)%Z)
            eqn:?Hstatus
      end; simpl;
      [
      | destruct (open_error att) as [?e|] eqn:?Hopen; simpl;
        [ handle_exn
        | match goal with
          | |- context [write_chunks att ?d 0 ?cs ?se ?fs0] =>
              let Hloop := fresh "Hloop" in
              pose proof (write_chunks_outcome att d 0 cs se fs0) as Hloop;
              destruct (write_chunks att d 0 cs se fs0) as [[?rw ?fsw] ?tw]
                eqn:?Hwrite;
              unfold outcome in Hloop; simpl in Hloop; subst
          end;
          destruct (close_error att) as [?e|] eqn:?Hclose; simpl;
          [ handle_exn
          | match goal with
            | |- context [stream_failure att 0 ?cs ?se] =>
                destruct (stream_failure att 0 cs se) as [?e|] eqn:?Hstream;
                simpl; handle_exn
            end ] ] ] ] ].

(** A caught exception becomes the return value [False]. *)
Lemma handler_catches att url d fs :
  benign att ->
  outcome (download_file att url (PStr d) fs) = Ok (succeeds att).
Proof.
  intros Hb. unfold succeeds, bad_status, outcome.
  walk_download att; rewrite ?andb_false_r; try reflexivity.
  all: match goal with
       | Hr : is_RequestException ?e = false, Hi : is_IOError ?e = false |- _ =>
           rewrite Hb in Hi; [discriminate|]
       end.
  - left. assumption.
  - right. left. assumption.
  - do 3 right. left. assumption.
  - do 5 right. assumption.
  - eapply stream_failure_raises; eassumption.
Qed.

Lemma download_file_true att url d fs :
  outcome (download_file att url (PStr d) fs) = Ok true <-> succeeds att = true.
Proof.
  unfold succeeds, bad_status, outcome.
  walk_download att; rewrite ?andb_false_r; split; intros H;
    try discriminate H; reflexivity.
Qed.

(** [sys.exit] is not called inside [download_file]. *)
Lemma download_file_no_exit att url destination fs c :
  outcome (download_file att url destination fs) <> Exited c.
Proof.
  unfold outcome.
  destruct destination as [| | | |d| |];
    [enter_download; discriminate ..|walk_download att; discriminate| |];
    enter_download; discriminate.
Qed.

(** A destination that is not a string makes [Path] raise [TypeError],
    which no clause of [download_file] catches. *)
Lemma download_file_bad_destination att url destination fs :
  (forall s, destination <> PStr s) ->
  exists e, download_file att url destination fs = (Raised e, fs, [])
            /\ exn_cls e = TypeError.
Proof.
  intros Hns. unfold download_file, try_except, bind, Path, raise.
  destruct destination; simpl; try (eexists; split; reflexivity).
  exfalso. eapply Hns. reflexivity.
Qed.

(** ** What a call leaves in the trace and in the files *)

Lemma write_chunks_omap {B} (g : event -> option B) att d k chunks at_end fs :
  (forall c, g (EvWrite d c) = None) ->
  omap g (trace (write_chunks att d k chunks at_end fs)) = [].
Proof.
  intros Hg. revert k fs. induction chunks as [|c chunks IH]; intros k fs; simpl.
  - destruct at_end; reflexivity.
  - unfold f_write, bind, emit, append, trace. simpl.
    destruct (write_error att k); simpl; [rewrite Hg; reflexivity|].
    specialize (IH (S k) (<[d:=default [] (fs !! d) ++ c]> fs)).
    destruct (write_chunks att d (S k) chunks at_end _) as [[r fs2] t].
    simpl. rewrite Hg. exact IH.
Qed.

Lemma write_chunks_keeps att d k chunks at_end fs q :
  is_Some (fs !! q) ->
  is_Some (files (write_chunks att d k chunks at_end fs) !! q).
Proof.
  revert k fs. induction chunks as [|c chunks IH]; intros k fs Hq; simpl.
  - destruct at_end; exact Hq.
  - unfold f_write, bind, emit, append, files. simpl.
    destruct (write_error att k); simpl; [exact Hq|].
    specialize (IH (S k) (<[d:=default [] (fs !! d) ++ c]> fs)).
    destruct (write_chunks att d (S k) chunks at_end _) as [[r fs2] t].
    apply IH. rewrite lookup_insert. destruct (decide (d = q)); eauto.
Qed.

(** The events of the write loop are writes: [g] sees none of them. *)
Ltac drop_writes g :=
  try match goal with
      | Hwrite : write_chunks ?a ?d ?k ?cs ?se ?fs0 = (_, _, ?tw) |- _ =>
          let Htw := fresh "Htw" in
          pose proof (write_chunks_omap g a d k cs se fs0 (fun _ => eq_refl))
            as Htw;
          rewrite Hwrite in Htw; unfold trace in Htw; simpl in Htw;
          rewrite ?omap_app, ?Htw
      end.

Lemma download_file_count_lines att url destination fs :
  count_lines (trace (download_file att url destination fs)) = [].
Proof.
  unfold count_lines, trace.
  destruct destination as [| | | |d| |]; try reflexivity.
  walk_download att;
    drop_writes (fun ev => match ev with
                           | EvPrint [Lit s; Num n] => Some [Lit s; Num n]
                           | _ => None
                           end);
    reflexivity.
Qed.

(** One call fetches at most once: once, unless the destination is no
    path or its directory cannot be created. *)
Lemma download_file_fetches att url destination fs :
  fetches (trace (download_file att url destination fs))
  = match destination, mkdir_error att with
    | PStr _, None => [url]
    | _, _ => []
    end.
Proof.
  unfold fetches, trace.
  destruct destination as [| | | |d| |]; try reflexivity.
  walk_download att;
    drop_writes (fun ev => match ev with EvGet u => Some u | _ => None end);
    reflexivity.
Qed.

(** A call that returns [True] leaves the destination file behind. *)
Lemma download_file_written att url p fs :
  outcome (download_file att url (PStr p) fs) = Ok true ->
  is_Some (files (download_file att url (PStr p) fs) !! p).
Proof.
  unfold outcome, files.
  walk_download att; try discriminate.
  intros _.
  match goal with
  | Hwrite : write_chunks ?a ?d ?k ?cs ?se ?fs0 = (_, ?fsw, _) |- _ =>
      pose proof (write_chunks_keeps a d k cs se fs0 p) as Hkeep;
      rewrite Hwrite in Hkeep; apply Hkeep
  end.
  rewrite lookup_insert_eq. eauto.
Qed.

(** ** Framed computations *)

Lemma framed_ret {A} (a : A) : framed (ret a).
Proof. intros W fs. reflexivity. Qed.

Lemma framed_raise {A} e : framed (@raise A e).
Proof. intros W fs. reflexivity. Qed.

Lemma framed_sys_exit {A} c : framed (@sys_exit A c).
Proof. intros W fs. reflexivity. Qed.

Lemma framed_emit ev : framed (emit ev).
Proof. intros W fs. reflexivity. Qed.

Lemma framed_fail_with o : framed (fail_with o).
Proof. destruct o; intros W fs; reflexivity. Qed.

Lemma framed_bind {A B} (m : M A) (k : A -> M B) :
  framed m -> (forall a, framed (k a)) -> framed (bind m k).
Proof.
  intros Hm Hk W fs. unfold bind. rewrite Hm.
  destruct (m W) as [[[a|e|c] W1] t1]; unfold overlay, outcome, files, trace;
    simpl; try reflexivity.
  rewrite Hk. destruct (k a W1) as [[r W2] t2]. reflexivity.
Qed.

Lemma framed_try_except {A} (body : M A) handler :
  framed body -> (forall e, framed (handler e)) -> framed (try_except body handler).
Proof.
  intros Hb Hh W fs. unfold try_except. rewrite Hb.
  destruct (body W) as [[[a|e|c] W1] t1]; unfold overlay, outcome, files, trace;
    simpl; try reflexivity.
  rewrite Hh. destruct (handler e W1) as [[r W2] t2]. reflexivity.
Qed.

Lemma framed_on_bind {A B} d (m : M A) (k : A -> M B) :
  framed_on d m -> (forall a, framed (k a)) -> framed_on d (bind m k).
Proof.
  intros Hm Hk W fs HW. unfold bind. rewrite Hm by exact HW.
  destruct (m W) as [[[a|e|c] W1] t1]; unfold overlay, outcome, files, trace;
    simpl; try reflexivity.
  rewrite Hk. destruct (k a W1) as [[r W2] t2]. reflexivity.
Qed.

Lemma framed_on_closing {A} d (block : M A) close :
  framed_on d block -> framed close -> framed_on d (closing block close).
Proof.
  intros Hb Hc W fs HW. unfold closing. rewrite Hb by exact HW.
  destruct (block W) as [[r W1] t1]. unfold overlay, outcome, files, trace.
  simpl. rewrite Hc. destruct (close W1) as [[[[]|e|c] W2] t2]; reflexivity.
Qed.

Lemma framed_on_write_chunks att d k chunks at_end :
  framed_on d (write_chunks att d k chunks at_end).
Proof.
  revert k. induction chunks as [|c chunks IH]; intros k W fs [x Hx]; simpl.
  - destruct at_end; reflexivity.
  - unfold f_write, bind, emit. simpl.
    destruct (write_error att k) as [e|]; simpl; [reflexivity|].
    unfold append. simpl.
    rewrite (lookup_union_Some_l W fs d x Hx), Hx. simpl.
    rewrite insert_union_l.
    rewrite IH by (rewrite lookup_insert_eq; eauto).
    destruct (write_chunks att d (S k) chunks at_end (<[d:=x ++ c]> W))
      as [[r fs2] t].
    reflexivity.
Qed.

(** Opening the file for writing creates it: what comes next may rely
    on the file being there. *)
Lemma framed_open_wb {B} att d (k : M B) :
  framed_on d k -> framed (bind (open_wb att d) (fun _ => k)).
Proof.
  intros Hk W fs. unfold bind, open_wb, emit, truncate. simpl.
  destruct (open_error att) as [e|]; simpl; [reflexivity|].
  rewrite insert_union_l, Hk by (rewrite lookup_insert_eq; eauto).
  destruct (k (<[d:=[]]> W)) as [[r W2] t2]. reflexivity.
Qed.

Lemma framed_download_file att url destination :
  framed (download_file att url destination).
Proof.
  unfold download_file. apply framed_try_except.
  - apply framed_bind.
    { destruct destination; first [apply framed_ret|apply framed_raise]. }
    intros dest_path.
    apply framed_bind.
    { apply framed_bind; [apply framed_emit|intros _; apply framed_fail_with]. }
    intros _.
    do 2 (apply framed_bind; [apply framed_emit|intros _]).
    apply framed_bind.
    { apply framed_bind; [apply framed_emit|intros _].
      destruct (get_result att); [apply framed_raise|apply framed_ret]. }
    intros response.
    apply framed_bind.
    { unfold raise_for_status.
      destruct ((400 <=? status_code response)%Z && (status_code response <? 600)%Z);
        [apply framed_raise|apply framed_ret]. }
    intros _.
    apply framed_open_wb.
    apply framed_on_bind.
    { apply framed_on_closing; [apply framed_on_write_chunks|].
      apply framed_bind; [apply framed_emit|intros _; apply framed_fail_with]. }
    intros _.
    apply framed_bind; [apply framed_emit|intros _; apply framed_ret].
  - intros e. destruct (is_RequestException e).
    { apply framed_bind; [apply framed_emit|intros _; apply framed_ret]. }
    destruct (is_IOError e); [|apply framed_raise].
    apply framed_bind; [apply framed_emit|intros _; apply framed_ret].
Qed.

(** ** One turn of the loop *)

Section Aggregator.

Variable net : nat -> attempt.

Lemma download_loop_not_dict total item rest idx s f fs :
  (forall d, item <> PDict d) ->
  exists e, download_loop net total (item :: rest) idx s f fs = (Raised e, fs, [])
            /\ exn_cls e = AttributeError.
Proof.
  intros Hnd. simpl. unfold bind, py_get, raise.
  destruct item; try (eexists; split; reflexivity).
  exfalso. eapply Hnd. reflexivity.
Qed.

Lemma download_loop_skip total d rest idx s f fs :
  passes_check d = false ->
  download_loop net total (PDict d :: rest) idx s f fs
  = prepend [EvPrint (skip_line idx)]
      (download_loop net total rest (S idx) s (S f) fs).
Proof.
  unfold passes_check, field. intros Hc.
  apply (f_equal negb) in Hc. rewrite negb_andb in Hc.
  simpl. unfold bind, ret. simpl.
  destruct (d !! "url") as [u|], (d !! "destination") as [v|];
    simpl in *; rewrite ?Hc, ?orb_true_r;
    unfold bind, print, emit, prepend, outcome, files, trace; simpl.
  all: destruct (download_loop net total rest (S idx) s (S f) fs) as [[r fs'] t].
  all: reflexivity.
Qed.

Lemma download_loop_download total d rest idx s f fs :
  passes_check d = true ->
  download_loop net total (PDict d :: rest) idx s f fs
  = match download_file (net idx) (field d "url") (field d "destination") fs with
    | (Ok ok, fs1, t1) =>
        prepend (EvPrint (progress_line idx total) :: t1)
          (download_loop net total rest (S idx)
             (if ok then S s else s) (if ok then f else S f) fs1)
    | (Raised e, fs1, t1) =>
        (Raised e, fs1, EvPrint (progress_line idx total) :: t1)
    | (Exited c, fs1, t1) =>
        (Exited c, fs1, EvPrint (progress_line idx total) :: t1)
    end.
Proof.
  unfold passes_check, field. intros Hc.
  apply (f_equal negb) in Hc. rewrite negb_andb in Hc.
  simpl. unfold bind at 1 2. unfold ret. simpl.
  destruct (d !! "url") as [u|], (d !! "destination") as [v|];
    simpl in *; try discriminate;
    try (rewrite orb_true_r in Hc; discriminate).
  rewrite Hc.
  unfold bind, print, emit, prepend, outcome, files, trace. simpl.
  destruct (download_file (net idx) u v fs) as [[[ok|e|c] fs1] t1];
    try reflexivity.
  destruct ok.
  - destruct (download_loop net total rest (S idx) (S s) f fs1) as [[r fs'] t].
    reflexivity.
  - destruct (download_loop net total rest (S idx) s (S f) fs1) as [[r fs'] t].
    reflexivity.
Qed.

End Aggregator.

(** An item that is not a dict stops the loop: rewrite with that. *)
Ltac crash_on_item :=
  match goal with
  | |- context [download_loop ?net ?total (?item :: ?rest) ?idx ?s ?f ?fs] =>
      let e := fresh "e" in
      let He := fresh "He" in
      destruct (download_loop_not_dict net total item rest idx s f fs)
        as (e & He & _); [discriminate | rewrite He]
  end.

Section Counters.

Variable net : nat -> attempt.

(** The counters only grow, and together by one per item. *)
Lemma download_loop_counts total items idx s f fs s' f' :
  outcome (download_loop net total items idx s f fs) = Ok (s', f') ->
  s <= s' /\ f <= f' /\ s' + f' = s + f + length items.
Proof.
  revert idx s f fs. induction items as [|item rest IH]; intros idx s f fs.
  - simpl. intros [= <- <-]. lia.
  - destruct item as [| | | | | |d]; try (crash_on_item; discriminate).
    destruct (passes_check d) eqn:Hc.
    + rewrite download_loop_download by assumption.
      destruct (download_file _ _ _ fs) as [[[ok|e|c] fs1] t1]; try discriminate.
      unfold prepend, outcome. simpl. intros H. apply IH in H.
      destruct ok; simpl; lia.
    + rewrite download_loop_skip by assumption.
      unfold prepend, outcome. simpl. intros H. apply IH in H. simpl. lia.
Qed.

(** [sys.exit] is not called inside the loop. *)
Lemma download_loop_no_exit total items idx s f fs c :
  outcome (download_loop net total items idx s f fs) <> Exited c.
Proof.
  revert idx s f fs. induction items as [|item rest IH]; intros idx s f fs.
  - discriminate.
  - destruct item as [| | | | | |d]; try (crash_on_item; discriminate).
    destruct (passes_check d) eqn:Hc.
    + rewrite download_loop_download by assumption.
      pose proof (download_file_no_exit (net idx) (field d "url")
                    (field d "destination") fs) as Hne.
      destruct (download_file _ _ _ fs) as [[[ok|e|c'] fs1] t1]; try discriminate.
      * apply IH.
      * exfalso. apply (Hne c'). reflexivity.
    + rewrite download_loop_skip by assumption. apply IH.
Qed.

Lemma download_loop_frame total items idx s f (W fs : filesys) :
  download_loop net total items idx s f (W ∪ fs)
  = overlay (download_loop net total items idx s f W) fs.
Proof.
  revert idx s f W. induction items as [|item rest IH]; intros idx s f W.
  - reflexivity.
  - destruct item as [| | | | | |d]; try reflexivity.
    destruct (passes_check d) eqn:Hc.
    + rewrite !download_loop_download by assumption.
      rewrite framed_download_file.
      destruct (download_file _ _ _ W) as [[[ok|e|c] fs1] t1]; try reflexivity.
      unfold overlay at 1. unfold outcome, files, trace. simpl.
      rewrite IH.
      destruct (download_loop net total rest _ _ _ fs1) as [[r fs'] t].
      reflexivity.
    + rewrite !download_loop_skip by assumption. rewrite IH.
      destruct (download_loop net total rest _ _ _ W) as [[r fs'] t].
      reflexivity.
Qed.

End Counters.

(** ** The shape of a run of [main] *)

Lemma chars_length s : length (chars s) = String.length s.
Proof. induction s; simpl; congruence. Qed.

Section Main.

Variable json_load_file : string -> exn + pyval.
Variable net : nat -> attempt.

Lemma main_truthy argv downloads total items fs :
  load_config json_load_file (config_path_of argv) fs = (Ok downloads, fs, []) ->
  truthy downloads = true ->
  py_len downloads fs = (Ok total, fs, []) ->
  py_iter downloads fs = (Ok items, fs, []) ->
  main json_load_file net argv fs
  = finish (config_path_of argv) total (download_loop net total items 1 0 0 fs).
Proof.
  intros Hload Htrue Hlen Hiter. unfold main, finish.
  unfold bind, print, emit. simpl. rewrite Hload. simpl. rewrite Htrue. simpl.
  rewrite Hlen. simpl. rewrite Hiter. simpl.
  destruct (download_loop net total items 1 0 0 fs) as [[[[s f]|e|c] fs'] t];
    simpl; try reflexivity.
  unfold sys_exit, ret.
  destruct (Nat.ltb 0 f); simpl; rewrite <- ?app_assoc; reflexivity.
Qed.

Lemma main_no_len argv downloads e fs :
  load_config json_load_file (config_path_of argv) fs = (Ok downloads, fs, []) ->
  truthy downloads = true ->
  py_len downloads fs = (Raised e, fs, []) ->
  main json_load_file net argv fs
  = (Raised e, fs, header (config_path_of argv) ++ []).
Proof.
  intros Hload Htrue Hlen. unfold main.
  unfold bind, print, emit. simpl. rewrite Hload. simpl. rewrite Htrue. simpl.
  rewrite Hlen. reflexivity.
Qed.

(** A run either stops before the loop, having printed at most one
    line after the heading and touched nothing, or goes through the
    loop over the items of [downloads]. *)
Lemma main_cases argv fs :
  (exists r extra,
      main json_load_file net argv fs
      = (r, fs, header (config_path_of argv) ++ extra)
      /\ count_lines extra = [] /\ transfers extra = [])
  \/ (exists total items,
         length items = total
         /\ main json_load_file net argv fs
            = finish (config_path_of argv) total
                (download_loop net total items 1 0 0 fs)).
Proof.
  destruct (json_load_file (config_path_of argv)) as [e|v] eqn:Hjl.
  { left. unfold main, load_config, try_except, bind, print, emit, raise, sys_exit.
    simpl. rewrite Hjl. simpl.
    destruct (is_FileNotFoundError e); simpl; [eauto 6|].
    destruct (is_JSONDecodeError e); simpl; [eauto 6|].
    exists (Raised e), []. auto. }
  destruct v as [| | | | | |d];
    try (left; unfold main, load_config, try_except, bind, print, emit, raise;
         simpl; rewrite Hjl; simpl; eexists _, []; split; [reflexivity|auto]).
  pose proof (load_config_dict json_load_file _ d fs Hjl) as Hload.
  remember (default (PList []) (d !! "downloads")) as v eqn:Hv. clear Hv.
  destruct (truthy v) eqn:Htruthy.
  2:{ left. rewrite (main_loaded _ _ _ _ _ Hload Htruthy). eauto 6. }
  destruct v as [|b|z|x|s|l|m];
    try (left; eexists _, []; split; [|auto];
         eapply main_no_len; [exact Hload|exact Htruthy|reflexivity]).
  - right. exists (String.length s), (chars s). split; [apply chars_length|].
    apply main_truthy with (downloads := PStr s); auto.
  - right. exists (length l), l. split; [reflexivity|].
    apply main_truthy with (downloads := PList l); auto.
  - right. exists (size m), (map (fun kv => PStr (fst kv)) (map_to_list m)).
    split; [rewrite length_map; apply length_map_to_list|].
    apply main_truthy with (downloads := PDict m); auto.
Qed.

End Main.

(** ** What the loop leaves in the trace *)

Section LoopTrace.

Variable net : nat -> attempt.

Lemma download_loop_count_lines total items idx s f fs :
  count_lines (trace (download_loop net total items idx s f fs)) = [].
Proof.
  revert idx s f fs. induction items as [|item rest IH]; intros idx s f fs.
  - reflexivity.
  - destruct item as [| | | | | |d]; try reflexivity.
    destruct (passes_check d) eqn:Hc.
    + rewrite download_loop_download by assumption.
      pose proof (download_file_count_lines (net idx) (field d "url")
                    (field d "destination") fs) as Hd.
      destruct (download_file _ _ _ fs) as [[[ok|e|c] fs1] t1];
        unfold trace in *; simpl in *; try exact Hd.
      unfold count_lines in *. rewrite omap_app, Hd. apply IH.
    + rewrite download_loop_skip by assumption. apply IH.
Qed.

(** The fetches of the loop are those its items lead to, in the order of
    the list; a run that stops early has made the first of them. *)
Lemma download_loop_fetches total items idx s f fs :
  exists later,
    expected_fetches net idx items
    = fetches (trace (download_loop net total items idx s f fs)) ++ later
    /\ (forall c, outcome (download_loop net total items idx s f fs) = Ok c ->
                  later = []).
Proof.
  revert idx s f fs. induction items as [|item rest IH]; intros idx s f fs.
  - exists []. split; reflexivity.
  - destruct item as [| | | | | |d];
      try (crash_on_item; eexists; split; [reflexivity|discriminate]).
    cbn [expected_fetches attempted]. destruct (passes_check d) eqn:Hc.
    + rewrite download_loop_download by assumption.
      pose proof (download_file_fetches (net idx) (field d "url")
                    (field d "destination") fs) as Hd.
      destruct (download_file _ _ _ fs) as [[[ok|e|c] fs1] t1];
        unfold prepend, trace, outcome in *; cbn [fst snd] in *; rewrite <- Hd.
      * destruct (IH (S idx) (if ok then S s else s) (if ok then f else S f) fs1)
          as (later & Heq & Hok).
        exists later. unfold fetches in *. rewrite omap_app, Heq, app_assoc.
        split; [reflexivity|exact Hok].
      * eexists. split; [reflexivity|discriminate].
      * eexists. split; [reflexivity|discriminate].
    + rewrite download_loop_skip by assumption. simpl.
      destruct (IH (S idx) s (S f) fs) as (later & Heq & Hok).
      exists later. split; [exact Heq|exact Hok].
Qed.

Lemma download_loop_app total l1 l2 idx s f fs :
  download_loop net total (l1 ++ l2) idx s f fs
  = bind (download_loop net total l1 idx s f)
      (fun c => download_loop net total l2 (idx + length l1) (fst c) (snd c)) fs.
Proof.
  revert idx s f fs. induction l1 as [|item l1 IH]; intros idx s f fs.
  - simpl. unfold bind, ret. simpl. rewrite Nat.add_0_r.
    destruct (download_loop net total l2 idx s f fs) as [[r fs'] t]. reflexivity.
  - rewrite <- app_comm_cons.
    destruct item as [| | | | | |d]; try reflexivity.
    unfold bind at 1. simpl length. rewrite Nat.add_succ_r.
    destruct (passes_check d) eqn:Hc.
    + rewrite !download_loop_download by assumption.
      destruct (download_file _ _ _ fs) as [[[ok|e|c] fs1] t1]; try reflexivity.
      rewrite IH. unfold bind, prepend, outcome, files, trace. simpl.
      destruct (download_loop net total l1 _ _ _ fs1) as [[[[s1 f1]|e|c] fs2] t2];
        simpl; try reflexivity.
      destruct (download_loop net total l2 _ _ _ fs2) as [[r fs3] t3]. simpl.
      rewrite app_assoc. reflexivity.
    + rewrite !download_loop_skip by assumption.
      rewrite IH. unfold bind, prepend, outcome, files, trace. simpl.
      destruct (download_loop net total l1 _ _ _ fs) as [[[[s1 f1]|e|c] fs2] t2];
        simpl; try reflexivity.
      destruct (download_loop net total l2 _ _ _ fs2) as [[r fs3] t3]. simpl.
      reflexivity.
Qed.

End LoopTrace.

(** ** Runs without a failure *)

Section AllSucceed.

Variable net : nat -> attempt.

Lemma transfers_ok_download att d url_fs :
  passes_check d = true ->
  transfers_ok att (PDict d) = true
  <-> outcome (download_file att (field d "url") (field d "destination") url_fs)
      = Ok true.
Proof.
  intros Hc. unfold transfers_ok. rewrite Hc. simpl.
  destruct (field d "destination") as [| | | |p| |] eqn:Hdest;
    try (split; [discriminate|];
         match goal with
         | |- context [download_file att ?u ?v url_fs] =>
             destruct (download_file_bad_destination att u v url_fs)
               as (e & -> & _); discriminate
         end).
  symmetry. apply download_file_true.
Qed.

(** Every item is downloaded with success exactly when the loop ends
    with no failure counted. *)
Lemma download_loop_all_ok total items idx s f fs :
  (forall k item, items !! k = Some item ->
                  transfers_ok (net (idx + k)) item = true)
  <-> outcome (download_loop net total items idx s f fs)
      = Ok (s + length items, f).
Proof.
  revert idx s f fs. induction items as [|item rest IH]; intros idx s f fs.
  - simpl. rewrite Nat.add_0_r. split; [reflexivity|].
    intros _ k item Hk. discriminate.
  - assert (Hsplit :
      (forall k it, (item :: rest) !! k = Some it ->
                    transfers_ok (net (idx + k)) it = true)
      <-> transfers_ok (net idx) item = true
          /\ (forall k it, rest !! k = Some it ->
                           transfers_ok (net (S idx + k)) it = true)).
    { split.
      - intros H. split.
        + specialize (H 0 item eq_refl). rewrite Nat.add_0_r in H. exact H.
        + intros k it Hk. specialize (H (S k) it Hk).
          rewrite Nat.add_succ_r in H. exact H.
      - intros [H0 Hr] [|k] it Hk.
        + injection Hk as <-. rewrite Nat.add_0_r. exact H0.
        + rewrite Nat.add_succ_r. apply Hr. exact Hk. }
    rewrite Hsplit. clear Hsplit. simpl length.
    destruct item as [| | | | | |d];
      try (crash_on_item; split; [intros [H _]|intros H]; discriminate).
    destruct (passes_check d) eqn:Hc.
    + rewrite (transfers_ok_download (net idx) d fs Hc).
      rewrite download_loop_download by assumption.
      destruct (download_file _ _ _ fs) as [[[ok|e|c] fs1] t1];
        unfold prepend, outcome; cbn [fst snd];
        try (split; [intros [H _]|intros H]; discriminate).
      destruct ok.
      * rewrite (IH (S idx) (S s) f fs1). unfold outcome.
        replace (S s + length rest) with (s + S (length rest)) by lia.
        tauto.
      * split; [intros [H _]; discriminate|]. intros H.
        apply (download_loop_counts net) in H. lia.
    + rewrite download_loop_skip by assumption.
      unfold prepend, outcome; cbn [fst snd]. unfold transfers_ok.
      rewrite Hc. split.
      * intros [H _]. destruct (field d "destination"); discriminate.
      * intros H. apply (download_loop_counts net) in H. lia.
Qed.

End AllSucceed.

(** ** The exit status of a run over a list of items *)

Section ExitStatus.

Variable json_load_file : string -> exn + pyval.
Variable net : nat -> attempt.

Lemma main_items argv d items fs :
  json_load_file (config_path_of argv) = inr (PDict d) ->
  d !! "downloads" = Some (PList items) ->
  items <> [] ->
  main json_load_file net argv fs
  = finish (config_path_of argv) (length items)
      (download_loop net (length items) items 1 0 0 fs).
Proof.
  intros Hjl Hd Hne.
  pose proof (load_config_dict json_load_file _ d fs Hjl) as Hload.
  rewrite Hd in Hload. simpl in Hload.
  apply main_truthy with (downloads := PList items); auto.
  destruct items; [contradiction|reflexivity].
Qed.

Lemma main_no_items argv d fs :
  json_load_file (config_path_of argv) = inr (PDict d) ->
  d !! "downloads" = None \/ d !! "downloads" = Some (PList []) ->
  main json_load_file net argv fs
  = (Exited 0, fs, header (config_path_of argv) ++ [EvPrint no_downloads_line]).
Proof.
  intros Hjl Hd.
  pose proof (load_config_dict json_load_file _ d fs Hjl) as Hload.
  apply main_loaded with (downloads := PList []); [|reflexivity].
  destruct Hd as [Hd|Hd]; rewrite Hd in Hload; exact Hload.
Qed.

(** The status is 0 when the loop ends with no failure counted, and 1
    in every other case. *)
Lemma status_items argv d items fs :
  json_load_file (config_path_of argv) = inr (PDict d) ->
  d !! "downloads" = Some (PList items) ->
  items <> [] ->
  status (run_script json_load_file net argv fs)
  = match outcome (download_loop net (length items) items 1 0 0 fs) with
    | Ok (_, O) => 0%Z
    | _ => 1%Z
    end.
Proof.
  intros Hjl Hd Hne. unfold run_script.
  rewrite (main_items argv d items fs Hjl Hd Hne). unfold finish.
  pose proof (download_loop_no_exit net (length items) items 1 0 0 fs) as Hnx.
  destruct (download_loop net (length items) items 1 0 0 fs)
    as [[[[s f]|e|c] fs'] t]; unfold outcome, status in *; simpl in *.
  - destruct f; reflexivity.
  - reflexivity.
  - exfalso. apply (Hnx c). reflexivity.
Qed.

End ExitStatus.

(** ** C1: the exit status tells whether every item succeeded *)

(** C1. For a configuration whose [downloads] is a non-empty list, the
    run exits with status 0 exactly when the loop ends with
    [fail_count == 0], which is exactly when every item of the list was
    downloaded with success.  For an empty [downloads] list the run
    prints the no-downloads notice after the heading and exits with
    status 0; its trace holds no transfer event and the files are
    untouched. *)
Theorem exit_zero_iff_all_succeeded json_load_file net argv d items fs :
  json_load_file (config_path_of argv) = inr (PDict d) ->
  d !! "downloads" = Some (PList items) ->
  (items <> [] ->
   (status (run_script json_load_file net argv fs) = 0%Z
    <-> exists s,
        outcome (download_loop net (length items) items 1 0 0 fs) = Ok (s, 0))
   /\ (status (run_script json_load_file net argv fs) = 0%Z
       <-> forall k item, items !! k = Some item ->
                          transfers_ok (net (S k)) item = true))
  /\ (items = [] ->
      run_script json_load_file net argv fs
      = (0%Z, fs, header (config_path_of argv) ++ [EvPrint no_downloads_line])
      /\ transfers (trace (main json_load_file net argv fs)) = []).
Proof.
  intros Hjl Hd. split.
  - intros Hne.
    rewrite (status_items json_load_file net argv d items fs Hjl Hd Hne).
    assert (Hzero :
      match outcome (download_loop net (length items) items 1 0 0 fs) with
      | Ok (_, O) => 0%Z
      | _ => 1%Z
      end = 0%Z
      <-> exists s,
          outcome (download_loop net (length items) items 1 0 0 fs) = Ok (s, 0)).
    { destruct (outcome (download_loop net (length items) items 1 0 0 fs))
        as [[s [|f]]|e|c]; split; try discriminate; eauto.
      - intros [s' H]. discriminate.
      - intros [s' H]. discriminate.
      - intros [s' H]. discriminate. }
    split; [exact Hzero|]. rewrite Hzero.
    rewrite (download_loop_all_ok net (length items) items 1 0 0 fs). simpl.
    split.
    + intros [s H]. pose proof H as Hc.
      apply (download_loop_counts net) in Hc.
      assert (Hs : s = length items) by lia. rewrite Hs in H. exact H.
    + eauto.
  - intros ->.
    rewrite (main_no_items json_load_file net argv d fs Hjl (or_intror Hd)).
    unfold run_script.
    rewrite (main_no_items json_load_file net argv d fs Hjl (or_intror Hd)).
    split; reflexivity.
Qed.

Lemma exit_zero_iff_all_succeeded_witness :
  status (run_script (Samples.load (PDict Samples.downloads_two))
            (fun _ => Samples.good) Samples.argv ∅) = 0%Z.
Proof.
  destruct (exit_zero_iff_all_succeeded
              (Samples.load (PDict Samples.downloads_two)) (fun _ => Samples.good)
              Samples.argv Samples.downloads_two
              [Samples.item "http://a/x" "out/x"; Samples.item "http://b/y" "out/y"]
              ∅ eq_refl eq_refl) as [Hsome _].
  destruct (Hsome ltac:(discriminate)) as [[_ Hzero] _].
  apply Hzero. exists 2. vm_compute. reflexivity.
Defined.

(** ** C5: a run in which every transfer succeeds *)

(** C5. For a [downloads] list of N >= 1 items that are all downloaded
    with success, the run exits with status 0, and it ends with the
    summary "Successful: N", "Failed: 0", "Total: N"; these are the only
    count lines of the whole output. *)
Theorem all_succeed_summary json_load_file net argv d items fs :
  json_load_file (config_path_of argv) = inr (PDict d) ->
  d !! "downloads" = Some (PList items) ->
  1 <= length items ->
  (forall k item, items !! k = Some item ->
                  transfers_ok (net (S k)) item = true) ->
  let N := length items in
  let loop := download_loop net N items 1 0 0 fs in
  run_script json_load_file net argv fs
  = (0%Z, files loop,
     header (config_path_of argv) ++ [EvPrint (found_line N)]
     ++ trace loop ++ summary N 0 N)
  /\ count_lines (trace (main json_load_file net argv fs))
     = [[Lit "  Successful: "; Num N]; [Lit "  Failed: "; Num 0];
        [Lit "  Total: "; Num N]].
Proof.
  intros Hjl Hd Hlen Hall N loop.
  assert (Hne : items <> []) by (destruct items; [simpl in Hlen; lia|discriminate]).
  pose proof (main_items json_load_file net argv d items fs Hjl Hd Hne) as Hmain.
  apply (download_loop_all_ok net N items 1 0 0 fs) in Hall.
  fold N in Hmain. fold loop in Hmain, Hall.
  pose proof (download_loop_count_lines net N items 1 0 0 fs) as Hcl.
  fold loop in Hcl.
  unfold run_script. rewrite Hmain. unfold finish.
  destruct loop as [[r fs'] t]. unfold outcome, files, trace in *.
  simpl in Hall, Hcl. subst r. simpl. split.
  - reflexivity.
  - unfold count_lines in *. simpl. rewrite omap_app, Hcl. reflexivity.
Qed.

Lemma all_succeed_summary_witness :
  status (run_script (Samples.load (PDict Samples.downloads_two))
            (fun _ => Samples.good) Samples.argv ∅) = 0%Z
  /\ count_lines (trace (main (Samples.load (PDict Samples.downloads_two))
                           (fun _ => Samples.good) Samples.argv ∅))
     = [[Lit "  Successful: "; Num 2]; [Lit "  Failed: "; Num 0];
        [Lit "  Total: "; Num 2]].
Proof.
  assert (Hall : forall k item,
             [Samples.item "http://a/x" "out/x"; Samples.item "http://b/y" "out/y"]
               !! k = Some item ->
             transfers_ok Samples.good item = true).
  { intros [|[|k]] item Hk; [injection Hk as <- ..|discriminate];
      vm_compute; reflexivity. }
  destruct (all_succeed_summary
              (Samples.load (PDict Samples.downloads_two)) (fun _ => Samples.good)
              Samples.argv Samples.downloads_two
              [Samples.item "http://a/x" "out/x"; Samples.item "http://b/y" "out/y"]
              ∅ eq_refl eq_refl ltac:(simpl; lia) Hall) as [Hrun Hcount].
  split; [rewrite Hrun; reflexivity|exact Hcount].
Defined.

(** ** C10: a configuration without the [downloads] key *)

(** C10. When the configuration parses as an object that has no
    [downloads] key, [load_config] returns the empty list without
    printing or exiting, and the run prints the no-downloads notice and
    exits with status 0: the same status, files and output as the run
    on any configuration whose [downloads] is the empty list. *)
Theorem missing_key_is_empty_list json_load_file net argv d fs :
  json_load_file (config_path_of argv) = inr (PDict d) ->
  d !! "downloads" = None ->
  load_config json_load_file (config_path_of argv) fs = (Ok (PList []), fs, [])
  /\ run_script json_load_file net argv fs
     = (0%Z, fs, header (config_path_of argv) ++ [EvPrint no_downloads_line])
  /\ forall json_load_file' d',
       json_load_file' (config_path_of argv) = inr (PDict d') ->
       d' !! "downloads" = Some (PList []) ->
       run_script json_load_file' net argv fs
       = run_script json_load_file net argv fs.
Proof.
  intros Hjl Hd.
  pose proof (main_no_items json_load_file net argv d fs Hjl (or_introl Hd))
    as Hmain.
  split; [|split].
  - rewrite (load_config_dict json_load_file _ d fs Hjl), Hd. reflexivity.
  - unfold run_script. rewrite Hmain. reflexivity.
  - intros jl' d' Hjl' Hd'. unfold run_script.
    rewrite Hmain, (main_no_items jl' net argv d' fs Hjl' (or_intror Hd')).
    reflexivity.
Qed.

Lemma missing_key_is_empty_list_witness :
  run_script (Samples.load (PDict Samples.empty_list)) (fun _ => Samples.good)
    Samples.argv ∅
  = run_script (Samples.load (PDict Samples.no_key)) (fun _ => Samples.good)
      Samples.argv ∅.
Proof.
  destruct (missing_key_is_empty_list
              (Samples.load (PDict Samples.no_key)) (fun _ => Samples.good)
              Samples.argv Samples.no_key ∅ eq_refl eq_refl) as (_ & _ & Hsame).
  apply (Hsame (Samples.load (PDict Samples.empty_list)) Samples.empty_list);
    reflexivity.
Defined.

(** ** C4: an item without [url] or [destination] *)

Lemma missing_field_fails_check (d : gmap string pyval) :
  d !! "url" = None \/ d !! "destination" = None -> passes_check d = false.
Proof.
  unfold passes_check, field. intros [H|H]; rewrite H; simpl;
    [reflexivity|apply andb_false_r].
Qed.

(** C4. Let the items before an item that lacks [url] or [destination]
    have been handled, leaving the counters at [s1] and [f1]. Then the
    whole loop is: the events of those items, the one line "Skipping
    item ..." (so [download_file] is not called and nothing is
    transferred for the item), and then the loop over all the remaining
    items, entered with the same success count and with the failure
    count [f1 + 1]. *)
Theorem missing_field_is_skipped net total before d rest idx s f fs s1 f1 fs1 t1 :
  d !! "url" = None \/ d !! "destination" = None ->
  download_loop net total before idx s f fs = (Ok (s1, f1), fs1, t1) ->
  download_loop net total (before ++ PDict d :: rest) idx s f fs
  = prepend (t1 ++ [EvPrint (skip_line (idx + length before))])
      (download_loop net total rest (S (idx + length before)) s1 (S f1) fs1).
Proof.
  intros Hmiss Hbefore.
  rewrite download_loop_app. unfold bind. rewrite Hbefore. cbn [fst snd].
  rewrite download_loop_skip by (apply missing_field_fails_check; exact Hmiss).
  unfold prepend, outcome, files, trace.
  destruct (download_loop net total rest _ s1 (S f1) fs1) as [[r fs2] t2].
  simpl. rewrite <- app_assoc. reflexivity.
Qed.

Lemma missing_field_is_skipped_witness :
  download_loop (fun _ => Samples.good) 2
    [PDict Samples.url_only; Samples.item "http://b/y" "out/y"] 1 0 0 ∅
  = prepend [EvPrint (skip_line 1)]
      (download_loop (fun _ => Samples.good) 2
         [Samples.item "http://b/y" "out/y"] 2 0 1 ∅).
Proof.
  apply (missing_field_is_skipped (fun _ => Samples.good) 2 [] Samples.url_only
           [Samples.item "http://b/y" "out/y"] 1 0 0 ∅ 0 0 ∅ []).
  - right. reflexivity.
  - reflexivity.
Defined.

(** ** C9: an item whose [url] or [destination] is the empty string *)

(** C9. An item whose [url] (or [destination]) is present and is the
    empty string is handled exactly as the same item with that key
    removed: the loop prints the "Skipping item ..." line, calls no
    [download_file], counts one failure and goes on with the rest. *)
Theorem empty_field_is_missing net total d key rest idx s f fs :
  key = "url" \/ key = "destination" ->
  d !! key = Some (PStr "") ->
  download_loop net total (PDict d :: rest) idx s f fs
  = download_loop net total (PDict (delete key d) :: rest) idx s f fs
  /\ download_loop net total (PDict d :: rest) idx s f fs
     = prepend [EvPrint (skip_line idx)]
         (download_loop net total rest (S idx) s (S f) fs).
Proof.
  intros Hkey Hempty.
  assert (Hd : passes_check d = false).
  { unfold passes_check, field.
    destruct Hkey as [-> | ->]; rewrite Hempty; simpl;
      [reflexivity|apply andb_false_r]. }
  assert (Hdel : passes_check (delete key d) = false).
  { apply missing_field_fails_check.
    destruct Hkey as [-> | ->]; [left|right]; apply lookup_delete_eq. }
  rewrite !download_loop_skip by assumption. split; reflexivity.
Qed.

Lemma empty_field_is_missing_witness :
  download_loop (fun _ => Samples.good) 1 [PDict Samples.empty_url] 1 0 0 ∅
  = (Ok (0, 1), ∅, [EvPrint (skip_line 1)]).
Proof.
  destruct (empty_field_is_missing (fun _ => Samples.good) 1 Samples.empty_url
              "url" [] 1 0 0 ∅ (or_introl eq_refl) eq_refl) as [_ Hskip].
  rewrite Hskip. reflexivity.
Defined.

(** ** C3: failures of a transfer are caught and counted *)

Lemma unreachable_benign : benign Samples.unreachable.
Proof.
  intros e [H|[H|[(r & H & _)|[H|[(k & H)|H]]]]]; simpl in H;
    try discriminate.
  injection H as <-. reflexivity.
Qed.

(** C3. Whatever the URL and the destination path, when everything that
    goes wrong during the attempt is a transport failure or a local I/O
    failure, [download_file] raises nothing and returns a boolean:
    [True] when nothing went wrong and [False] as soon as the directory
    creation, the request, the status check (4xx, 5xx), the opening, a
    write, the stream or the close failed.  After such a [False] the
    loop counts one failure and goes on with the remaining items, and
    the run of a configuration holding such an item exits with 1. *)
Theorem failures_are_caught :
  (forall att url p fs,
      benign att ->
      outcome (download_file att url (PStr p) fs) = Ok (succeeds att))
  /\ (forall net total d p rest idx s f fs,
         passes_check d = true ->
         field d "destination" = PStr p ->
         benign (net idx) ->
         succeeds (net idx) = false ->
         download_loop net total (PDict d :: rest) idx s f fs
         = prepend
             (EvPrint (progress_line idx total)
              :: trace (download_file (net idx) (field d "url") (PStr p) fs))
             (download_loop net total rest (S idx) s (S f)
                (files (download_file (net idx) (field d "url") (PStr p) fs))))
  /\ (forall json_load_file net argv cfg items k d p fs,
         json_load_file (config_path_of argv) = inr (PDict cfg) ->
         cfg !! "downloads" = Some (PList items) ->
         items !! k = Some (PDict d) ->
         passes_check d = true ->
         field d "destination" = PStr p ->
         benign (net (S k)) ->
         succeeds (net (S k)) = false ->
         status (run_script json_load_file net argv fs) = 1%Z).
Proof.
  split; [exact handler_catches|]. split.
  - intros net total d p rest idx s f fs Hc Hdest Hb Hfail.
    rewrite download_loop_download by assumption. rewrite Hdest.
    pose proof (handler_catches (net idx) (field d "url") p fs Hb) as Hout.
    rewrite Hfail in Hout.
    destruct (download_file (net idx) (field d "url") (PStr p) fs)
      as [[r fs1] t1].
    unfold outcome in Hout. simpl in Hout. subst r. reflexivity.
  - intros jl net argv cfg items k d p fs Hjl Hcfg Hk Hc Hdest Hb Hfail.
    assert (Hne : items <> []) by (intros ->; discriminate).
    rewrite (status_items jl net argv cfg items fs Hjl Hcfg Hne).
    destruct (outcome (download_loop net (length items) items 1 0 0 fs))
      as [[s [|f]]|e|c] eqn:Hout; try reflexivity.
    exfalso.
    pose proof (download_loop_counts net _ _ _ _ _ _ _ _ Hout) as Hcount.
    assert (Hs : s = 0 + length items) by lia. rewrite Hs in Hout.
    pose proof (proj2 (download_loop_all_ok net _ _ _ _ _ _) Hout
                  k (PDict d) Hk) as Hok.
    simpl in Hok. unfold transfers_ok in Hok.
    rewrite Hdest, Hc, Hfail in Hok. discriminate.
Qed.

Lemma failures_are_caught_witness :
  outcome (download_file Samples.unreachable (PStr "http://a/x") (PStr "out/x") ∅)
  = Ok false
  /\ status (run_script (Samples.load (PDict Samples.downloads_two))
               Samples.first_unreachable Samples.argv ∅) = 1%Z.
Proof.
  destruct failures_are_caught as (Hcatch & _ & Hstatus).
  split.
  - apply (Hcatch Samples.unreachable (PStr "http://a/x") "out/x" ∅
             unreachable_benign).
  - apply (Hstatus (Samples.load (PDict Samples.downloads_two))
             Samples.first_unreachable Samples.argv Samples.downloads_two
             [Samples.item "http://a/x" "out/x"; Samples.item "http://b/y" "out/y"]
             0 Samples.url_x_dest_x "out/x" ∅);
      try reflexivity.
    exact unreachable_benign.
Defined.

(** ** C8: the counters add up *)

(** C8. Starting from 0 and 0, once the first [k] items have been
    handled the two counters add up to [k]; that state is the one from
    which the loop goes on with the items after the first [k].  And in
    every run, whatever the configuration and whatever happens to the
    items, either no count line is printed at all or the count lines
    are those of the final summary, with succeeded + failed = total. *)
Theorem counters_add_up :
  (forall net total items k fs s f,
      k <= length items ->
      outcome (download_loop net total (take k items) 1 0 0 fs) = Ok (s, f) ->
      s + f = k)
  /\ (forall net total items k fs,
         k <= length items ->
         download_loop net total items 1 0 0 fs
         = bind (download_loop net total (take k items) 1 0 0)
             (fun c => download_loop net total (drop k items) (1 + k)
                         (fst c) (snd c)) fs)
  /\ (forall json_load_file net argv fs,
         count_lines (trace (main json_load_file net argv fs)) = []
         \/ exists s f,
             count_lines (trace (main json_load_file net argv fs))
             = [[Lit "  Successful: "; Num s]; [Lit "  Failed: "; Num f];
                [Lit "  Total: "; Num (s + f)]]).
Proof.
  split; [|split].
  - intros net total items k fs s f Hk Hout.
    apply (download_loop_counts net) in Hout.
    rewrite length_take_le in Hout by assumption. lia.
  - intros net total items k fs Hk.
    rewrite <- (take_drop k items) at 1.
    rewrite download_loop_app, length_take_le by assumption. reflexivity.
  - intros jl net argv fs.
    destruct (main_cases jl net argv fs)
      as [(r & extra & -> & Hextra & _)|(total & items & Hlen & ->)].
    + left. unfold count_lines in *. unfold trace. simpl. exact Hextra.
    + pose proof (download_loop_count_lines net total items 1 0 0 fs) as Hcl.
      destruct (download_loop net total items 1 0 0 fs)
        as [[[[s f]|e|c] fs'] t] eqn:Hloop;
        unfold finish, trace, count_lines in *; simpl in *.
      * right. exists s, f.
        assert (Hout : outcome (download_loop net total items 1 0 0 fs)
                       = Ok (s, f)) by (rewrite Hloop; reflexivity).
        apply (download_loop_counts net) in Hout.
        replace (s + f) with total by lia.
        rewrite omap_app, Hcl. reflexivity.
      * left. exact Hcl.
      * left. exact Hcl.
Qed.

Lemma counters_add_up_witness :
  outcome (download_loop Samples.first_unreachable 2
             (take 1 [Samples.item "http://a/x" "out/x";
                      Samples.item "http://b/y" "out/y"]) 1 0 0 ∅)
  = Ok (0, 1)
  /\ 0 + 1 = 1.
Proof.
  assert (Hrun : outcome (download_loop Samples.first_unreachable 2
                   (take 1 [Samples.item "http://a/x" "out/x";
                            Samples.item "http://b/y" "out/y"]) 1 0 0 ∅)
                 = Ok (0, 1)) by (vm_compute; reflexivity).
  split; [exact Hrun|].
  destruct counters_add_up as (Hprefix & _ & _).
  apply (Hprefix Samples.first_unreachable 2
           [Samples.item "http://a/x" "out/x"; Samples.item "http://b/y" "out/y"]
           1 ∅ 0 1); [simpl; lia|exact Hrun].
Defined.

(** ** The whole run is framed *)

Lemma framed_py_get v key default : framed (py_get v key default).
Proof. destruct v; intros W fs; reflexivity. Qed.

Lemma framed_py_len v : framed (py_len v).
Proof. destruct v; intros W fs; reflexivity. Qed.

Lemma framed_py_iter v : framed (py_iter v).
Proof. destruct v; intros W fs; reflexivity. Qed.

Lemma framed_load_config json_load_file config_path :
  framed (load_config json_load_file config_path).
Proof.
  unfold load_config. apply framed_try_except.
  - apply framed_bind; [|intros config; apply framed_py_get].
    destruct (json_load_file config_path); [apply framed_raise|apply framed_ret].
  - intros e. destruct (is_FileNotFoundError e).
    + apply framed_bind; [apply framed_emit|intros _; apply framed_sys_exit].
    + destruct (is_JSONDecodeError e); [|apply framed_raise].
      apply framed_bind; [apply framed_emit|intros _; apply framed_sys_exit].
Qed.

Lemma framed_main json_load_file net argv : framed (main json_load_file net argv).
Proof.
  unfold main.
  apply framed_bind; [apply framed_emit|intros _].
  apply framed_bind; [apply framed_emit|intros _].
  apply framed_bind; [apply framed_load_config|intros downloads].
  apply framed_bind.
  { destruct (negb (truthy downloads)); [|apply framed_ret].
    apply framed_bind; [apply framed_emit|intros _; apply framed_sys_exit]. }
  intros _.
  apply framed_bind; [apply framed_py_len|intros total].
  apply framed_bind; [apply framed_emit|intros _].
  apply framed_bind; [apply framed_py_iter|intros items].
  apply framed_bind.
  { intros W fs. apply download_loop_frame. }
  intros [success_count fail_count].
  do 5 (apply framed_bind; [apply framed_emit|intros _]).
  destruct (Nat.ltb 0 fail_count); [apply framed_sys_exit|apply framed_ret].
Qed.

(** The run over [fs] is the run over no file at all, laid over [fs]. *)
Lemma main_over json_load_file net argv fs :
  main json_load_file net argv fs
  = overlay (main json_load_file net argv ∅) fs.
Proof.
  rewrite <- (framed_main json_load_file net argv ∅ fs).
  rewrite (left_id_L ∅ (∪)). reflexivity.
Qed.

(** ** What a successful run has written *)

Section Written.

Variable net : nat -> attempt.

(** The loop removes no file. *)
Lemma download_loop_keeps total items idx s f fs q :
  is_Some (fs !! q) ->
  is_Some (files (download_loop net total items idx s f fs) !! q).
Proof.
  intros Hq. rewrite <- (left_id_L ∅ (∪) fs), download_loop_frame.
  unfold overlay, files. simpl. apply lookup_union_is_Some. right. exact Hq.
Qed.

(** After a loop without failure every destination exists. *)
Lemma download_loop_written total items idx s f fs :
  outcome (download_loop net total items idx s f fs)
  = Ok (s + length items, f) ->
  forall k d p,
    items !! k = Some (PDict d) ->
    field d "destination" = PStr p ->
    is_Some (files (download_loop net total items idx s f fs) !! p).
Proof.
  revert idx s f fs. induction items as [|item rest IH]; intros idx s f fs Hout.
  - intros k d p Hk. discriminate.
  - pose proof (proj2 (download_loop_all_ok net _ _ _ _ _ _) Hout) as Hall.
    pose proof (Hall 0 item eq_refl) as Hhead. rewrite Nat.add_0_r in Hhead.
    destruct item as [| | | | | |d0]; try discriminate.
    unfold transfers_ok in Hhead.
    destruct (field d0 "destination") as [| | | |p0| |] eqn:Hd0; try discriminate.
    apply andb_true_iff in Hhead as [Hc Hs].
    assert (Hrest : forall fs1, outcome (download_loop net total rest (S idx) (S s) f fs1)
                                 = Ok (S s + length rest, f)).
    { intros fs1. apply download_loop_all_ok. intros k it Hk.
      replace (S idx + k) with (idx + S k) by lia. apply (Hall (S k) it Hk). }
    rewrite download_loop_download by assumption. rewrite Hd0.
    pose proof (proj2 (download_file_true (net idx) (field d0 "url") p0 fs) Hs)
      as Hfile.
    pose proof (download_file_written (net idx) (field d0 "url") p0 fs Hfile)
      as Hwritten.
    destruct (download_file (net idx) (field d0 "url") (PStr p0) fs)
      as [[r fs1] t1].
    unfold outcome, files in Hfile, Hwritten. simpl in Hfile, Hwritten. subst r.
    unfold prepend, files at 1. cbn [fst snd].
    intros [|k] d p Hk Hdest.
    + injection Hk as <-. rewrite Hd0 in Hdest. injection Hdest as <-.
      apply download_loop_keeps. exact Hwritten.
    + apply (IH (S idx) (S s) f fs1 (Hrest fs1) k d p Hk Hdest).
Qed.

End Written.

Lemma files_overlay {A} (x : result A * filesys * list event) fs :
  files (overlay x fs) = files x ∪ fs.
Proof. reflexivity. Qed.

Lemma finish_files config_path total x :
  files (finish config_path total x) = files x.
Proof. destruct x as [[[[s f]|e|c] fs'] t]; reflexivity. Qed.

Lemma main_written json_load_file net argv cfg items fs :
  json_load_file (config_path_of argv) = inr (PDict cfg) ->
  cfg !! "downloads" = Some (PList items) ->
  status (run_script json_load_file net argv fs) = 0%Z ->
  forall k d p,
    items !! k = Some (PDict d) ->
    field d "destination" = PStr p ->
    is_Some (files (main json_load_file net argv ∅) !! p).
Proof.
  intros Hjl Hcfg Hstatus k d p Hk Hdest.
  assert (Hne : items <> []) by (intros ->; discriminate).
  rewrite (status_items json_load_file net argv cfg items fs Hjl Hcfg Hne)
    in Hstatus.
  rewrite <- (left_id_L ∅ (∪) fs), download_loop_frame in Hstatus.
  unfold overlay in Hstatus. unfold outcome at 1 in Hstatus. simpl in Hstatus.
  rewrite (main_items json_load_file net argv cfg items ∅ Hjl Hcfg Hne).
  rewrite finish_files.
  destruct (outcome (download_loop net (length items) items 1 0 0 ∅))
    as [[s [|f]]|e|c] eqn:Hout; try discriminate.
  pose proof (download_loop_counts net _ _ _ _ _ _ _ _ Hout) as Hcount.
  assert (Hs : s = 0 + length items) by lia. rewrite Hs in Hout.
  exact (download_loop_written net _ _ _ _ _ _ Hout k d p Hk Hdest).
Qed.

(** ** C7: running the script again *)

(** C7, as stated, fails. The first run below succeeds and leaves the
    ten bytes of the body in [out/x]. During the second run, on the same
    configuration, the connection breaks after the first chunk: the run
    fails with status 1, and [out/x], opened and truncated before the
    body was read, is left with five bytes.  The last successful run
    alone gives the file ten. *)
Lemma rerun_failure_truncates :
  status (run_script (Samples.load (PDict Samples.downloads_one))
            (fun _ => Samples.good) Samples.argv ∅) = 0%Z
  /\ files (main (Samples.load (PDict Samples.downloads_one))
              (fun _ => Samples.good) Samples.argv ∅) !! "out/x"
     = Some (Samples.hello ++ Samples.hello)
  /\ status (run_script (Samples.load (PDict Samples.downloads_one))
               (fun _ => Samples.cut_off) Samples.argv
               (files (main (Samples.load (PDict Samples.downloads_one))
                         (fun _ => Samples.good) Samples.argv ∅))) = 1%Z
  /\ files (main (Samples.load (PDict Samples.downloads_one))
              (fun _ => Samples.cut_off) Samples.argv
              (files (main (Samples.load (PDict Samples.downloads_one))
                        (fun _ => Samples.good) Samples.argv ∅))) !! "out/x"
     = Some Samples.hello.
Proof. repeat split; vm_compute; reflexivity. Qed.

(** C7, amended. Let the script run twice on the same configuration,
    the world answering by [net1] the first time and by [net2] the
    second, and compare with the second run alone.  The second run
    returns and prints the same either way.  Every file it opens for
    writing ends with the same bytes either way: what the first run
    left there is overwritten.  Every other file keeps what the first
    run left.  With the same answers both times the second run changes
    no file at all.  When the second run ends with status 0, every
    destination of the configuration exists and holds what the second
    run alone gives it. *)
Theorem rerun_last_run_wins json_load_file net1 net2 argv fs :
  let first := main json_load_file net1 argv fs in
  let second := main json_load_file net2 argv (files first) in
  let alone := main json_load_file net2 argv fs in
  (outcome second = outcome alone /\ trace second = trace alone)
  /\ (forall p, is_Some (files (main json_load_file net2 argv ∅) !! p) ->
                files second !! p = files alone !! p)
  /\ (forall p, files (main json_load_file net2 argv ∅) !! p = None ->
                files second !! p = files first !! p)
  /\ files (main json_load_file net1 argv (files first)) = files first
  /\ (forall cfg items k d p,
         json_load_file (config_path_of argv) = inr (PDict cfg) ->
         cfg !! "downloads" = Some (PList items) ->
         status (run_script json_load_file net2 argv (files first)) = 0%Z ->
         items !! k = Some (PDict d) ->
         field d "destination" = PStr p ->
         is_Some (files second !! p)
         /\ files second !! p = files alone !! p).
Proof.
  intros first second alone.
  assert (Hsecond : second = overlay (main json_load_file net2 argv ∅) (files first))
    by apply main_over.
  assert (Halone : alone = overlay (main json_load_file net2 argv ∅) fs)
    by apply main_over.
  assert (Hfirst : first = overlay (main json_load_file net1 argv ∅) fs)
    by apply main_over.
  assert (Hwins : forall p,
             is_Some (files (main json_load_file net2 argv ∅) !! p) ->
             files second !! p = files alone !! p).
  { intros p [x Hx]. rewrite Hsecond, Halone, !files_overlay.
    rewrite !(lookup_union_Some_l _ _ p x Hx). reflexivity. }
  split; [|split; [exact Hwins|split; [|split]]].
  - rewrite Hsecond, Halone. split; reflexivity.
  - intros p Hp. rewrite Hsecond, files_overlay.
    apply lookup_union_r. exact Hp.
  - rewrite main_over, Hfirst, !files_overlay.
    rewrite (assoc_L (∪)), (idemp_L (∪)). reflexivity.
  - intros cfg items k d p Hjl Hcfg Hstatus Hk Hdest.
    pose proof (main_written json_load_file net2 argv cfg items (files first)
                  Hjl Hcfg Hstatus k d p Hk Hdest) as Hp.
    split; [|apply Hwins; exact Hp].
    rewrite Hsecond, files_overlay.
    apply lookup_union_is_Some. left. exact Hp.
Qed.

Lemma rerun_last_run_wins_witness :
  files (main (Samples.load (PDict Samples.downloads_two)) (fun _ => Samples.good)
           Samples.argv
           (files (main (Samples.load (PDict Samples.downloads_two))
                     Samples.first_unreachable Samples.argv
                     (<["out/x" := [x00]%byte]> ∅)))) !! "out/x"
  = files (main (Samples.load (PDict Samples.downloads_two)) (fun _ => Samples.good)
             Samples.argv (<["out/x" := [x00]%byte]> ∅)) !! "out/x".
Proof.
  destruct (rerun_last_run_wins (Samples.load (PDict Samples.downloads_two))
              Samples.first_unreachable (fun _ => Samples.good) Samples.argv
              (<["out/x" := [x00]%byte]> ∅)) as (_ & _ & _ & _ & Hdest).
  apply (Hdest Samples.downloads_two
           [Samples.item "http://a/x" "out/x"; Samples.item "http://b/y" "out/y"]
           0 Samples.url_x_dest_x "out/x"); reflexivity.
Defined.

(** ** C6: one call of [download_file] per item that passes the check *)

(** C6, as stated, fails. The first item below has both required
    fields, its [url] being the empty string, and the run over it
    fetches nothing and transfers nothing.  The items of the second
    configuration have both fields, non-empty; the directory of their
    destinations cannot be created, and the run makes no HTTP fetch for
    either of them. *)
Lemma present_fields_no_attempt :
  (Samples.empty_url !! "url" = Some (PStr "")
   /\ Samples.empty_url !! "destination" = Some (PStr "out/x")
   /\ fetches (trace (main (Samples.load (PDict Samples.downloads_empty_url))
                        (fun _ => Samples.good) Samples.argv ∅)) = []
   /\ transfers (trace (main (Samples.load (PDict Samples.downloads_empty_url))
                          (fun _ => Samples.good) Samples.argv ∅)) = [])
  /\ (Samples.downloads_two !! "downloads"
      = Some (PList [Samples.item "http://a/x" "out/x";
                     Samples.item "http://b/y" "out/y"])
      /\ fetches (trace (main (Samples.load (PDict Samples.downloads_two))
                           (fun _ => Samples.no_permission) Samples.argv ∅)) = []
      /\ count_lines (trace (main (Samples.load (PDict Samples.downloads_two))
                               (fun _ => Samples.no_permission) Samples.argv ∅))
         = [[Lit "  Successful: "; Num 0]; [Lit "  Failed: "; Num 2];
            [Lit "  Total: "; Num 2]]).
Proof. repeat split; vm_compute; reflexivity. Qed.

(** C6, amended. The loop handles the items one at a time in the order
    of the list.  An item whose [url] and [destination] are both truthy
    leads to one call of [download_file], after which the loop moves on
    to the next item whatever the call returned: nothing is retried.
    An item that fails the check leads to no call.  A call fetches at
    most once: once when the destination is a string and its directory
    is created, not at all otherwise.  So the fetches of a run are, in
    order, those its items lead to, all of them when the loop reaches
    its end. *)
Theorem one_call_per_checked_item :
  (forall net total d rest idx s f fs,
      passes_check d = true ->
      download_loop net total (PDict d :: rest) idx s f fs
      = match download_file (net idx) (field d "url") (field d "destination") fs with
        | (Ok ok, fs1, t1) =>
            prepend (EvPrint (progress_line idx total) :: t1)
              (download_loop net total rest (S idx)
                 (if ok then S s else s) (if ok then f else S f) fs1)
        | (Raised e, fs1, t1) =>
            (Raised e, fs1, EvPrint (progress_line idx total) :: t1)
        | (Exited c, fs1, t1) =>
            (Exited c, fs1, EvPrint (progress_line idx total) :: t1)
        end)
  /\ (forall net total d rest idx s f fs,
         passes_check d = false ->
         download_loop net total (PDict d :: rest) idx s f fs
         = prepend [EvPrint (skip_line idx)]
             (download_loop net total rest (S idx) s (S f) fs))
  /\ (forall att url destination fs,
         fetches (trace (download_file att url destination fs))
         = match destination, mkdir_error att with
           | PStr _, None => [url]
           | _, _ => []
           end)
  /\ (forall json_load_file net argv cfg items fs,
         json_load_file (config_path_of argv) = inr (PDict cfg) ->
         cfg !! "downloads" = Some (PList items) ->
         exists later,
           expected_fetches net 1 items
           = fetches (trace (main json_load_file net argv fs)) ++ later
           /\ (forall c,
                  outcome (download_loop net (length items) items 1 0 0 fs) = Ok c ->
                  later = [])).
Proof.
  split; [exact download_loop_download|].
  split; [exact download_loop_skip|].
  split; [exact download_file_fetches|].
  intros jl net argv cfg items fs Hjl Hcfg.
  destruct items as [|item rest].
  - exists []. split; [|reflexivity].
    rewrite (main_no_items jl net argv cfg fs Hjl (or_intror Hcfg)). reflexivity.
  - rewrite (main_items jl net argv cfg (item :: rest) fs Hjl Hcfg
               ltac:(discriminate)).
    destruct (download_loop_fetches net (length (item :: rest)) (item :: rest)
                1 0 0 fs) as (later & Heq & Hok).
    exists later. split; [|exact Hok]. rewrite Heq. f_equal.
    destruct (download_loop net (length (item :: rest)) (item :: rest) 1 0 0 fs)
      as [[[[s f]|e|c] fs'] t]; unfold finish, trace, fetches; simpl;
      rewrite ?omap_app; simpl; rewrite ?app_nil_r; reflexivity.
Qed.

Lemma one_call_per_checked_item_witness :
  fetches (trace (main (Samples.load (PDict Samples.downloads_two))
                    Samples.first_unreachable Samples.argv ∅))
  = [PStr "http://a/x"; PStr "http://b/y"].
Proof.
  destruct one_call_per_checked_item as (_ & _ & _ & Hrun).
  destruct (Hrun (Samples.load (PDict Samples.downloads_two))
              Samples.first_unreachable Samples.argv Samples.downloads_two
              [Samples.item "http://a/x" "out/x"; Samples.item "http://b/y" "out/y"]
              ∅ eq_refl eq_refl) as (later & Heq & Hok).
  rewrite (Hok (1, 1) ltac:(vm_compute; reflexivity)), app_nil_r in Heq.
  rewrite <- Heq. vm_compute. reflexivity.
Defined.

(** * Further properties of the downloader *)

(** ** A call of [download_file], operation by operation *)

Lemma write_chunks_files att d k chunks at_end fs acc :
  fs !! d = Some acc ->
  files (write_chunks att d k chunks at_end fs)
  = <[d := acc ++ written att k chunks]> fs.
Proof.
  revert k fs acc. induction chunks as [|c chunks IH]; intros k fs acc Hacc; simpl.
  - rewrite app_nil_r, insert_id by exact Hacc. destruct at_end; reflexivity.
  - unfold f_write, bind, emit, append, files. simpl.
    destruct (write_error att k); simpl.
    + rewrite app_nil_r, insert_id by exact Hacc. reflexivity.
    + rewrite Hacc. simpl.
      specialize (IH (S k) (<[d:=acc ++ c]> fs) (acc ++ c)
                    (lookup_insert_eq _ _ _)).
      destruct (write_chunks att d (S k) chunks at_end _) as [[r fs2] t].
      unfold files in IH. simpl in *. rewrite IH, insert_insert_eq, app_assoc.
      reflexivity.
Qed.

Lemma written_all att k chunks at_end :
  stream_failure att k chunks at_end = None ->
  written att k chunks = concat chunks.
Proof.
  revert k. induction chunks as [|c chunks IH]; intros k; simpl; [reflexivity|].
  destruct (write_error att k); [discriminate|].
  intros H. rewrite (IH _ H). reflexivity.
Qed.

Lemma first_failure_decides att url p fs :
  outcome (download_file att url (PStr p) fs)
  = match first_failure att with
    | None => Ok true
    | Some e => if is_IOError e then Ok false else Raised e
    end.
Proof.
  unfold first_failure, bad_status, outcome.
  walk_download att; try reflexivity.
  all: match goal with
       | H : is_RequestException ?e = true |- _ =>
           unfold is_RequestException, is_IOError in *;
           destruct (exn_cls e); try discriminate; reflexivity
       end.
Qed.

(** X1. A call of [download_file] on a path returns [True] when no
    operation fails; when one fails, the first failure decides: an
    [IOError] (a [RequestException] is one) gives [False], any other
    exception leaves the function as it is. *)
Theorem download_file_outcome att url p fs :
  outcome (download_file att url (PStr p) fs)
  = match first_failure att with
    | None => Ok true
    | Some e => if is_IOError e then Ok false else Raised e
    end.
Proof. apply first_failure_decides. Qed.

(** X2. Whatever the url and the destination, an exception that leaves
    [download_file] is no [IOError]. *)
Theorem download_file_lets_no_io_error_out att url destination fs e :
  outcome (download_file att url destination fs) = Raised e ->
  is_IOError e = false.
Proof.
  destruct destination as [| | | |p| |];
    try (match goal with
         | |- context [download_file att url ?v fs] =>
             destruct (download_file_bad_destination att url v fs)
               as (e' & -> & Hcls); [discriminate|]
         end;
         unfold outcome; simpl; intros [= <-];
         unfold is_IOError; rewrite Hcls; reflexivity).
  rewrite first_failure_decides.
  destruct (first_failure att) as [e0|]; [|discriminate].
  destruct (is_IOError e0) eqn:Hio; [discriminate|]. intros [= <-]. exact Hio.
Qed.

Lemma download_file_lets_no_io_error_out_witness :
  is_IOError (Exn ValueError "embedded null byte") = false.
Proof.
  apply (download_file_lets_no_io_error_out Samples.null_byte
           (PStr "http://a/x") (PStr "out/x") ∅).
  reflexivity.
Defined.

(** X3. The last line a call prints tells how it ended: the success
    line after a transfer without failure; after a failure that is
    caught, "Error downloading <url>" for a [RequestException] and
    "Error writing to <destination>" for any other [IOError], the
    failure to create the directory included. *)
Theorem download_file_last_line att url p fs :
  (first_failure att = None ->
   last (trace (download_file att url (PStr p) fs))
   = Some (EvPrint (success_line (PStr p))))
  /\ (forall e,
         first_failure att = Some e ->
         is_IOError e = true ->
         last (trace (download_file att url (PStr p) fs))
         = Some (EvPrint (error_line url (PStr p) e))).
Proof.
  assert (Hlast :
    last (trace (download_file att url (PStr p) fs))
    = match first_failure att with
      | None => Some (EvPrint (success_line (PStr p)))
      | Some e =>
          if is_IOError e then Some (EvPrint (error_line url (PStr p) e))
          else last (trace (download_file att url (PStr p) fs))
      end).
  { unfold first_failure, bad_status, trace, error_line, success_line.
    walk_download att;
      repeat match goal with
             | H : is_RequestException ?e = _
               |- context [is_RequestException ?e] => rewrite H
             | H : is_IOError ?e = _ |- context [is_IOError ?e] => rewrite H
             end;
      try reflexivity.
    all: try match goal with
             | H : is_RequestException ?e = true, H' : is_IOError ?e = false
               |- _ =>
                 unfold is_RequestException, is_IOError in *;
                 destruct (exn_cls e); discriminate
             end.
    all: repeat rewrite last_cons_cons.
    all: try reflexivity.
    all: rewrite ?app_comm_cons; apply last_snoc. }
  split.
  - intros Hnone. rewrite Hlast, Hnone. reflexivity.
  - intros e Hsome Hio. rewrite Hlast, Hsome, Hio. reflexivity.
Qed.

Lemma download_file_last_line_witness :
  last (trace (download_file Samples.no_permission (PStr "http://a/x")
                 (PStr "out/x") ∅))
  = Some (EvPrint [Lit "Error writing to "; Val (PStr "out/x"); Lit ": ";
                   Exc (Exn OSError "PermissionError"); Lit nl]).
Proof.
  destruct (download_file_last_line Samples.no_permission (PStr "http://a/x")
              "out/x" ∅) as [_ Hfail].
  apply (Hfail (Exn OSError "PermissionError")); reflexivity.
Defined.

(** ** The destination file of a call *)

(** X4. A call that does not get as far as opening the destination
    (the directory creation fails, the request fails, the status is an
    error, the open fails, or the destination is no path) leaves every
    file as it was: an existing destination keeps its content. *)
Theorem unopened_destination_untouched att url destination fs :
  (forall r, ~ opens att r) ->
  files (download_file att url destination fs) = fs.
Proof.
  intros Hno.
  destruct destination as [| | | |p| |];
    try (match goal with
         | |- context [download_file att url ?v fs] =>
             destruct (download_file_bad_destination att url v fs)
               as (e' & -> & _); [discriminate|reflexivity]
         end).
  unfold files.
  walk_download att; try reflexivity.
  all: exfalso; apply (Hno r); unfold opens, bad_status; auto.
Qed.

Lemma unopened_destination_untouched_witness :
  files (download_file Samples.not_found (PStr "http://a/x") (PStr "out/x")
           (<["out/x" := [x00]%byte]> ∅))
  = <["out/x" := [x00]%byte]> ∅.
Proof.
  apply (unopened_destination_untouched Samples.not_found).
  intros r (_ & Hget & Hstatus & _). simpl in Hget. injection Hget as <-.
  discriminate Hstatus.
Defined.

Lemma download_file_opened att url p fs r :
  opens att r ->
  files (download_file att url (PStr p) fs)
  = <[p := written att 0 (body r)]> fs.
Proof.
  intros (Hmk & Hget & Hst & Hop). unfold files, bad_status in *.
  walk_download att; try congruence.
  all: injection Hget as ->.
  all: match goal with
       | Hwrite : write_chunks ?a ?d ?k ?cs ?se ?fs0 = (_, ?fsw, _) |- _ =>
           pose proof (write_chunks_files a d k cs se fs0 []
                         (lookup_insert_eq _ _ _)) as Hfiles;
           rewrite Hwrite in Hfiles; unfold files in Hfiles; simpl in Hfiles;
           rewrite insert_insert_eq in Hfiles; exact Hfiles
       end.
Qed.



(** X6. A call that returns [True] has stored the whole body of the
    response, chunk after chunk, in the destination. *)
Theorem successful_download_stores_body att url p fs r :
  get_result att = inr r ->
  outcome (download_file att url (PStr p) fs) = Ok true ->
  files (download_file att url (PStr p) fs) = <[p := concat (body r)]> fs.
Proof.
  intros Hget Hok. apply download_file_true in Hok.
  unfold succeeds in Hok. rewrite Hget in Hok.
  destruct (mkdir_error att) eqn:Hmk; [discriminate|].
  destruct (bad_status r) eqn:Hst; [discriminate|].
  destruct (open_error att) eqn:Hop; [discriminate|].
  destruct (stream_failure att 0 (body r) (stream_error r)) eqn:Hsf;
    [simpl in Hok; discriminate|].
  rewrite (download_file_opened att url p fs r) by (unfold opens; auto).
  rewrite (written_all att 0 (body r) (stream_error r) Hsf). reflexivity.
Qed.

Lemma successful_download_stores_body_witness :
  files (download_file Samples.good (PStr "http://a/x") (PStr "out/x")
           (<["out/x" := [x00]%byte]> ∅))
  = <["out/x" := concat [Samples.hello; Samples.hello]]>
      (<["out/x" := [x00]%byte]> ∅).
Proof.
  apply (successful_download_stores_body Samples.good (PStr "http://a/x")
           "out/x" (<["out/x" := [x00]%byte]> ∅)
           (Response 200 [Samples.hello; Samples.hello] None));
    reflexivity.
Defined.

Lemma download_file_other att url destination fs q :
  destination <> PStr q ->
  files (download_file att url destination fs) !! q = fs !! q.
Proof.
  intros Hq.
  destruct destination as [| | | |p| |];
    try (match goal with
         | |- context [download_file att url ?v fs] =>
             destruct (download_file_bad_destination att url v fs)
               as (e' & -> & _); [discriminate|reflexivity]
         end).
  assert (Hpq : p <> q) by congruence.
  unfold files.
  walk_download att; try reflexivity.
  all: match goal with
       | Hwrite : write_chunks ?a ?d ?k ?cs ?se ?fs0 = (_, ?fsw, _) |- _ =>
           pose proof (write_chunks_files a d k cs se fs0 []
                         (lookup_insert_eq _ _ _)) as Hfiles;
           rewrite Hwrite in Hfiles; unfold files in Hfiles; simpl in Hfiles;
           rewrite Hfiles, !lookup_insert_ne by exact Hpq; reflexivity
       end.
Qed.

Lemma download_loop_other net total items idx s f fs q :
  ~ In q (destinations items) ->
  files (download_loop net total items idx s f fs) !! q = fs !! q.
Proof.
  revert fs idx s f. induction items as [|item rest IH];
    intros fs idx s f Hq; [reflexivity|].
  destruct item as [| | | | | |d]; try (crash_on_item; reflexivity).
  assert (Hrest : ~ In q (destinations rest)).
  { intros Hin. apply Hq. simpl. destruct (field d "destination"); auto.
    right. exact Hin. }
  destruct (passes_check d) eqn:Hc.
  - rewrite download_loop_download by assumption.
    assert (Hdest : field d "destination" <> PStr q).
    { intros Heq. apply Hq. simpl. rewrite Heq. left. reflexivity. }
    pose proof (download_file_other (net idx) (field d "url")
                  (field d "destination") fs q Hdest) as Hfile.
    destruct (download_file _ _ _ fs) as [[[ok|e|c] fs1] t1];
      unfold prepend, files in *; simpl in *; try exact Hfile.
    rewrite <- Hfile. apply (IH fs1 _ _ _ Hrest).
  - rewrite download_loop_skip by assumption. apply (IH fs _ _ _ Hrest).
Qed.

(** X7. A run writes to the destinations of its items and to nothing
    else: any other file is after the run what it was before. *)
Theorem other_files_untouched json_load_file net argv cfg items fs q :
  json_load_file (config_path_of argv) = inr (PDict cfg) ->
  cfg !! "downloads" = Some (PList items) ->
  ~ In q (destinations items) ->
  files (main json_load_file net argv fs) !! q = fs !! q.
Proof.
  intros Hjl Hcfg Hq.
  destruct items as [|item rest].
  - rewrite (main_no_items json_load_file net argv cfg fs Hjl (or_intror Hcfg)).
    reflexivity.
  - rewrite (main_items json_load_file net argv cfg (item :: rest) fs Hjl Hcfg)
      by discriminate.
    rewrite finish_files. apply download_loop_other. exact Hq.
Qed.

Lemma other_files_untouched_witness :
  files (main (Samples.load (PDict Samples.downloads_two)) (fun _ => Samples.good)
           Samples.argv (<["notes.txt" := [x00]%byte]> ∅)) !! "notes.txt"
  = Some [x00]%byte.
Proof.
  rewrite (other_files_untouched (Samples.load (PDict Samples.downloads_two))
             (fun _ => Samples.good) Samples.argv Samples.downloads_two
             [Samples.item "http://a/x" "out/x"; Samples.item "http://b/y" "out/y"]
             (<["notes.txt" := [x00]%byte]> ∅) "notes.txt" eq_refl eq_refl).
  - reflexivity.
  - vm_compute. intros [H|[H|[]]]; discriminate.
Defined.

(** ** The counters and the exit status *)

Lemma successes_le net idx items : successes net idx items <= length items.
Proof.
  revert idx. induction items as [|item rest IH]; intros idx; simpl; [lia|].
  specialize (IH (S idx)). destruct (transfers_ok (net idx) item); lia.
Qed.

Lemma download_loop_successes net total items idx s f fs s' f' :
  outcome (download_loop net total items idx s f fs) = Ok (s', f') ->
  s' = s + successes net idx items
  /\ f' = f + (length items - successes net idx items).
Proof.
  revert idx s f fs. induction items as [|item rest IH]; intros idx s f fs.
  - simpl. intros [= <- <-]. lia.
  - pose proof (successes_le net (S idx) rest) as Hle.
    destruct item as [| | | | | |d]; try (crash_on_item; discriminate).
    cbn [successes length].
    destruct (passes_check d) eqn:Hc.
    + rewrite download_loop_download by assumption.
      pose proof (transfers_ok_download (net idx) d fs Hc) as Hok.
      destruct (download_file _ _ _ fs) as [[[ok|e|c] fs1] t1];
        try discriminate.
      unfold prepend, outcome in *. cbn [fst snd] in *. intros H.
      apply IH in H. destruct ok.
      * rewrite (proj2 Hok eq_refl). lia.
      * destruct (transfers_ok (net idx) (PDict d)); [|lia].
        destruct Hok as [Hok _]. specialize (Hok eq_refl). discriminate.
    + rewrite download_loop_skip by assumption.
      unfold prepend, outcome. cbn [fst snd]. intros H. apply IH in H.
      unfold transfers_ok. rewrite Hc.
      destruct (field d "destination"); simpl; lia.
Qed.

(** X8. When the loop reaches its end, the summary reports as
    "Successful" the number of items downloaded with success, as
    "Failed" all the others (skipped or failed), and as "Total" the
    number of items. *)
Theorem summary_counts_successes json_load_file net argv cfg items fs c :
  json_load_file (config_path_of argv) = inr (PDict cfg) ->
  cfg !! "downloads" = Some (PList items) ->
  outcome (download_loop net (length items) items 1 0 0 fs) = Ok c ->
  items <> [] ->
  count_lines (trace (main json_load_file net argv fs))
  = [[Lit "  Successful: "; Num (successes net 1 items)];
     [Lit "  Failed: "; Num (length items - successes net 1 items)];
     [Lit "  Total: "; Num (length items)]].
Proof.
  intros Hjl Hcfg Hout Hne. destruct c as [s f].
  pose proof (download_loop_successes net _ _ _ _ _ _ _ _ Hout) as [-> ->].
  rewrite (main_items json_load_file net argv cfg items fs Hjl Hcfg Hne).
  pose proof (download_loop_count_lines net (length items) items 1 0 0 fs) as Hcl.
  destruct (download_loop net (length items) items 1 0 0 fs) as [[r fs'] t].
  unfold outcome, trace, finish, count_lines in *. simpl in Hout, Hcl. subst r.
  simpl. rewrite omap_app, Hcl. reflexivity.
Qed.

Lemma summary_counts_successes_witness :
  count_lines (trace (main (Samples.load (PDict Samples.downloads_two))
                        Samples.first_unreachable Samples.argv ∅))
  = [[Lit "  Successful: "; Num 1]; [Lit "  Failed: "; Num 1];
     [Lit "  Total: "; Num 2]].
Proof.
  rewrite (summary_counts_successes (Samples.load (PDict Samples.downloads_two))
             Samples.first_unreachable Samples.argv Samples.downloads_two
             [Samples.item "http://a/x" "out/x"; Samples.item "http://b/y" "out/y"]
             ∅ (1, 1) eq_refl eq_refl).
  - vm_compute. reflexivity.
  - vm_compute. reflexivity.
  - discriminate.
Defined.

Lemma download_loop_all_skipped net total items idx s f fs :
  Forall (fun item => exists d, item = PDict d /\ passes_check d = false) items ->
  download_loop net total items idx s f fs
  = (Ok (s, f + length items), fs, skip_lines idx (length items)).
Proof.
  intros Hall. revert idx s f. induction Hall as [|item rest (d & -> & Hc) _ IH];
    intros idx s f.
  - simpl. rewrite Nat.add_0_r. reflexivity.
  - rewrite download_loop_skip by assumption. rewrite IH.
    unfold prepend, outcome, files, trace. simpl.
    rewrite Nat.add_succ_r. reflexivity.
Qed.

(** X9. A run over N >= 1 items of which none has both a truthy [url]
    and a truthy [destination] prints one numbered "Skipping item" line
    per item and the summary 0 / N / N, exits with 1, and does nothing
    else: no directory, no request, no file. *)
Theorem all_skipped_run json_load_file net argv cfg items fs :
  json_load_file (config_path_of argv) = inr (PDict cfg) ->
  cfg !! "downloads" = Some (PList items) ->
  items <> [] ->
  Forall (fun item => exists d, item = PDict d /\ passes_check d = false) items ->
  run_script json_load_file net argv fs
  = (1%Z, fs,
     header (config_path_of argv) ++ [EvPrint (found_line (length items))]
     ++ skip_lines 1 (length items) ++ summary 0 (length items) (length items)).
Proof.
  intros Hjl Hcfg Hne Hall. unfold run_script.
  rewrite (main_items json_load_file net argv cfg items fs Hjl Hcfg Hne).
  rewrite (download_loop_all_skipped net _ items 1 0 0 fs Hall).
  unfold finish. simpl. destruct items; [contradiction|reflexivity].
Qed.

Lemma all_skipped_run_witness :
  status (run_script (Samples.load (PDict Samples.downloads_empty_url))
            (fun _ => Samples.good) Samples.argv ∅) = 1%Z.
Proof.
  rewrite (all_skipped_run (Samples.load (PDict Samples.downloads_empty_url))
             (fun _ => Samples.good) Samples.argv Samples.downloads_empty_url
             [PDict Samples.empty_url] ∅ eq_refl eq_refl).
  - reflexivity.
  - discriminate.
  - repeat constructor. exists Samples.empty_url. split; reflexivity.
Defined.

(** How a run that does not enter the loop ends. *)
Lemma main_stops_early json_load_file net argv fs :
  (exists r extra,
      main json_load_file net argv fs
      = (r, fs, header (config_path_of argv) ++ extra)
      /\ (r = Exited 0 \/ r = Exited 1 \/ exists e, r = Raised e))
  \/ (exists total items,
         main json_load_file net argv fs
         = finish (config_path_of argv) total
             (download_loop net total items 1 0 0 fs)).
Proof.
  destruct (json_load_file (config_path_of argv)) as [e|v] eqn:Hjl.
  { left. unfold main, load_config, try_except, bind, print, emit, raise, sys_exit.
    simpl. rewrite Hjl. simpl.
    destruct (is_FileNotFoundError e); simpl; [eauto 8|].
    destruct (is_JSONDecodeError e); simpl; [eauto 8|].
    exists (Raised e), []. eauto 8. }
  destruct v as [| | | | | |d];
    try (left; unfold main, load_config, try_except, bind, print, emit, raise;
         simpl; rewrite Hjl; simpl; eexists _, []; split; [reflexivity|eauto]).
  pose proof (load_config_dict json_load_file _ d fs Hjl) as Hload.
  remember (default (PList []) (d !! "downloads")) as v eqn:Hv. clear Hv.
  destruct (truthy v) eqn:Htruthy.
  2:{ left. rewrite (main_loaded _ _ _ _ _ Hload Htruthy). eauto 8. }
  destruct v as [|b|z|x|s|l|m];
    try (left; eexists _, []; split; [|eauto];
         eapply main_no_len; [exact Hload|exact Htruthy|reflexivity]).
  - right. exists (String.length s), (chars s).
    apply main_truthy with (downloads := PStr s); auto.
  - right. exists (length l), l.
    apply main_truthy with (downloads := PList l); auto.
  - right. exists (size m), (map (fun kv => PStr (fst kv)) (map_to_list m)).
    apply main_truthy with (downloads := PDict m); auto.
Qed.

(** X10. Every run, whatever the configuration file holds and whatever
    the world answers, starts with the two heading lines and ends with
    exit status 0 or 1. *)
Theorem run_starts_with_header_and_exits_0_or_1 json_load_file net argv fs :
  (status (run_script json_load_file net argv fs) = 0%Z
   \/ status (run_script json_load_file net argv fs) = 1%Z)
  /\ exists rest,
       trace (main json_load_file net argv fs)
       = header (config_path_of argv) ++ rest.
Proof.
  unfold run_script.
  destruct (main_stops_early json_load_file net argv fs)
    as [(r & extra & -> & Hr)|(total & items & ->)].
  - split; [|eauto].
    destruct Hr as [->|[->|[e ->]]]; [left|right|right]; reflexivity.
  - pose proof (download_loop_no_exit net total items 1 0 0 fs) as Hnx.
    destruct (download_loop net total items 1 0 0 fs)
      as [[[[s f]|e|c] fs'] t]; unfold finish, outcome, status, trace in *;
      simpl in *.
    + split; [destruct (Nat.ltb 0 f); [right|left]; reflexivity|eauto].
    + split; [right; reflexivity|eauto].
    + exfalso. apply (Hnx c). reflexivity.
Qed.

(** ** Configurations the script does not expect *)

(** X11. [load_config] handles [FileNotFoundError] and
    [json.JSONDecodeError] only: any other exception raised while the
    file is opened and parsed (no permission, a directory, bytes that
    are not text) leaves [load_config] and [main] as it is, after the
    heading and without the "Error:" line; the run ends with status 1
    and has touched nothing. *)
Theorem unhandled_config_error_propagates json_load_file net argv fs e :
  json_load_file (config_path_of argv) = inl e ->
  is_FileNotFoundError e = false ->
  is_JSONDecodeError e = false ->
  load_config json_load_file (config_path_of argv) fs = (Raised e, fs, [])
  /\ run_script json_load_file net argv fs
     = (1%Z, fs, header (config_path_of argv)).
Proof.
  intros Hjl Hnf Hjs.
  assert (Hload : load_config json_load_file (config_path_of argv) fs
                  = (Raised e, fs, [])).
  { unfold load_config, try_except, bind, raise. rewrite Hjl. simpl.
    rewrite Hnf, Hjs. reflexivity. }
  split; [exact Hload|].
  unfold run_script, main, bind, print, emit. simpl. rewrite Hload. reflexivity.
Qed.

Lemma unhandled_config_error_propagates_witness :
  run_script Samples.unreadable (fun _ => Samples.good) Samples.argv ∅
  = (1%Z, ∅, header "download_config.json").
Proof.
  apply (unhandled_config_error_propagates Samples.unreadable
           (fun _ => Samples.good) Samples.argv ∅
           (Exn OSError "PermissionError"));
    reflexivity.
Defined.

(** X12. A configuration file that parses to something that is no
    object (a list, a string, a number, null) makes [config.get] raise
    [AttributeError] inside [load_config], which does not catch it: the
    run ends with status 1 after the heading and has touched nothing. *)
Theorem non_object_config_crashes json_load_file net argv fs v :
  json_load_file (config_path_of argv) = inr v ->
  (forall d, v <> PDict d) ->
  exists e,
    exn_cls e = AttributeError
    /\ main json_load_file net argv fs
       = (Raised e, fs, header (config_path_of argv))
    /\ status (run_script json_load_file net argv fs) = 1%Z.
Proof.
  intros Hjl Hnd.
  unfold run_script, main, load_config, try_except, bind, print, emit, raise,
    py_get.
  rewrite Hjl.
  destruct v as [| | | | | |d]; simpl;
    try (eexists; repeat split; reflexivity).
  exfalso. apply (Hnd d). reflexivity.
Qed.

Lemma non_object_config_crashes_witness :
  exists e,
    exn_cls e = AttributeError
    /\ main (Samples.load (PList [])) (fun _ => Samples.good) Samples.argv ∅
       = (Raised e, ∅, header "download_config.json")
    /\ status (run_script (Samples.load (PList [])) (fun _ => Samples.good)
                 Samples.argv ∅) = 1%Z.
Proof.
  apply (non_object_config_crashes (Samples.load (PList []))
           (fun _ => Samples.good) Samples.argv ∅ (PList []) eq_refl).
  discriminate.
Defined.

(** X13. Any falsy value under [downloads] (null, false, 0, 0.0, the
    empty string, the empty list, the empty object) is taken for "no
    downloads": the run prints the notice and exits with status 0. *)
Theorem falsy_downloads_is_no_downloads json_load_file net argv cfg v fs :
  json_load_file (config_path_of argv) = inr (PDict cfg) ->
  cfg !! "downloads" = Some v ->
  truthy v = false ->
  run_script json_load_file net argv fs
  = (0%Z, fs, header (config_path_of argv) ++ [EvPrint no_downloads_line]).
Proof.
  intros Hjl Hcfg Hfalse.
  pose proof (load_config_dict json_load_file _ cfg fs Hjl) as Hload.
  rewrite Hcfg in Hload. simpl in Hload.
  unfold run_script.
  rewrite (main_loaded json_load_file net argv v fs Hload Hfalse). reflexivity.
Qed.

Lemma falsy_downloads_is_no_downloads_witness :
  run_script (Samples.load (PDict Samples.downloads_null))
    (fun _ => Samples.good) Samples.argv ∅
  = (0%Z, ∅, header "download_config.json" ++ [EvPrint no_downloads_line]).
Proof.
  apply (falsy_downloads_is_no_downloads
           (Samples.load (PDict Samples.downloads_null)) (fun _ => Samples.good)
           Samples.argv Samples.downloads_null PNone ∅);
    reflexivity.
Defined.

(** X14. A truthy value under [downloads] that is no list stops the
    run with an uncaught exception and status 1, before any transfer
    and without a summary: [len] raises [TypeError] on a number or on
    true; on a non-empty string or object the "Found ..." line is
    printed and the first element, a string, has no [get]. *)
Theorem downloads_not_a_list_crashes json_load_file net argv cfg v fs :
  json_load_file (config_path_of argv) = inr (PDict cfg) ->
  cfg !! "downloads" = Some v ->
  truthy v = true ->
  (forall l, v <> PList l) ->
  exists e extra,
    main json_load_file net argv fs
    = (Raised e, fs, header (config_path_of argv) ++ extra)
    /\ (exn_cls e = TypeError /\ extra = []
        \/ exn_cls e = AttributeError
           /\ exists n, extra = [EvPrint (found_line n)]).
Proof.
  intros Hjl Hcfg Htrue Hnl.
  pose proof (load_config_dict json_load_file _ cfg fs Hjl) as Hload.
  rewrite Hcfg in Hload. simpl in Hload.
  destruct v as [|b|z|x|s|l|m].
  - discriminate.
  - eexists _, []. split;
      [eapply main_no_len; [exact Hload|exact Htrue|reflexivity]
      |left; split; reflexivity].
  - eexists _, []. split;
      [eapply main_no_len; [exact Hload|exact Htrue|reflexivity]
      |left; split; reflexivity].
  - eexists _, []. split;
      [eapply main_no_len; [exact Hload|exact Htrue|reflexivity]
      |left; split; reflexivity].
  - destruct s as [|c s']; [discriminate|].
    rewrite (main_truthy json_load_file net argv (PStr (String c s'))
               (String.length (String c s')) (chars (String c s')) fs
               Hload Htrue eq_refl eq_refl).
    eexists _, _. split; [reflexivity|]. right. split; [reflexivity|eauto].
  - exfalso. apply (Hnl l). reflexivity.
  - rewrite (main_truthy json_load_file net argv (PDict m) (size m)
               (map (fun kv => PStr (fst kv)) (map_to_list m)) fs
               Hload Htrue eq_refl eq_refl).
    destruct (map_to_list m) as [|kv kvs] eqn:Hkv.
    { apply map_to_list_empty_iff in Hkv. subst m. discriminate. }
    eexists _, _. split; [reflexivity|]. right. split; [reflexivity|eauto].
Qed.

Lemma downloads_not_a_list_crashes_witness :
  exists e extra,
    main (Samples.load (PDict Samples.downloads_number)) (fun _ => Samples.good)
      Samples.argv ∅
    = (Raised e, ∅, header "download_config.json" ++ extra)
    /\ (exn_cls e = TypeError /\ extra = []
        \/ exn_cls e = AttributeError
           /\ exists n, extra = [EvPrint (found_line n)]).
Proof.
  apply (downloads_not_a_list_crashes
           (Samples.load (PDict Samples.downloads_number)) (fun _ => Samples.good)
           Samples.argv Samples.downloads_number (PInt 3) ∅);
    try reflexivity.
  discriminate.
Defined.

(** X15. An item that is no object stops the run where it stands:
    the items before it have been handled, the item raises
    [AttributeError], and the items after it are never looked at,
    whatever they are; no summary is printed. *)
Theorem non_object_item_aborts net total before item rest idx s f fs s1 f1 fs1 t1 :
  (forall d, item <> PDict d) ->
  download_loop net total before idx s f fs = (Ok (s1, f1), fs1, t1) ->
  exists e,
    exn_cls e = AttributeError
    /\ download_loop net total (before ++ item :: rest) idx s f fs
       = (Raised e, fs1, t1).
Proof.
  intros Hnd Hbefore.
  destruct (download_loop_not_dict net total item rest (idx + length before)
              s1 f1 fs1 Hnd) as (e & Hitem & Hcls).
  exists e. split; [exact Hcls|].
  rewrite download_loop_app. unfold bind. rewrite Hbefore. cbn [fst snd].
  rewrite Hitem, app_nil_r. reflexivity.
Qed.

Lemma non_object_item_aborts_witness :
  exists e,
    exn_cls e = AttributeError
    /\ download_loop (fun _ => Samples.good) 2
         [PInt 5; Samples.item "http://b/y" "out/y"] 1 0 0 ∅
       = (Raised e, ∅, []).
Proof.
  apply (non_object_item_aborts (fun _ => Samples.good) 2 [] (PInt 5)
           [Samples.item "http://b/y" "out/y"] 1 0 0 ∅ 0 0 ∅ []).
  - discriminate.
  - reflexivity.
Defined.



(** * Properties of the card snippet builder *)

Lemma count_char_app c s1 s2 :
  count_char c (s1 +:+ s2) = count_char c s1 + count_char c s2.
Proof.
  induction s1 as [|c1 s1 IH]; simpl; [reflexivity|]. rewrite IH. lia.
Qed.

Lemma count_replace_same c new s :
  count_char c new = 0 -> count_char c (replace_char c new s) = 0.
Proof.
  intros Hnew. induction s as [|c' s IH]; simpl; [reflexivity|].
  destruct (Ascii.eqb c' c) eqn:Heq.
  - rewrite count_char_app, Hnew, IH. reflexivity.
  - simpl. rewrite Heq, IH. reflexivity.
Qed.

Lemma count_replace_other c old new s :
  count_char c new = 0 -> count_char c s = 0 ->
  count_char c (replace_char old new s) = 0.
Proof.
  intros Hnew. induction s as [|c' s IH]; simpl; [reflexivity|].
  intros Hs. destruct (Ascii.eqb c' old).
  - rewrite count_char_app, Hnew, IH by lia. reflexivity.
  - simpl. destruct (Ascii.eqb c' c); [discriminate|]. apply IH. exact Hs.
Qed.

(** What [html.escape] with [quote=True] leaves of the four characters
    that delimit markup and attribute values. *)
Lemma count_escape c s :
  In c ["<"%char; ">"%char; ascii_of_nat 34; "'"%char] ->
  count_char c (escape s true) = 0.
Proof.
  unfold escape. intros [<-|[<-|[<-|[<-|[]]]]].
  - do 3 (apply count_replace_other; [reflexivity|]).
    apply count_replace_same. reflexivity.
  - do 2 (apply count_replace_other; [reflexivity|]).
    apply count_replace_same. reflexivity.
  - apply count_replace_other; [reflexivity|].
    apply count_replace_same. reflexivity.
  - apply count_replace_same. reflexivity.
Qed.

Lemma count_keep_slug_chars c s :
  is_slug_char c = false -> count_char c (keep_slug_chars s) = 0.
Proof.
  intros Hc. induction s as [|c' s IH]; simpl; [reflexivity|].
  destruct (is_slug_char c') eqn:Hc'; [|exact IH]. simpl.
  destruct (Ascii.eqb c' c) eqn:Heq; [|exact IH].
  apply Ascii.eqb_eq in Heq. subst c'. congruence.
Qed.

Lemma keep_slug_chars_alphanumeric t :
  Forall (fun c => is_slug_char c = true)
    (list_ascii_of_string (keep_slug_chars t)).
Proof.
  induction t as [|c t IH]; simpl; [constructor|].
  destruct (is_slug_char c) eqn:Hc; [|exact IH].
  simpl. constructor; assumption.
Qed.

Lemma keep_slug_chars_id s :
  Forall (fun c => is_slug_char c = true) (list_ascii_of_string s) ->
  keep_slug_chars s = s.
Proof.
  induction s as [|c s IH]; simpl; [reflexivity|].
  intros H. inversion H as [|? ? Hc Hs]; subst. rewrite Hc, IH by exact Hs.
  reflexivity.
Qed.

(** X17. A slug holds lowercase ASCII letters and digits only, whatever
    the name and however it is lowercased. *)
Theorem slug_is_alphanumeric lower s :
  Forall (fun c => is_slug_char c = true)
    (list_ascii_of_string (slugify_for_i18n lower s)).
Proof. apply keep_slug_chars_alphanumeric. Qed.

(** X18. Making a slug of a slug changes nothing, given that
    lowercasing leaves a string of lowercase letters and digits as it
    is. *)
Theorem slugify_idempotent lower s :
  (forall t, Forall (fun c => is_slug_char c = true) (list_ascii_of_string t) ->
             lower t = t) ->
  slugify_for_i18n lower (slugify_for_i18n lower s) = slugify_for_i18n lower s.
Proof.
  intros Hlower. unfold slugify_for_i18n.
  rewrite (Hlower _ (keep_slug_chars_alphanumeric (lower s))).
  apply keep_slug_chars_id, keep_slug_chars_alphanumeric.
Qed.

Lemma lower_keeps_slugs t :
  Forall (fun c => is_slug_char c = true) (list_ascii_of_string t) ->
  CardSamples.lower t = t.
Proof.
  induction t as [|c t IH]; simpl; [reflexivity|].
  intros H. inversion H as [|? ? Hc Ht]; subst. rewrite IH by exact Ht.
  f_equal. clear -Hc.
  destruct c as [[] [] [] [] [] [] [] []]; try discriminate; reflexivity.
Qed.

Lemma slugify_idempotent_witness :
  slugify_for_i18n CardSamples.lower
    (slugify_for_i18n CardSamples.lower "Tools & Utilities")
  = slugify_for_i18n CardSamples.lower "Tools & Utilities".
Proof.
  apply (slugify_idempotent CardSamples.lower "Tools & Utilities").
  exact lower_keeps_slugs.
Defined.

(** The characters of a snippet are those of the bare template and
    those of its fields. *)
Lemma count_card_template c f1 f2 f3 f4 f5 f6 f7 f8 f9 f10 f11 f12 f13 :
  count_char c (card_template f1 f2 f3 f4 f5 f6 f7 f8 f9 f10 f11 f12 f13)
  = count_char c (card_template "" "" "" "" "" "" "" "" "" "" "" "" "")
    + (count_char c f1 + count_char c f2 + count_char c f3 + count_char c f4
       + count_char c f5 + count_char c f6 + count_char c f7 + count_char c f8
       + count_char c f9 + count_char c f10 + count_char c f11
       + count_char c f12 + count_char c f13).
Proof.
  unfold card_template, attr. rewrite !count_char_app.
  change (count_char c "") with 0. lia.
Qed.

(** Counting a markup character in the fields [build_html] fills in. *)
Ltac count_fields :=
  rewrite count_card_template;
  repeat (rewrite ?count_char_app;
          match goal with
          | |- context [count_char _ (if ?b then _ else _)] => destruct b
          end);
  rewrite ?count_char_app;
  unfold slugify_simple, slugify_for_i18n;
  rewrite ?count_escape by (simpl; tauto);
  rewrite ?count_keep_slug_chars by reflexivity;
  reflexivity.

(** X19. Whatever is typed into the fields, [build_html] either raises
    [ValueError] or returns a snippet in which the only angle brackets
    and double quotes are those of its own template (21, 21 and 40 of
    them) and in which there is no apostrophe: no field can open or
    close a tag, or end an attribute value. *)
Theorem snippet_markup_is_fixed lower strip capitalize split_whitespace
    card_name category tags_csv search_terms visible_title visible_desc href
    update_meta_pills :
  match build_html lower strip capitalize split_whitespace card_name category
          tags_csv search_terms visible_title visible_desc href
          update_meta_pills with
  | Ok html =>
      count_char "<"%char html = 21
      /\ count_char ">"%char html = 21
      /\ count_char (ascii_of_nat 34) html = 40
      /\ count_char "'"%char html = 0
  | Raised e => exn_cls e = ValueError
  | Exited _ => False
  end.
Proof.
  unfold build_html.
  destruct (is_empty (slugify_for_i18n lower card_name)); [reflexivity|].
  destruct (is_empty (strip category)); [reflexivity|].
  repeat split; count_fields.
Qed.



(** * Properties of the leaderboard exporters *)

Section ExporterProperties.

Import Leaderboard.

Variable cell : Type.
Variable of_int : Z -> cell.

Lemma except_at_from {A} (l : list A) k idx :
  map snd (List.filter (fun p => negb (Nat.eqb (fst p) (k + idx)))
             (enumerate_from k l))
  = delete idx l.
Proof.
  revert k idx. induction l as [|x l IH]; intros k idx; [reflexivity|].
  destruct idx as [|idx]; simpl.
  - rewrite Nat.add_0_r, Nat.eqb_refl. simpl.
    clear IH. assert (H : forall j, k < j ->
      map snd (List.filter (fun p => negb (Nat.eqb (fst p) k))
                 (enumerate_from j l)) = l).
    { induction l as [|y l IHl]; intros j Hj; [reflexivity|]. simpl.
      destruct (Nat.eqb_spec j k) as [->|_]; [lia|]. simpl.
      f_equal. apply IHl. lia. }
    apply H. lia.
  - destruct (Nat.eqb_spec k (k + S idx)) as [Hk|_]; [lia|]. simpl.
    f_equal. replace (k + S idx) with (S k + idx) by lia. apply IH.
Qed.

Lemma except_at_delete {A} idx (l : list A) : except_at idx l = delete idx l.
Proof. apply (except_at_from l 0 idx). Qed.

Lemma index_lookup x l i :
  index x l = Some i -> l !! i = Some x.
Proof.
  revert i. induction l as [|h t IH]; intros i; simpl; [discriminate|].
  destruct (String.eqb_spec h x) as [->|_].
  - intros [= <-]. reflexivity.
  - destruct (index x t) as [j|]; simpl; [|discriminate].
    intros [= <-]. simpl. apply IH. reflexivity.
Qed.

Lemma occurrences_no_index x l : index x l = None -> occurrences x l = 0.
Proof.
  unfold occurrences. induction l as [|h t IH]; simpl; [reflexivity|].
  destruct (String.eqb_spec h x) as [->|Hne]; [discriminate|].
  destruct (index x t); simpl; [discriminate|]. intros _.
  destruct (String.eqb_spec x h) as [->|_]; [contradiction|]. apply IH.
  reflexivity.
Qed.

Lemma occurrences_delete x l i :
  index x l = Some i ->
  occurrences x (delete i l) = pred (occurrences x l).
Proof.
  unfold occurrences. revert i.
  induction l as [|h t IH]; intros i; simpl; [discriminate|].
  destruct (String.eqb_spec h x) as [->|Hne].
  - intros [= <-]. simpl. rewrite String.eqb_refl. reflexivity.
  - destruct (index x t) as [j|] eqn:Hj; simpl; [|discriminate].
    intros [= <-]. simpl.
    destruct (String.eqb_spec x h) as [->|_]; [contradiction|].
    apply IH. reflexivity.
Qed.

Lemma fetch_map_answer w map_id a :
  query cell w (Some map_id) = inr a ->
  fetch_map cell of_int w map_id
  = ([Execute (Some map_id)],
     Ok (fst (stripped "uid" a) ++ ["map_id"],
         map (fun r => r ++ [of_int map_id]) (snd (stripped "uid" a)))).
Proof.
  intros Hq. unfold fetch_map, cursor_block, stripped. simpl. rewrite Hq.
  simpl. destruct (index "uid" (description a)) as [idx|]; simpl.
  - rewrite except_at_delete. do 3 f_equal.
    rewrite !map_map. apply map_ext. intros r.
    rewrite except_at_delete. reflexivity.
  - reflexivity.
Qed.

Lemma fetch_map_error w map_id e :
  query cell w (Some map_id) = inl e ->
  fetch_map cell of_int w map_id = ([Execute (Some map_id)], Raised e).
Proof.
  intros Hq. unfold fetch_map, cursor_block. simpl. rewrite Hq. reflexivity.
Qed.

Lemma fetch_top_scores_answer w a :
  query cell w None = inr a ->
  fetch_top_scores cell w = ([Execute None], Ok (stripped "ip" a)).
Proof.
  intros Hq. unfold fetch_top_scores, cursor_block, stripped. simpl.
  rewrite Hq. simpl. destruct (index "ip" (description a)) as [idx|]; simpl.
  - rewrite except_at_delete. do 3 f_equal.
    apply map_ext. intros r. apply except_at_delete.
  - reflexivity.
Qed.

Lemma stripped_aligned x a :
  aligned cell (description a) (fetchall a) ->
  aligned cell (fst (stripped x a)) (snd (stripped x a))
  /\ length (snd (stripped x a)) = length (fetchall a).
Proof.
  unfold aligned, stripped. intros Hal.
  destruct (index x (description a)) as [idx|] eqn:Hidx; simpl.
  - split; [|apply length_map].
    apply Forall_map. eapply Forall_impl; [exact Hal|].
    intros r Hr. simpl. apply index_lookup in Hidx.
    rewrite !length_delete.
    + congruence.
    + eauto.
    + apply lookup_lt_Some in Hidx. apply lookup_lt_is_Some.
      rewrite Hr. exact Hidx.
  - split; [assumption|reflexivity].
Qed.


Lemma lookup_position {A} idx i (r tail : list A) :
  i <> idx -> i < length r ->
  (delete idx r ++ tail) !! (if Nat.ltb idx i then pred i else i) = r !! i.
Proof.
  intros Hne Hlt. destruct (Nat.ltb_spec idx i) as [Hi|Hi].
  - rewrite lookup_app_l.
    + rewrite list_lookup_delete_ge by lia. f_equal. lia.
    + rewrite length_delete by (apply lookup_lt_is_Some; lia). lia.
  - rewrite lookup_app_l.
    + apply list_lookup_delete_lt. lia.
    + apply lookup_lt_is_Some. rewrite list_lookup_delete_lt by lia.
      apply lookup_lt_is_Some. assumption.
Qed.

Lemma stripped_keeps x (a : answer cell) i name (tail : list cell) :
  description a !! i = Some name ->
  index x (description a) <> Some i ->
  fst (stripped x a) !! position x (description a) i = Some name
  /\ forall k r, fetchall a !! k = Some r -> i < length r ->
       exists r', snd (stripped x a) !! k = Some r'
         /\ (r' ++ tail) !! position x (description a) i = r !! i.
Proof.
  intros Hi Hne. unfold stripped, position.
  destruct (index x (description a)) as [idx|]; simpl.
  - assert (i <> idx) by congruence. split.
    + rewrite <- Hi. rewrite <- (app_nil_r (delete idx (description a))).
      apply lookup_position; [assumption|].
      apply lookup_lt_Some in Hi. exact Hi.
    + intros k r Hk Hlen. exists (delete idx r). split.
      * rewrite list_lookup_fmap, Hk. reflexivity.
      * apply lookup_position; assumption.
  - split; [assumption|]. intros k r Hk Hlen. exists r.
    split; [assumption|]. apply lookup_app_l. assumption.
Qed.

Lemma stripped_occurrences x (a : answer cell) :
  occurrences x (fst (stripped x a)) = pred (occurrences x (description a)).
Proof.
  unfold stripped. destruct (index x (description a)) as [idx|] eqn:Hidx.
  - apply occurrences_delete. assumption.
  - simpl. rewrite occurrences_no_index by assumption. reflexivity.
Qed.

Lemma occurrences_app x l1 l2 :
  occurrences x (l1 ++ l2) = occurrences x l1 + occurrences x l2.
Proof. unfold occurrences. rewrite List.filter_app, length_app. reflexivity. Qed.

End ExporterProperties.

(** X21. Given rows as long as the column list, [fetch_map] returns a
    table whose rows are again as long as its headers, one row per
    fetched row, with [map_id] as the last header and the map id as the
    last cell of every row. *)
Theorem fetch_map_keeps_rows_aligned (cell : Type) (of_int : Z -> cell)
    (w : Leaderboard.world cell) (map_id : Z) (a : Leaderboard.answer cell) :
  Leaderboard.query cell w (Some map_id) = inr a ->
  Leaderboard.aligned cell (Leaderboard.description a) (Leaderboard.fetchall a) ->
  exists headers rows,
    Leaderboard.io_outcome (Leaderboard.fetch_map cell of_int w map_id)
    = Ok (headers, rows)
    /\ Leaderboard.aligned cell headers rows
    /\ length rows = length (Leaderboard.fetchall a)
    /\ last headers = Some "map_id"
    /\ Forall (fun r => last r = Some (of_int map_id)) rows.
Proof.
  intros Hq Hal. rewrite (fetch_map_answer cell of_int w map_id a Hq).
  destruct (stripped_aligned cell "uid" a Hal) as [Hal' Hlen].
  eexists. eexists. split; [reflexivity|]. repeat split.
  - unfold Leaderboard.aligned in *. apply Forall_map.
    eapply Forall_impl; [exact Hal'|]. intros r Hr. simpl.
    rewrite !length_app, Hr. reflexivity.
  - rewrite length_map. exact Hlen.
  - apply last_snoc.
  - apply Forall_map. apply Forall_forall. intros r _. apply last_snoc.
Qed.

Lemma fetch_map_keeps_rows_aligned_witness :
  Leaderboard.query pyval (LeaderboardSamples.db LeaderboardSamples.runs)
    (Some 3%Z) = inr LeaderboardSamples.runs
  /\ exists headers rows,
       Leaderboard.io_outcome
         (Leaderboard.fetch_map pyval PInt
            (LeaderboardSamples.db LeaderboardSamples.runs) 3)
       = Ok (headers, rows)
       /\ Leaderboard.aligned pyval headers rows
       /\ length rows = 2
       /\ last headers = Some "map_id"
       /\ Forall (fun r => last r = Some (PInt 3)) rows.
Proof.
  split; [reflexivity|].
  apply (fetch_map_keeps_rows_aligned pyval PInt
           (LeaderboardSamples.db LeaderboardSamples.runs) 3
           LeaderboardSamples.runs eq_refl).
  repeat constructor.
Defined.

(** X22. [fetch_map] takes out one column named [uid], the first, and
    no more: the headers it returns have one [uid] less than the columns
    of the query, or none where the query had none. *)
Theorem fetch_map_strips_first_uid (cell : Type) (of_int : Z -> cell)
    (w : Leaderboard.world cell) (map_id : Z) (a : Leaderboard.answer cell) :
  Leaderboard.query cell w (Some map_id) = inr a ->
  exists headers rows,
    Leaderboard.io_outcome (Leaderboard.fetch_map cell of_int w map_id)
    = Ok (headers, rows)
    /\ Leaderboard.occurrences "uid" headers
       = pred (Leaderboard.occurrences "uid" (Leaderboard.description a)).
Proof.
  intros Hq. rewrite (fetch_map_answer cell of_int w map_id a Hq).
  eexists. eexists. split; [reflexivity|].
  rewrite occurrences_app, (stripped_occurrences cell).
  change (Leaderboard.occurrences "uid" ["map_id"]) with 0. lia.
Qed.

Lemma fetch_map_strips_first_uid_witness :
  exists headers rows,
    Leaderboard.io_outcome
      (Leaderboard.fetch_map pyval PInt
         (LeaderboardSamples.db LeaderboardSamples.runs) 1)
    = Ok (headers, rows)
    /\ Leaderboard.occurrences "uid" headers = 0.
Proof.
  apply (fetch_map_strips_first_uid pyval PInt
           (LeaderboardSamples.db LeaderboardSamples.runs) 1
           LeaderboardSamples.runs eq_refl).
Defined.

(** X23. Every column of the query other than the stripped one is in
    the table [fetch_map] returns, in the same order, under its name, and
    each row holds there the cell it held in the fetched row. *)
Theorem fetch_map_keeps_other_columns (cell : Type) (of_int : Z -> cell)
    (w : Leaderboard.world cell) (map_id : Z) (a : Leaderboard.answer cell)
    (i : nat) (name : string) :
  Leaderboard.query cell w (Some map_id) = inr a ->
  Leaderboard.description a !! i = Some name ->
  Leaderboard.index "uid" (Leaderboard.description a) <> Some i ->
  exists headers rows,
    Leaderboard.io_outcome (Leaderboard.fetch_map cell of_int w map_id)
    = Ok (headers, rows)
    /\ headers !! Leaderboard.position "uid" (Leaderboard.description a) i
       = Some name
    /\ forall k r, Leaderboard.fetchall a !! k = Some r -> i < length r ->
         exists r', rows !! k = Some r'
           /\ r' !! Leaderboard.position "uid" (Leaderboard.description a) i
              = r !! i.
Proof.
  intros Hq Hi Hne. rewrite (fetch_map_answer cell of_int w map_id a Hq).
  destruct (stripped_keeps cell "uid" a i name [of_int map_id] Hi Hne)
    as [Hh Hr].
  eexists. eexists. split; [reflexivity|]. split.
  - rewrite lookup_app_l; [exact Hh|]. apply lookup_lt_Some in Hh. exact Hh.
  - intros k r Hk Hlen. destruct (Hr k r Hk Hlen) as (r' & Hk' & Hcell).
    exists (r' ++ [of_int map_id]). split; [|exact Hcell].
    rewrite list_lookup_fmap, Hk'. reflexivity.
Qed.

Lemma fetch_map_keeps_other_columns_witness :
  Leaderboard.description LeaderboardSamples.runs !! 2 = Some "run_time"
  /\ exists headers rows,
       Leaderboard.io_outcome
         (Leaderboard.fetch_map pyval PInt
            (LeaderboardSamples.db LeaderboardSamples.runs) 5)
       = Ok (headers, rows)
       /\ headers !! 1 = Some "run_time"
       /\ forall k r,
            Leaderboard.fetchall LeaderboardSamples.runs !! k = Some r ->
            2 < length r ->
            exists r', rows !! k = Some r' /\ r' !! 1 = r !! 2.
Proof.
  split; [reflexivity|].
  apply (fetch_map_keeps_other_columns pyval PInt
           (LeaderboardSamples.db LeaderboardSamples.runs) 5
           LeaderboardSamples.runs 2 "run_time" eq_refl eq_refl).
  discriminate.
Defined.

(** X24. [fetch_top_scores] takes out the first column named [ip] and
    nothing else: given rows as long as the column list, the table it
    returns has one [ip] header less, one row per fetched row, rows as
    long as its headers, and every other column in its place with the
    cells of the fetched rows. *)
Theorem fetch_top_scores_strips_ip (cell : Type) (w : Leaderboard.world cell)
    (a : Leaderboard.answer cell) :
  Leaderboard.query cell w None = inr a ->
  Leaderboard.aligned cell (Leaderboard.description a) (Leaderboard.fetchall a) ->
  exists headers rows,
    Leaderboard.io_outcome (Leaderboard.fetch_top_scores cell w)
    = Ok (headers, rows)
    /\ Leaderboard.occurrences "ip" headers
       = pred (Leaderboard.occurrences "ip" (Leaderboard.description a))
    /\ Leaderboard.aligned cell headers rows
    /\ length rows = length (Leaderboard.fetchall a)
    /\ forall i name,
         Leaderboard.description a !! i = Some name ->
         Leaderboard.index "ip" (Leaderboard.description a) <> Some i ->
         headers !! Leaderboard.position "ip" (Leaderboard.description a) i
         = Some name
         /\ forall k r, Leaderboard.fetchall a !! k = Some r ->
              exists r', rows !! k = Some r'
                /\ r' !! Leaderboard.position "ip" (Leaderboard.description a) i
                   = r !! i.
Proof.
  intros Hq Hal. rewrite (fetch_top_scores_answer cell w a Hq).
  destruct (stripped_aligned cell "ip" a Hal) as [Hal' Hlen].
  pose proof (stripped_occurrences cell "ip" a) as Hocc.
  pose proof (fun i name => stripped_keeps cell "ip" a i name []) as Hkeep.
  destruct (Leaderboard.stripped "ip" a) as [headers rows]. simpl in *.
  exists headers, rows. split; [reflexivity|].
  split; [exact Hocc|]. split; [exact Hal'|]. split; [exact Hlen|].
  intros i name Hi Hne. destruct (Hkeep i name Hi Hne) as [Hh Hr].
  split; [exact Hh|]. intros k r Hk.
  destruct (Hr k r Hk) as (r' & Hk' & Hcell).
  - rewrite (Forall_lookup_1 _ _ _ _ Hal Hk).
    apply lookup_lt_Some in Hi. exact Hi.
  - exists r'. split; [exact Hk'|]. rewrite app_nil_r in Hcell. exact Hcell.
Qed.

Lemma fetch_top_scores_strips_ip_witness :
  exists headers rows,
    Leaderboard.io_outcome
      (Leaderboard.fetch_top_scores pyval
         (LeaderboardSamples.db LeaderboardSamples.scores))
    = Ok (headers, rows)
    /\ Leaderboard.occurrences "ip" headers = 0
    /\ Leaderboard.aligned pyval headers rows
    /\ length rows = 1
    /\ forall i name,
         Leaderboard.description LeaderboardSamples.scores !! i = Some name ->
         Leaderboard.index "ip" (Leaderboard.description LeaderboardSamples.scores)
         <> Some i ->
         headers !! Leaderboard.position "ip"
                      (Leaderboard.description LeaderboardSamples.scores) i
         = Some name
         /\ forall k r,
              Leaderboard.fetchall LeaderboardSamples.scores !! k = Some r ->
              exists r', rows !! k = Some r'
                /\ r' !! Leaderboard.position "ip"
                           (Leaderboard.description LeaderboardSamples.scores) i
                   = r !! i.
Proof.
  apply (fetch_top_scores_strips_ip pyval
           (LeaderboardSamples.db LeaderboardSamples.scores)
           LeaderboardSamples.scores eq_refl).
  repeat constructor.
Defined.

Section ExportRuns.

Import Leaderboard.

Variable cell : Type.
Variable of_int : Z -> cell.

Lemma fetch_maps_cons_answer w m rest hs rows a :
  query cell w (Some m) = inr a ->
  fetch_maps cell of_int w (m :: rest) hs rows
  = let (t, r) :=
      fetch_maps cell of_int w rest
        (Some (match hs with
               | None => fst (stripped "uid" a) ++ ["map_id"]
               | Some h => h
               end))
        (rows ++ map (fun r => r ++ [of_int m]) (snd (stripped "uid" a))) in
    (Print [Lit "[FF7SB] Fetching map "; Val (PInt m); Lit "..."]
     :: Execute (Some m) :: t, r).
Proof.
  intros Hq. cbn [fetch_maps]. rewrite (fetch_map_answer cell of_int w m a Hq).
  unfold bind, print, call. cbn [fst snd app].
  destruct hs as [h|]; destruct (fetch_maps _ _ _ _ _ _) as [t r];
    reflexivity.
Qed.

Lemma fetch_maps_cons_error w m rest hs rows e :
  query cell w (Some m) = inl e ->
  fetch_maps cell of_int w (m :: rest) hs rows
  = ([Print [Lit "[FF7SB] Fetching map "; Val (PInt m); Lit "..."];
      Execute (Some m)], Raised e).
Proof.
  intros Hq. cbn [fetch_maps]. rewrite (fetch_map_error cell of_int w m e Hq).
  reflexivity.
Qed.

(** The loop only prints its progress lines and runs its queries. *)
Lemma fetch_maps_trace w ids hs rows :
  Forall (fun s => exists m,
            s = Print [Lit "[FF7SB] Fetching map "; Val (PInt m); Lit "..."]
            \/ s = Execute (Some m))
    (io_trace (fetch_maps cell of_int w ids hs rows)).
Proof.
  revert hs rows. induction ids as [|m rest IH]; intros hs rows.
  - constructor.
  - destruct (query cell w (Some m)) as [e|a] eqn:Hq.
    + rewrite (fetch_maps_cons_error w m rest hs rows e Hq).
      repeat constructor; eauto.
    + rewrite (fetch_maps_cons_answer w m rest hs rows a Hq).
      match goal with
      | |- context [fetch_maps cell of_int w rest ?h ?r] =>
          specialize (IH h r); destruct (fetch_maps cell of_int w rest h r)
      end.
      repeat constructor; eauto.
Qed.

(** The loop ends with headers where it began with some or fetched a map,
    and it returns only where every query was answered. *)
Lemma fetch_maps_returns w ids hs rows hs' rows' :
  io_outcome (fetch_maps cell of_int w ids hs rows) = Ok (hs', rows') ->
  (hs' = None -> hs = None /\ ids = [])
  /\ forall m, In m ids -> exists a, query cell w (Some m) = inr a.
Proof.
  revert hs rows. induction ids as [|m rest IH]; intros hs rows.
  - simpl. intros [= <- <-]. split; [tauto|]. intros m [].
  - destruct (query cell w (Some m)) as [e|a] eqn:Hq.
    + rewrite (fetch_maps_cons_error w m rest hs rows e Hq). discriminate.
    + rewrite (fetch_maps_cons_answer w m rest hs rows a Hq).
      match goal with
      | |- context [fetch_maps cell of_int w rest ?h ?r] =>
          specialize (IH h r); destruct (fetch_maps cell of_int w rest h r)
      end.
      unfold io_outcome in IH |- *. cbn [snd] in IH |- *.
      intros Hok. destruct (IH Hok) as [Hnone Hall]. split.
      * intros ->. destruct (Hnone eq_refl). discriminate.
      * intros m' [<-|Hin]; eauto.
Qed.

Lemma closes_once_app (pre post : list (step cell)) :
  Forall (fun s => touches_files cell s = false /\ is_disconnect cell s = false)
    pre ->
  closes_once cell (pre ++ Disconnect :: post) = released cell post.
Proof.
  induction 1 as [|s pre [Hf Hd] _ IH]; [reflexivity|].
  simpl. rewrite Hd, Hf. exact IH.
Qed.

Lemma fetch_maps_quiet w ids hs rows :
  Forall (fun s => touches_files cell s = false /\ is_disconnect cell s = false)
    (io_trace (fetch_maps cell of_int w ids hs rows)).
Proof.
  eapply Forall_impl; [apply fetch_maps_trace|].
  intros s [m [-> | ->]]; split; reflexivity.
Qed.


End ExportRuns.

Section ExportTraces.

Import Leaderboard.

Variable cell : Type.
Variable of_int : Z -> cell.
Variable join : string -> string -> string.
Variable FF7SB_DB_NAME : string.

Lemma export_ff7sb_run w dir :
  export_ff7sb cell of_int join FF7SB_DB_NAME w dir
  = let connecting :=
      Print [Lit "[FF7SB] Connecting to DB '"; Lit FF7SB_DB_NAME; Lit "'..."] in
    let closed := Print [Lit "[FF7SB] Database connection closed."] in
    match connect_error cell w with
    | Some e => ([connecting; Connect FF7SB_DB_NAME], Raised e)
    | None =>
        let (t, r) := fetch_maps cell of_int w (MAP_IDS) None [] in
        let head := connecting :: Connect FF7SB_DB_NAME :: t ++ [Disconnect] in
        match disconnect_error cell w with
        | Some e => (head, Raised e)
        | None =>
            match r with
            | Ok (Some headers, all_rows) =>
                let csv_path := join dir "ff7sb.csv" in
                let (t2, r2) :=
                  bind cell (makedirs cell w dir) (fun _ =>
                  bind cell (write_csv cell w csv_path headers all_rows)
                    (fun _ =>
                  print cell [Lit "[FF7SB] Wrote "; Num (length all_rows);
                              Lit " rows → "; Lit csv_path])) in
                (head ++ closed :: t2, r2)
            | Ok (None, _) => (head ++ [closed; Print (ff7sb_no_data)], Ok tt)
            | Raised e => (head ++ [closed], Raised e)
            | Exited c => (head ++ [closed], Exited c)
            end
        end
    end.
Proof.
  unfold export_ff7sb, get_connection, conn_close, makedirs, write_csv,
    with_open.
  change (CardSamples.lower (GAME_NAME) +:+ ".csv") with "ff7sb.csv".
  destruct (connect_error cell w) as [e|]; [reflexivity|].
  destruct (fetch_maps cell of_int w (MAP_IDS) None []) as [t r] eqn:Hloop.
  unfold try_finally, bind, print, call. cbn [app].
  destruct (disconnect_error cell w) as [e|];
    destruct r as [[[headers|] all_rows]|e'|c]; try reflexivity;
    destruct (makedirs_error cell w), (csv_open_error cell w),
      (writerow_error cell w), (writerows_error cell w),
      (csv_close_error cell w);
    cbn [app]; rewrite <- ?app_assoc; reflexivity.
Qed.

(** What the loop over the three maps returns. *)
Lemma fetch_maps_all w hs rows :
  io_outcome (fetch_maps cell of_int w MAP_IDS None []) = Ok (hs, rows) ->
  exists a1 a3 a5,
    query cell w (Some 1%Z) = inr a1
    /\ query cell w (Some 3%Z) = inr a3
    /\ query cell w (Some 5%Z) = inr a5
    /\ hs = Some (fst (stripped "uid" a1) ++ ["map_id"])
    /\ rows = map (fun r => r ++ [of_int 1]) (snd (stripped "uid" a1))
              ++ map (fun r => r ++ [of_int 3]) (snd (stripped "uid" a3))
              ++ map (fun r => r ++ [of_int 5]) (snd (stripped "uid" a5)).
Proof.
  unfold MAP_IDS.
  destruct (query cell w (Some 1%Z)) as [e|a1] eqn:H1;
    [rewrite (fetch_maps_cons_error cell of_int w _ _ _ _ e H1); discriminate|].
  rewrite (fetch_maps_cons_answer cell of_int w _ _ _ _ a1 H1).
  destruct (query cell w (Some 3%Z)) as [e|a3] eqn:H3;
    [rewrite (fetch_maps_cons_error cell of_int w _ _ _ _ e H3); discriminate|].
  rewrite (fetch_maps_cons_answer cell of_int w _ _ _ _ a3 H3).
  destruct (query cell w (Some 5%Z)) as [e|a5] eqn:H5;
    [rewrite (fetch_maps_cons_error cell of_int w _ _ _ _ e H5); discriminate|].
  rewrite (fetch_maps_cons_answer cell of_int w _ _ _ _ a5 H5).
  simpl. intros [= <- <-]. exists a1, a3, a5.
  rewrite <- app_assoc. repeat split; reflexivity.
Qed.


(** A file is touched only once the three maps are fetched and the
    connection is closed. *)
Lemma export_ff7sb_file_steps w dir :
  Forall (fun s =>
    touches_files cell s = true ->
    connect_error cell w = None
    /\ disconnect_error cell w = None
    /\ exists headers all_rows,
         io_outcome (fetch_maps cell of_int w MAP_IDS None [])
         = Ok (Some headers, all_rows)
         /\ (s = Makedirs dir \/ s = Open (join dir "ff7sb.csv")
             \/ s = Writerow headers \/ s = Writerows all_rows
             \/ s = CloseFile))
    (io_trace (export_ff7sb cell of_int join FF7SB_DB_NAME w dir)).
Proof.
  rewrite export_ff7sb_run. cbv zeta.
  destruct (connect_error cell w) as [e|];
    [repeat constructor; discriminate|].
  pose proof (fetch_maps_quiet cell of_int w MAP_IDS None []) as Hquiet.
  destruct (fetch_maps cell of_int w MAP_IDS None []) as [t r].
  unfold io_trace in *. cbn [fst snd] in *.
  assert (Ht : forall P : step cell -> Prop,
             Forall (fun s => touches_files cell s = true -> P s) t).
  { intros P. eapply Forall_impl; [exact Hquiet|].
    intros s [Hs _] Hs'. congruence. }
  unfold makedirs, write_csv, with_open, try_finally, bind, print, call.
  destruct (disconnect_error cell w) as [e|];
    [repeat first [apply Forall_app; split | constructor | apply Ht];
     discriminate|].
  destruct r as [[[headers|] all_rows]|e'|c];
    try destruct (makedirs_error cell w), (csv_open_error cell w),
      (writerow_error cell w), (writerows_error cell w),
      (csv_close_error cell w);
    cbn [fst app];
    repeat first [apply Forall_app; split | apply List.Forall_cons
                 | apply List.Forall_nil | apply Ht];
    try discriminate;
    intros _; (split; [reflexivity|]); (split; [reflexivity|]);
    exists headers, all_rows; (split; [reflexivity|]); tauto.
Qed.


Lemma export_ff7sb_lines w dir :
  Forall (fun s => s <> Print ff7sb_no_data)
    (io_trace (export_ff7sb cell of_int join FF7SB_DB_NAME w dir))
  /\ (io_outcome (export_ff7sb cell of_int join FF7SB_DB_NAME w dir) = Ok tt ->
      exists t headers all_rows,
        io_trace (export_ff7sb cell of_int join FF7SB_DB_NAME w dir)
        = t ++ [Makedirs dir; Open (join dir "ff7sb.csv"); Writerow headers;
                Writerows all_rows; CloseFile;
                Print [Lit "[FF7SB] Wrote "; Num (length all_rows);
                       Lit " rows → "; Lit (join dir "ff7sb.csv")]]).
Proof.
  rewrite export_ff7sb_run. cbv zeta.
  destruct (connect_error cell w) as [e|];
    [split; [repeat constructor; discriminate|discriminate]|].
  pose proof (fetch_maps_trace cell of_int w MAP_IDS None []) as Hloop.
  pose proof (fetch_maps_returns cell of_int w MAP_IDS None []) as Hret.
  destruct (fetch_maps cell of_int w MAP_IDS None []) as [t r].
  unfold io_trace, io_outcome in *. cbn [fst snd] in *.
  assert (Ht : Forall (fun s : step cell => s <> Print ff7sb_no_data) t).
  { eapply Forall_impl; [exact Hloop|].
    intros s [m [-> | ->]]; discriminate. }
  unfold makedirs, write_csv, with_open, try_finally, bind, print, call.
  destruct (disconnect_error cell w) as [e|].
  { split; [|discriminate].
    repeat first [apply Forall_app; split | apply List.Forall_cons
                 | apply List.Forall_nil | exact Ht]; discriminate. }
  destruct r as [[[headers|] all_rows]|e'|c].
  - destruct (makedirs_error cell w), (csv_open_error cell w),
      (writerow_error cell w), (writerows_error cell w),
      (csv_close_error cell w);
      cbn [fst snd app];
      (split;
       [repeat first [apply Forall_app; split | apply List.Forall_cons
                     | apply List.Forall_nil | exact Ht]; discriminate
       |try discriminate]).
    intros _. eexists (_ :: _ :: (t ++ [Disconnect]) ++ [_]).
    exists headers, all_rows. cbn [app]. rewrite <- !app_assoc. reflexivity.
  - destruct (Hret None all_rows eq_refl) as [Hnone _].
    destruct (Hnone eq_refl) as [_ Hids]. discriminate.
  - split; [|discriminate].
    repeat first [apply Forall_app; split | apply List.Forall_cons
                 | apply List.Forall_nil | exact Ht]; discriminate.
  - split; [|discriminate].
    repeat first [apply Forall_app; split | apply List.Forall_cons
                 | apply List.Forall_nil | exact Ht]; discriminate.
Qed.

End ExportTraces.

(** X25. Each exporter closes the connection it opened exactly once,
    whatever fails: it touches no file before closing, it runs no query
    after, and where connecting fails nothing is closed. *)
Theorem connection_closed_once (cell : Type) (of_int : Z -> cell)
    (join : string -> string -> string) (FF7SB_DB_NAME ROCKMANX_DB_NAME : string)
    (w : Leaderboard.world cell) (output_dir : string) :
  Leaderboard.closes_once cell
    (Leaderboard.io_trace
       (Leaderboard.export_ff7sb cell of_int join FF7SB_DB_NAME w output_dir))
  = match Leaderboard.connect_error cell w with
    | None => true
    | Some _ => false
    end
  /\ Leaderboard.closes_once cell
       (Leaderboard.io_trace
          (Leaderboard.export_rockmanx cell join ROCKMANX_DB_NAME w output_dir))
     = match Leaderboard.connect_error cell w with
       | None => true
       | Some _ => false
       end.
Proof.
  split.
  - rewrite export_ff7sb_run. cbv zeta.
    destruct (Leaderboard.connect_error cell w) as [e|]; [reflexivity|].
    pose proof (fetch_maps_quiet cell of_int w Leaderboard.MAP_IDS None [])
      as Hquiet.
    destruct (Leaderboard.fetch_maps cell of_int w Leaderboard.MAP_IDS None [])
      as [t r].
    unfold Leaderboard.io_trace in Hquiet. cbn [fst] in Hquiet.
    assert (Hpre : forall post,
      Leaderboard.closes_once cell
        (Leaderboard.Print
           [Lit "[FF7SB] Connecting to DB '"; Lit FF7SB_DB_NAME; Lit "'..."]
         :: Leaderboard.Connect FF7SB_DB_NAME
         :: (t ++ [Leaderboard.Disconnect]) ++ post)
      = Leaderboard.released cell post).
    { intros post. rewrite <- app_assoc. cbn [app].
      rewrite !app_comm_cons. apply closes_once_app.
      repeat constructor; assumption. }
    unfold Leaderboard.makedirs, Leaderboard.write_csv, Leaderboard.with_open,
      Leaderboard.try_finally, Leaderboard.bind, Leaderboard.print,
      Leaderboard.call.
    destruct (Leaderboard.disconnect_error cell w) as [e|];
      [rewrite <- (app_nil_r (t ++ _)); apply Hpre|].
    destruct r as [[[headers|] all_rows]|e'|c];
      try destruct (Leaderboard.makedirs_error cell w),
        (Leaderboard.csv_open_error cell w),
        (Leaderboard.writerow_error cell w),
        (Leaderboard.writerows_error cell w),
        (Leaderboard.csv_close_error cell w);
      cbn [Leaderboard.io_trace fst app]; rewrite !app_comm_cons;
      cbn [app]; rewrite Hpre; reflexivity.
  - unfold Leaderboard.export_rockmanx, Leaderboard.fetch_top_scores,
      Leaderboard.cursor_block, Leaderboard.get_connection,
      Leaderboard.conn_close, Leaderboard.makedirs, Leaderboard.write_csv,
      Leaderboard.with_open, Leaderboard.try_finally, Leaderboard.bind,
      Leaderboard.print, Leaderboard.call, Leaderboard.ret.
    destruct (Leaderboard.connect_error cell w) as [e|]; [reflexivity|].
    destruct (Leaderboard.query cell w None) as [e|a];
      destruct (Leaderboard.disconnect_error cell w) as [e'|];
      try reflexivity;
      destruct (Leaderboard.index "ip" (Leaderboard.description a));
      destruct (Leaderboard.fetchall a); cbn [app map];
      try reflexivity;
      destruct (Leaderboard.makedirs_error cell w),
        (Leaderboard.csv_open_error cell w),
        (Leaderboard.writerow_error cell w),
        (Leaderboard.writerows_error cell w),
        (Leaderboard.csv_close_error cell w);
      reflexivity.
Qed.


(** X26. [export_ff7sb] never prints its no-data line, and it returns
    normally only having written the file: its run then ends with the
    directory made, the file opened, the header row and the rows written,
    the file closed and the line that counts the rows. *)
Theorem export_ff7sb_returns_only_after_writing (cell : Type)
    (of_int : Z -> cell) (join : string -> string -> string)
    (FF7SB_DB_NAME : string) (w : Leaderboard.world cell)
    (output_dir : string) :
  ~ In (Leaderboard.Print Leaderboard.ff7sb_no_data)
      (Leaderboard.io_trace
         (Leaderboard.export_ff7sb cell of_int join FF7SB_DB_NAME w output_dir))
  /\ (Leaderboard.io_outcome
        (Leaderboard.export_ff7sb cell of_int join FF7SB_DB_NAME w output_dir)
      = Ok tt ->
      exists t headers all_rows,
        Leaderboard.io_trace
          (Leaderboard.export_ff7sb cell of_int join FF7SB_DB_NAME w output_dir)
        = t ++ [Leaderboard.Makedirs output_dir;
                Leaderboard.Open (join output_dir "ff7sb.csv");
                Leaderboard.Writerow headers;
                Leaderboard.Writerows all_rows;
                Leaderboard.CloseFile;
                Leaderboard.Print
                  [Lit "[FF7SB] Wrote "; Num (length all_rows);
                   Lit " rows → "; Lit (join output_dir "ff7sb.csv")]]).
Proof.
  destruct (export_ff7sb_lines cell of_int join FF7SB_DB_NAME w output_dir)
    as [Hlines Hok].
  split; [|exact Hok].
  intros Hin. rewrite List.Forall_forall in Hlines.
  apply (Hlines _ Hin). reflexivity.
Qed.

(** X27. [export_ff7sb] touches the file system only after the
    connection was opened, all three maps were fetched and the connection
    was closed without error: a failed query leaves no file behind. *)
Theorem export_ff7sb_touches_files_after_all_maps (cell : Type)
    (of_int : Z -> cell) (join : string -> string -> string)
    (FF7SB_DB_NAME : string) (w : Leaderboard.world cell)
    (output_dir : string) (s : Leaderboard.step cell) :
  In s (Leaderboard.io_trace
          (Leaderboard.export_ff7sb cell of_int join FF7SB_DB_NAME w output_dir)) ->
  Leaderboard.touches_files cell s = true ->
  Leaderboard.connect_error cell w = None
  /\ Leaderboard.disconnect_error cell w = None
  /\ forall m, In m Leaderboard.MAP_IDS ->
       exists a, Leaderboard.query cell w (Some m) = inr a.
Proof.
  intros Hin Hs.
  pose proof (export_ff7sb_file_steps cell of_int join FF7SB_DB_NAME w
                output_dir) as Hsteps.
  rewrite List.Forall_forall in Hsteps.
  destruct (Hsteps s Hin Hs) as (Hc & Hd & headers & all_rows & Hloop & _).
  split; [exact Hc|]. split; [exact Hd|].
  apply (fetch_maps_returns cell of_int w _ _ _ _ _ Hloop).
Qed.

Lemma export_ff7sb_touches_files_after_all_maps_witness :
  In (Leaderboard.Open "out/ff7sb.csv")
    (Leaderboard.io_trace
       (Leaderboard.export_ff7sb pyval PInt LeaderboardSamples.join "ff7"
          (LeaderboardSamples.db LeaderboardSamples.runs) "out"))
  /\ Leaderboard.connect_error pyval
       (LeaderboardSamples.db LeaderboardSamples.runs) = None
  /\ Leaderboard.disconnect_error pyval
       (LeaderboardSamples.db LeaderboardSamples.runs) = None
  /\ forall m, In m Leaderboard.MAP_IDS ->
       exists a,
         Leaderboard.query pyval
           (LeaderboardSamples.db LeaderboardSamples.runs) (Some m) = inr a.
Proof.
  assert (Hin : In (Leaderboard.Open "out/ff7sb.csv")
            (Leaderboard.io_trace
               (Leaderboard.export_ff7sb pyval PInt LeaderboardSamples.join
                  "ff7" (LeaderboardSamples.db LeaderboardSamples.runs)
                  "out"))).
  { vm_compute. tauto. }
  split; [exact Hin|].
  exact (export_ff7sb_touches_files_after_all_maps pyval PInt
           LeaderboardSamples.join "ff7"
           (LeaderboardSamples.db LeaderboardSamples.runs) "out"
           (Leaderboard.Open "out/ff7sb.csv") Hin eq_refl).
Defined.

(** X28. The header row [export_ff7sb] writes is the headers that
    [fetch_map] returned for map 1, and the rows it writes are the rows
    returned for the maps 1, 3 and 5, in this order: the headers of the
    later maps are not looked at. *)
Theorem csv_holds_first_headers_and_all_rows (cell : Type)
    (of_int : Z -> cell) (join : string -> string -> string)
    (FF7SB_DB_NAME : string) (w : Leaderboard.world cell)
    (output_dir : string) :
  (forall headers,
     In (Leaderboard.Writerow headers)
       (Leaderboard.io_trace
          (Leaderboard.export_ff7sb cell of_int join FF7SB_DB_NAME w
             output_dir)) ->
     exists r1,
       Leaderboard.io_outcome (Leaderboard.fetch_map cell of_int w 1)
       = Ok (headers, r1))
  /\ (forall rows,
       In (Leaderboard.Writerows rows)
         (Leaderboard.io_trace
            (Leaderboard.export_ff7sb cell of_int join FF7SB_DB_NAME w
               output_dir)) ->
       exists h1 r1 h3 r3 h5 r5,
         Leaderboard.io_outcome (Leaderboard.fetch_map cell of_int w 1)
         = Ok (h1, r1)
         /\ Leaderboard.io_outcome (Leaderboard.fetch_map cell of_int w 3)
            = Ok (h3, r3)
         /\ Leaderboard.io_outcome (Leaderboard.fetch_map cell of_int w 5)
            = Ok (h5, r5)
         /\ rows = r1 ++ r3 ++ r5).
Proof.
  pose proof (export_ff7sb_file_steps cell of_int join FF7SB_DB_NAME w
                output_dir) as Hsteps.
  rewrite List.Forall_forall in Hsteps.
  split; intros x Hin;
    destruct (Hsteps _ Hin eq_refl)
      as (_ & _ & headers & all_rows & Hloop & Hcase);
    destruct (fetch_maps_all cell of_int w _ _ Hloop)
      as (a1 & a3 & a5 & H1 & H3 & H5 & Hh & Hr);
    injection Hh as ->; subst all_rows;
    rewrite ?(fetch_map_answer cell of_int w 1 a1 H1),
      ?(fetch_map_answer cell of_int w 3 a3 H3),
      ?(fetch_map_answer cell of_int w 5 a5 H5);
    destruct Hcase as [H|[H|[H|[H|H]]]]; try discriminate;
    injection H as ->.
  - eexists. reflexivity.
  - do 6 eexists. repeat split; reflexivity.
Qed.

Lemma csv_holds_first_headers_and_all_rows_witness :
  In (Leaderboard.Writerow ["name"; "run_time"; "map_id"])
    (Leaderboard.io_trace
       (Leaderboard.export_ff7sb pyval PInt LeaderboardSamples.join "ff7"
          (LeaderboardSamples.db LeaderboardSamples.runs) "out"))
  /\ exists r1,
       Leaderboard.io_outcome
         (Leaderboard.fetch_map pyval PInt
            (LeaderboardSamples.db LeaderboardSamples.runs) 1)
       = Ok (["name"; "run_time"; "map_id"], r1).
Proof.
  assert (Hin : In (Leaderboard.Writerow ["name"; "run_time"; "map_id"])
            (Leaderboard.io_trace
               (Leaderboard.export_ff7sb pyval PInt LeaderboardSamples.join
                  "ff7" (LeaderboardSamples.db LeaderboardSamples.runs)
                  "out"))).
  { vm_compute. tauto. }
  split; [exact Hin|].
  exact (proj1 (csv_holds_first_headers_and_all_rows pyval PInt
                  LeaderboardSamples.join "ff7"
                  (LeaderboardSamples.db LeaderboardSamples.runs) "out")
           _ Hin).
Defined.

(** X29. Where the query of [export_rockmanx] returns no row, the
    exporter touches no file, whatever else happens; with the connection
    opened and closed without error it prints the no-data line and
    returns normally. *)
Theorem export_rockmanx_without_rows (cell : Type)
    (join : string -> string -> string) (ROCKMANX_DB_NAME : string)
    (w : Leaderboard.world cell) (output_dir : string)
    (a : Leaderboard.answer cell) :
  Leaderboard.query cell w None = inr a ->
  Leaderboard.fetchall a = [] ->
  Forall (fun s => Leaderboard.touches_files cell s = false)
    (Leaderboard.io_trace
       (Leaderboard.export_rockmanx cell join ROCKMANX_DB_NAME w output_dir))
  /\ (Leaderboard.connect_error cell w = None ->
      Leaderboard.disconnect_error cell w = None ->
      Leaderboard.export_rockmanx cell join ROCKMANX_DB_NAME w output_dir
      = ([Leaderboard.Print
            [Lit "[RockmanX] Connecting to DB '"; Lit ROCKMANX_DB_NAME;
             Lit "'..."];
          Leaderboard.Connect ROCKMANX_DB_NAME;
          Leaderboard.Execute None;
          Leaderboard.Disconnect;
          Leaderboard.Print [Lit "[RockmanX] Database connection closed."];
          Leaderboard.Print Leaderboard.rockmanx_no_data],
         Ok tt)).
Proof.
  intros Hq Hrows.
  unfold Leaderboard.export_rockmanx, Leaderboard.get_connection,
    Leaderboard.conn_close.
  rewrite (fetch_top_scores_answer cell w a Hq).
  unfold Leaderboard.stripped. rewrite Hrows.
  unfold Leaderboard.try_finally, Leaderboard.bind, Leaderboard.print,
    Leaderboard.call.
  destruct (Leaderboard.connect_error cell w) as [e|],
    (Leaderboard.disconnect_error cell w) as [e'|],
    (Leaderboard.index "ip" (Leaderboard.description a));
    (split; [repeat constructor|intros; try discriminate; reflexivity]).
Qed.

Lemma export_rockmanx_without_rows_witness :
  Forall (fun s => Leaderboard.touches_files pyval s = false)
    (Leaderboard.io_trace
       (Leaderboard.export_rockmanx pyval LeaderboardSamples.join "rx"
          (LeaderboardSamples.db LeaderboardSamples.no_rows) "out"))
  /\ Leaderboard.io_outcome
       (Leaderboard.export_rockmanx pyval LeaderboardSamples.join "rx"
          (LeaderboardSamples.db LeaderboardSamples.no_rows) "out")
     = Ok tt.
Proof.
  destruct (export_rockmanx_without_rows pyval LeaderboardSamples.join "rx"
              (LeaderboardSamples.db LeaderboardSamples.no_rows) "out"
              LeaderboardSamples.no_rows eq_refl eq_refl) as [Hfiles Hrun].
  split; [exact Hfiles|].
  rewrite (Hrun eq_refl eq_refl). reflexivity.
Defined.

(** X30. The master script returns normally exactly when both exporters
    do, and its last line is then the success line, whether or not a file
    was written; where the first exporter fails, it ends the same way
    right there, and the second exporter is never started. *)
Theorem main_stops_at_the_first_failure (cell : Type) (of_int : Z -> cell)
    (join : string -> string -> string)
    (FF7SB_DB_NAME ROCKMANX_DB_NAME OUTPUT_DIR : string)
    (ff7sb rockmanx : Leaderboard.world cell) :
  let run :=
    Leaderboard.main cell of_int join FF7SB_DB_NAME ROCKMANX_DB_NAME
      OUTPUT_DIR ff7sb rockmanx in
  let first :=
    Leaderboard.export_ff7sb cell of_int join FF7SB_DB_NAME ff7sb OUTPUT_DIR in
  let second :=
    Leaderboard.export_rockmanx cell join ROCKMANX_DB_NAME rockmanx
      OUTPUT_DIR in
  (Leaderboard.io_outcome run = Ok tt
   <-> Leaderboard.io_outcome first = Ok tt
       /\ Leaderboard.io_outcome second = Ok tt)
  /\ (Leaderboard.io_outcome run = Ok tt ->
      last (Leaderboard.io_trace run)
      = Some (Leaderboard.Print Leaderboard.master_done))
  /\ (Leaderboard.io_outcome first <> Ok tt ->
      run = (Leaderboard.Print
               [Lit "[MASTER] Saving all CSVs to: "; Lit OUTPUT_DIR]
             :: Leaderboard.io_trace first,
             Leaderboard.io_outcome first)).
Proof.
  intros run first second. subst run. unfold Leaderboard.main.
  fold first. fold second.
  destruct first as [t1 [[]|e1|c1]]; destruct second as [t2 [[]|e2|c2]];
    unfold Leaderboard.bind, Leaderboard.print, Leaderboard.call,
      Leaderboard.io_outcome, Leaderboard.io_trace; cbn [fst snd app];
    (split; [split; [intros H; try discriminate; split; reflexivity
                    |intros [H1 H2]; try discriminate; reflexivity]|]);
    (split; [intros H; try discriminate|intros H; try reflexivity]).
  - rewrite app_comm_cons, app_assoc. apply last_snoc.
  - contradiction.
  - contradiction.
  - contradiction.
Qed.
